(** * Serenity Care AI Telegram bot: message routing, booking parsing,
      admin gate, media fallback and daily brief.

    A shallow embedding of [api/lib/utils.js], [api/lib/llm.js],
    [api/lib/supabase.js], [api/routes/telegram.js] and [api/server.js].

    JavaScript strings are sequences of UTF-16 code units; they are
    modelled as [list N].  Handlers are written in a small state monad
    with exceptions: the world holds the storage client, the model, the
    replies sent so far and the calls made to the storage and AI
    collaborators, in order. *)

From Stdlib Require Import String Ascii NArith ZArith Bool Arith Lia List.
From Stdlib Require Import DecimalString.
Import ListNotations.

(* ================================================================== *)
(** ** JavaScript strings *)
(* ================================================================== *)

Module JsString.

Local Open Scope N_scope.

(** A string value: its UTF-16 code units. *)
Definition jsstring := list N.

(** UTF-16 code units of a code point (a surrogate pair above the BMP). *)
Definition units_of_code_point (cp : N) : jsstring :=
  if cp <? 65536 then [cp]
  else [55296 + (cp - 65536) / 1024; 56320 + (cp - 65536) mod 1024].

(** Literals of the source are written as UTF-8 text and decoded here:
    [acc] is the code point being assembled, [pending] the number of
    continuation bytes still expected. *)
Fixpoint decode_utf8 (s : string) (acc : N) (pending : nat) : jsstring :=
  match s with
  | EmptyString => []
  | String a r =>
      let b := N_of_ascii a in
      match pending with
      | O =>
          if b <? 128 then b :: decode_utf8 r 0 0
          else if b <? 224 then decode_utf8 r (b mod 32) 1
          else if b <? 240 then decode_utf8 r (b mod 16) 2
          else decode_utf8 r (b mod 8) 3
      | S O => units_of_code_point (acc * 64 + b mod 64) ++ decode_utf8 r 0 0
      | S k => decode_utf8 r (acc * 64 + b mod 64) k
      end
  end.

Definition js (s : string) : jsstring := decode_utf8 s 0 0.

(** [a === b] on strings. *)
Fixpoint str_eqb (a b : jsstring) : bool :=
  match a, b with
  | [], [] => true
  | x :: a', y :: b' => (x =? y) && str_eqb a' b'
  | _, _ => false
  end.

(** [!text] on a string: only the empty string is falsy. *)
Definition is_empty (s : jsstring) : bool :=
  match s with [] => true | _ => false end.

(** [s.startsWith(p)] *)
Fixpoint startsWith (s p : jsstring) : bool :=
  match p, s with
  | [], _ => true
  | y :: p', x :: s' => (x =? y) && startsWith s' p'
  | _ :: _, [] => false
  end.

(** [s.includes(sub)] *)
Fixpoint includes (s sub : jsstring) : bool :=
  startsWith s sub ||
  match s with
  | [] => false
  | _ :: r => includes r sub
  end.

(** [arr.includes(x)] on an array of strings. *)
Definition array_includes (arr : list jsstring) (x : jsstring) : bool :=
  existsb (str_eqb x) arr.

(** Lower case of an ASCII letter; other code units are kept.  This is
    also how a regular expression with flag [i] and without flag [u]
    compares a code unit with an ASCII letter of the pattern. *)
Definition lower_unit (c : N) : N :=
  if (65 <=? c) && (c <=? 90) then c + 32 else c.

(** [s.toLowerCase()].  The letters A-Z become a-z.  Two code units
    outside ASCII have a lower case with an ASCII letter in it: the
    Kelvin sign U+212A becomes k, and the dotted capital I U+0130
    becomes i followed by U+0307.  Every other code unit is kept: its
    lower case has no ASCII letter, and every string the program compares
    a lower-cased text with is ASCII. *)
Definition lower_units (c : N) : jsstring :=
  if c =? 8490 then [107]
  else if c =? 304 then [105; 775]
  else [lower_unit c].

Definition toLowerCase (s : jsstring) : jsstring := flat_map lower_units s.

(** WhiteSpace and LineTerminator code units: what [trim] strips and
    what [\s] matches. *)
Definition is_space (c : N) : bool :=
  ((9 <=? c) && (c <=? 13)) || (c =? 32) || (c =? 160) || (c =? 5760)
  || ((8192 <=? c) && (c <=? 8202)) || (c =? 8232) || (c =? 8233)
  || (c =? 8239) || (c =? 8287) || (c =? 12288) || (c =? 65279).

(** [\w] without the unicode flag: [A-Za-z0-9_]. *)
Definition is_word (c : N) : bool :=
  ((48 <=? c) && (c <=? 57)) || ((65 <=? c) && (c <=? 90)) || (c =? 95)
  || ((97 <=? c) && (c <=? 122)).

(** [[a-zA-Z]] *)
Definition is_alpha (c : N) : bool :=
  ((65 <=? c) && (c <=? 90)) || ((97 <=? c) && (c <=? 122)).

Fixpoint trimStart (s : jsstring) : jsstring :=
  match s with
  | [] => []
  | c :: r => if is_space c then trimStart r else s
  end.

Fixpoint trimEnd (s : jsstring) : jsstring :=
  match s with
  | [] => []
  | c :: r =>
      match trimEnd r with
      | [] => if is_space c then [] else [c]
      | r' => c :: r'
      end
  end.

(** [s.trim()] *)
Definition trim (s : jsstring) : jsstring := trimEnd (trimStart s).

(** [s.substring(start, end)]: both indices are clamped to the length
    and swapped when [start > end]. *)
Definition substring (s : jsstring) (start stop : nat) : jsstring :=
  let a := Nat.min start (length s) in
  let b := Nat.min stop (length s) in
  firstn (Nat.max a b - Nat.min a b) (skipn (Nat.min a b) s).

(** [s.split(sep)] for a separator of one code unit. *)
Fixpoint split (s : jsstring) (sep : N) : list jsstring :=
  match s with
  | [] => [[]]
  | c :: r =>
      if c =? sep then [] :: split r sep
      else match split r sep with
           | p :: ps => (c :: p) :: ps
           | [] => [[c]]
           end
  end.

(** [parts.join(sep)] *)
Fixpoint join (parts : list jsstring) (sep : jsstring) : jsstring :=
  match parts with
  | [] => []
  | [p] => p
  | p :: ps => p ++ sep ++ join ps sep
  end.

(** [s.replace(re, '')] for a global regular expression whose match at
    the head of a string, if any, is not empty: [match_len s] is the
    length of the match that starts at the head of [s], or 0.  The scan
    goes left to right and resumes after each match; [skip] counts the
    code units of the current match still to drop. *)
Fixpoint remove_matches (match_len : jsstring -> nat) (s : jsstring)
         (skip : nat) : jsstring :=
  match s with
  | [] => []
  | c :: r =>
      match skip with
      | S k => remove_matches match_len r k
      | O =>
          match match_len s with
          | S k => remove_matches match_len r k
          | O => c :: remove_matches match_len r 0
          end
      end
  end.

(** Case-insensitive match of an ASCII pattern at the head of [s]
    (flag [i] without flag [u]). *)
Fixpoint startsWith_ci (s p : jsstring) : bool :=
  match p, s with
  | [], _ => true
  | y :: p', x :: s' => (lower_unit x =? lower_unit y) && startsWith_ci s' p'
  | _ :: _, [] => false
  end.

(** Length of the longest prefix of word characters. *)
Fixpoint word_run (s : jsstring) : nat :=
  match s with
  | c :: r => if is_word c then S (word_run r) else O
  | [] => O
  end.

Definition comma : N := 44.

(** The empty string. *)
Definition empty : jsstring := [].

End JsString.

Import JsString.


Definition nl : jsstring := [10%N].
Definition dquote : jsstring := [34%N].

(* ================================================================== *)
(** ** Configuration ([api/config/env.js]) *)
(* ================================================================== *)

(** [MD_TELEGRAM_USER_ID] is [parseInt(...)] of the variable when it is
    set and [null] otherwise; [parseInt] gives [NaN] on text that does
    not start with a number. *)
Inductive AdminId :=
| AdminNull
| AdminNaN
| AdminNum (id : Z).

Record Env := {
  OWNER_NAME : jsstring;
  CLINIC_NAME : jsstring;
  CITY : jsstring;
  MD_TELEGRAM_USER_ID : AdminId
}.

(** The defaults of [env.js], with no admin configured. *)
Definition defaultEnv : Env := {|
  OWNER_NAME := js "Dr. Kunle Adesina";
  CLINIC_NAME := js "Serenity Royale Hospital";
  CITY := js "Abuja";
  MD_TELEGRAM_USER_ID := AdminNull
|}.

(** Truthiness of [env.MD_TELEGRAM_USER_ID]: [null], [NaN] and [0] are
    falsy. *)
Definition admin_configured (a : AdminId) : bool :=
  match a with
  | AdminNum id => negb (id =? 0)%Z
  | _ => false
  end.

(* ================================================================== *)
(** ** Utilities ([api/lib/utils.js]) *)
(* ================================================================== *)

Module Utils.

Section WithEnv.
Variable env : Env.

Definition getMainMenu : jsstring :=
  join [
    js "Hi, I'm SerenityBot for " ++ CLINIC_NAME env ++ js " (" ++ CITY env ++ js ").";
    empty;
    js "🏥 1) Book appointment";
    js "❓ 2) FAQs";
    js "👨‍⚕️ 3) Talk to staff";
    empty;
    js "You can also send images, PDFs, voice notes or videos. I will reply in text."
  ] nl.

Definition getOwnerProfile : jsstring :=
  join [
    OWNER_NAME env ++ js " is the Managing Director of " ++ CLINIC_NAME env
      ++ js " in " ++ CITY env ++ js ".";
    empty;
    js "For administrative matters, please send your request and we will ensure it reaches the appropriate person.";
    empty;
    js "Response time: Within 2-4 business hours."
  ] nl.

(** [userId === env.MD_TELEGRAM_USER_ID] guarded by the truthiness of the
    configured id. *)
Definition isAuthorizedMD (userId : Z) : bool :=
  admin_configured (MD_TELEGRAM_USER_ID env) &&
  match MD_TELEGRAM_USER_ID env with
  | AdminNum id => (userId =? id)%Z
  | _ => false
  end.

End WithEnv.

Definition getFAQMenu : jsstring :=
  join [
    js "📋 Frequently Asked Questions:";
    empty;
    js "📍 Locations:";
    js "  • Galadinmawa, Abuja";
    js "  • Karu, Abuja";
    empty;
    js "⏰ Hours: 8am–6pm Monday–Saturday";
    empty;
    js "🏥 Services:";
    js "  • Mental health support";
    js "  • Substance-use counseling";
    js "  • General consultations";
    empty;
    js "💳 Payment: Cash, Bank Transfer, Insurance";
    empty;
    js "📞 For emergencies, please call our 24/7 hotline."
  ] nl.

Definition getBookingInstructions : jsstring :=
  join [
    js "📅 To book an appointment, please send:";
    empty;
    js "Format: Full Name, Preferred Date/Time";
    empty;
    js "Examples:";
    js "• Ada Lovelace, Friday 3pm";
    js "• John Doe, Tomorrow 10am";
    js "• Jane Smith, Monday morning";
    empty;
    js "We'll confirm availability and contact you shortly."
  ] nl.

Definition getStaffConnectionMessage : jsstring :=
  join [
    js "👨‍⚕️ Connecting you with our staff...";
    empty;
    js "Your message will be forwarded to our next available team member.";
    js "Expected response time: 30 minutes - 2 hours during business hours.";
    empty;
    js "For urgent matters, please call our clinic directly."
  ] nl.

(** [/^[a-zA-Z\s]+,\s*[a-zA-Z0-9\s:]+$/.test(text)].  The first class
    has no comma, so the name part is the text before the first comma;
    [\s] lies inside the second class, so what follows the comma only
    has to be a non-empty run of that class up to the end.  [seen]
    records that one character of the name part was read. *)
Definition is_name_char (c : N) : bool := is_alpha c || is_space c.

Definition is_time_char (c : N) : bool :=
  is_alpha c || ((48 <=? c) && (c <=? 57))%N || is_space c || (c =? 58)%N.

Fixpoint nameTimePattern_from (s : jsstring) (seen : bool) : bool :=
  match s with
  | [] => false
  | c :: r =>
      if (c =? comma)%N
      then seen && negb (is_empty r) && forallb is_time_char r
      else is_name_char c && nameTimePattern_from r true
  end.

Definition nameTimePattern_test (text : jsstring) : bool :=
  nameTimePattern_from text false.

Definition bookingKeywords : list jsstring :=
  [js "book"; js "appointment"; js "schedule"; js "visit"].

Definition looksLikeBooking (text : jsstring) : bool :=
  if is_empty text then false
  else
    let hasComma := includes text (js ",") in
    let hasBookingKeyword :=
      existsb (fun keyword => includes (toLowerCase text) keyword)
              bookingKeywords in
    hasComma || hasBookingKeyword || nameTimePattern_test text.

(** The object returned by [validateBookingFormat]:
    [{ valid: true, name, timeSlot }] or [{ valid: false }]. *)
Inductive BookingValidation :=
| Valid (name timeSlot : jsstring)
| Invalid.

Definition valid (v : BookingValidation) : bool :=
  match v with Valid _ _ => true | Invalid => false end.

Definition validateBookingFormat (text : jsstring) : BookingValidation :=
  if is_empty text then Invalid
  else
    let parts := split text comma in
    if 2 <=? length parts then
      let name := trim (nth 0 parts []) in
      let timeSlot := trim (nth 1 parts []) in
      if (2 <? length name) && (2 <? length timeSlot)
      then Valid name timeSlot
      else Invalid
    else Invalid.

Definition getBookingReply (text : jsstring) : jsstring :=
  join [
    js "✅ Booking request received!";
    empty;
    js "Request: " ++ dquote ++ text ++ dquote;
    empty;
    js "A staff member will contact you shortly to confirm your appointment.";
    js "Please ensure your phone number is available for confirmation."
  ] nl.

Definition getInvalidBookingMessage : jsstring :=
  join [
    js "❌ Booking format not recognized.";
    empty;
    js "Please use: Full Name, Preferred Date/Time";
    js "Example: 'Ada Lovelace, Friday 3pm'";
    empty;
    js "Or type '1' for booking instructions."
  ] nl.

(** [/[<>]/] *)
Definition is_angle (c : N) : bool := ((c =? 60) || (c =? 62))%N.

(** Length of a match of [/javascript:/i] at the head of [s]. *)
Definition javascript_len (s : jsstring) : nat :=
  if startsWith_ci s (js "javascript:") then 11 else 0.

(** Length of a match of [/on\w+=/i] at the head of [s]: the greedy
    [\w+] takes the whole run of word characters, and [=] is not a word
    character, so a match needs [=] right after that run. *)
Definition on_handler_len (s : jsstring) : nat :=
  match s with
  | o :: n :: r =>
      if ((lower_unit o =? 111) && (lower_unit n =? 110))%N then
        let k := word_run r in
        if (1 <=? k) &&
           match nth_error r k with
           | Some c => (c =? 61)%N
           | None => false
           end
        then 3 + k
        else 0
      else 0
  | _ => 0
  end.

Definition sanitizeText (text : jsstring) : jsstring :=
  if is_empty text then []
  else
    substring
      (trim
         (remove_matches on_handler_len
            (remove_matches javascript_len
               (filter (fun c => negb (is_angle c)) text) 0) 0))
      0 2000.

Definition getErrorMessage : jsstring :=
  js "Sorry, something went wrong. Please try again or contact our staff directly.".

Definition healthKeywords : list jsstring :=
  [js "pain"; js "sick"; js "help"; js "emergency"; js "urgent";
   js "depression"; js "anxiety"; js "mental"; js "stress";
   js "hurt"; js "feel"; js "doctor"; js "medicine"; js "treatment"].

Definition hasHealthKeywords (text : jsstring) : bool :=
  if is_empty text then false
  else
    let lowerText := toLowerCase text in
    existsb (fun keyword => includes lowerText keyword) healthKeywords.

Definition getHealthResponse : jsstring :=
  join [
    js "I understand you may be experiencing health concerns.";
    empty;
    js "While I can help with appointments and information, I cannot provide medical advice.";
    empty;
    js "For immediate care:";
    js "• Book an appointment: Send 'Your Name, preferred time'";
    js "• For emergencies: Please call our 24/7 hotline immediately";
    empty;
    js "Our medical professionals are here to help."
  ] nl.

End Utils.

(* ================================================================== *)
(** ** Collaborators and the handler monad *)
(* ================================================================== *)

(** Rows of the tables the program reads and writes.  Times are
    milliseconds since the epoch, as [new Date().toISOString()] has
    them. *)
Record ChatLog := {
  cl_timestamp : Z;
  cl_message_text : jsstring
}.

Inductive Status := pending | confirmed | cancelled | completed | rescheduled.

Definition status_eqb (a b : Status) : bool :=
  match a, b with
  | pending, pending | confirmed, confirmed | cancelled, cancelled
  | completed, completed | rescheduled, rescheduled => true
  | _, _ => false
  end.

Record Appointment := {
  ap_patient_id : Z;
  ap_full_name : jsstring;
  ap_preferred_datetime : jsstring;
  ap_status : Status;
  ap_telegram_user_id : Z;
  ap_telegram_chat_id : Z;
  ap_raw_request : jsstring;
  ap_created_at : Z;
  ap_updated_at : Z
}.

(** The argument of [db.createAppointment]. *)
Record AppointmentData := {
  patient_id : Z;
  full_name : jsstring;
  preferred_datetime : jsstring;
  telegram_user_id : Z;
  telegram_chat_id : Z;
  raw_request : jsstring
}.

(** The requests [supabase.js] sends, and how the server may answer one:
    with data, with an [error] object, or by a rejected promise. *)
Inductive Query :=
| QChats | QBookings | QCancels | QFaqs | QFollowups | QInsertAppointment.

Inductive Outcome := Succeeds | ReturnsError | Rejects.

Record Client := {
  chat_logs : list ChatLog;
  appointments : list Appointment;
  outcome : Query -> Outcome
}.

(** The Gemini models: the text a [generateContent] call produces, or
    [None] when the call (or reading its response) throws. *)
Record Gemini := {
  textModel : jsstring -> option jsstring;
  visionModel : jsstring -> jsstring -> option jsstring
}.

(** Calls made to the collaborators. *)
Inductive Call :=
| DbCreateAppointment (d : AppointmentData)
| DbGetDailyBrief
| DbGetFollowupAppointments (limit : nat)
| AiGenerateText (userText : jsstring)
| AiGenerateMedia (contentType : jsstring).

(** A message sent with [ctx.reply]; [markdown] is the
    [{ parse_mode: 'Markdown' }] option. *)
Record Sent := {
  sent_text : jsstring;
  markdown : bool
}.

(** [now] is the clock, [localeDate] what
    [new Date().toLocaleDateString()] prints for it. *)
Record World := {
  now : Z;
  localeDate : jsstring;
  supabase : option Client;
  gemini : option Gemini;
  replies : list Sent;
  calls : list Call
}.

Inductive Exn := TypeError | ServiceError.

Inductive Completion (A : Type) :=
| Normal (a : A)
| Throw (e : Exn).

Arguments Normal {A} a.
Arguments Throw {A} e.

Definition M (A : Type) : Type := World -> Completion A * World.

Definition ret {A} (a : A) : M A := fun w => (Normal a, w).

Definition bind {A B} (m : M A) (k : A -> M B) : M B :=
  fun w =>
    match m w with
    | (Normal a, w') => k a w'
    | (Throw e, w') => (Throw e, w')
    end.

Definition throw {A} (e : Exn) : M A := fun w => (Throw e, w).

Definition try_catch {A} (m : M A) (handler : Exn -> M A) : M A :=
  fun w =>
    match m w with
    | (Normal a, w') => (Normal a, w')
    | (Throw e, w') => handler e w'
    end.

Definition get : M World := fun w => (Normal w, w).

Declare Scope js_scope.
Delimit Scope js_scope with js_m.
Notation "x <- m ;; k" := (bind m (fun x => k))
  (at level 61, m at next level, right associativity) : js_scope.
Notation "m ;; k" := (bind m (fun _ => k))
  (at level 61, right associativity) : js_scope.
Open Scope js_scope.

Definition add_call (w : World) (c : Call) : World :=
  {| now := now w; localeDate := localeDate w; supabase := supabase w;
     gemini := gemini w; replies := replies w; calls := calls w ++ [c] |}.

Definition add_reply (w : World) (text : jsstring) (md : bool) : World :=
  {| now := now w; localeDate := localeDate w; supabase := supabase w;
     gemini := gemini w;
     replies := replies w ++ [{| sent_text := text; markdown := md |}];
     calls := calls w |}.

Definition with_client (w : World) (c : Client) : World :=
  {| now := now w; localeDate := localeDate w; supabase := Some c;
     gemini := gemini w; replies := replies w; calls := calls w |}.

Definition record_call (c : Call) : M unit :=
  fun w => (Normal tt, add_call w c).

(** [await ctx.reply(text, options)] on an update that has a chat, for a
    message the Bot API takes: the message joins the replies.  [send],
    further down, is the call with its two ways to fail. *)
Definition reply (text : jsstring) (md : bool) : M unit :=
  fun w => (Normal tt, add_reply w text md).

Definition set_client (c : Client) : M unit :=
  fun w => (Normal tt, with_client w c).

(** Reading a property of [undefined] throws a [TypeError]. *)
Definition property {A} (o : option A) : M A :=
  match o with
  | Some a => ret a
  | None => throw TypeError
  end.

(* ================================================================== *)
(** ** Storage ([api/lib/supabase.js]) *)
(* ================================================================== *)

Module Supabase.

Definition ms_per_day : Z := 86400000.

(** [targetDate] is a calendar day, here its number since the epoch;
    the window is [T00:00:00.000Z] to [T23:59:59.999Z] of that day. *)
Definition startOfDay (day : Z) : Z := day * ms_per_day.
Definition endOfDay (day : Z) : Z := day * ms_per_day + (ms_per_day - 1).

(** [new Date().toISOString().split('T')[0]] *)
Definition today (w : World) : Z := now w / ms_per_day.

Definition in_window (day t : Z) : bool :=
  (startOfDay day <=? t)%Z && (t <=? endOfDay day)%Z.

(** [.ilike(column, '%faq%')] *)
Definition ilike_contains (text pat : jsstring) : bool :=
  includes (toLowerCase text) (toLowerCase pat).

Record DailyBrief := {
  chats : nat;
  bookings : nat;
  cancels : nat;
  faqs : nat
}.

Definition zeroBrief : DailyBrief :=
  {| chats := 0; bookings := 0; cancels := 0; faqs := 0 |}.

(** What a [select] resolves to: [data] ([None] for [null]), or the
    rejection of the promise. *)
Definition select {A} (c : Client) (q : Query) (rows : list A)
  : M (option (list A)) :=
  match outcome c q with
  | Succeeds => ret (Some rows)
  | ReturnsError => ret None
  | Rejects => throw ServiceError
  end.

(** [data?.length || 0] *)
Definition count_or_zero {A} (data : option (list A)) : nat :=
  match data with
  | Some rows => length rows
  | None => 0
  end.

Definition chat_rows (c : Client) (day : Z) : list ChatLog :=
  filter (fun r => in_window day (cl_timestamp r)) (chat_logs c).

Definition booking_rows (c : Client) (day : Z) : list Appointment :=
  filter (fun a => status_eqb (ap_status a) pending
                   && in_window day (ap_created_at a)) (appointments c).

Definition cancel_rows (c : Client) (day : Z) : list Appointment :=
  filter (fun a => status_eqb (ap_status a) cancelled
                   && in_window day (ap_updated_at a)) (appointments c).

Definition faq_rows (c : Client) (day : Z) : list ChatLog :=
  filter (fun r => ilike_contains (cl_message_text r) (js "faq")
                   && in_window day (cl_timestamp r)) (chat_logs c).

Definition getDailyBrief (date : option Z) : M DailyBrief :=
  record_call DbGetDailyBrief ;;
  w <- get ;;
  match supabase w with
  | None => ret zeroBrief
  | Some client =>
      try_catch
        (let targetDate := match date with Some d => d | None => today w end in
         chats <- select client QChats (chat_rows client targetDate) ;;
         bookings <- select client QBookings (booking_rows client targetDate) ;;
         cancels <- select client QCancels (cancel_rows client targetDate) ;;
         faqs <- select client QFaqs (faq_rows client targetDate) ;;
         ret {| chats := count_or_zero chats;
                bookings := count_or_zero bookings;
                cancels := count_or_zero cancels;
                faqs := count_or_zero faqs |})
        (fun _ => ret zeroBrief)
  end.

Definition createAppointment (appointmentData : AppointmentData)
  : M (option Appointment) :=
  record_call (DbCreateAppointment appointmentData) ;;
  w <- get ;;
  match supabase w with
  | None => ret None
  | Some client =>
      let appointment := {|
        ap_patient_id := patient_id appointmentData;
        ap_full_name := full_name appointmentData;
        ap_preferred_datetime := preferred_datetime appointmentData;
        ap_status := pending;
        ap_telegram_user_id := telegram_user_id appointmentData;
        ap_telegram_chat_id := telegram_chat_id appointmentData;
        ap_raw_request := raw_request appointmentData;
        ap_created_at := now w;
        ap_updated_at := now w |} in
      match outcome client QInsertAppointment with
      | Succeeds =>
          set_client {| chat_logs := chat_logs client;
                        appointments := appointments client ++ [appointment];
                        outcome := outcome client |} ;;
          ret (Some appointment)
      | ReturnsError => ret None
      | Rejects => ret None
      end
  end.

(** [.order('created_at', { ascending: true })] *)
Fixpoint insert_by_created_at (a : Appointment) (l : list Appointment)
  : list Appointment :=
  match l with
  | [] => [a]
  | b :: r =>
      if (ap_created_at a <=? ap_created_at b)%Z then a :: l
      else b :: insert_by_created_at a r
  end.

Definition order_by_created_at (l : list Appointment) : list Appointment :=
  fold_right insert_by_created_at [] l.

Definition followup_rows (c : Client) (limit : nat) : list Appointment :=
  firstn limit
    (order_by_created_at
       (filter (fun a => status_eqb (ap_status a) pending
                         || status_eqb (ap_status a) rescheduled)
               (appointments c))).

Definition getFollowupAppointments (limit : nat) : M (list Appointment) :=
  record_call (DbGetFollowupAppointments limit) ;;
  w <- get ;;
  match supabase w with
  | None => ret []
  | Some client =>
      match outcome client QFollowups with
      | Succeeds => ret (followup_rows client limit)
      | ReturnsError => ret []
      | Rejects => ret []
      end
  end.

End Supabase.

(* ================================================================== *)
(** ** Gemini integration ([api/lib/llm.js]) *)
(* ================================================================== *)

Module Llm.

(** [value || fallback] on strings. *)
Definition or_else (value fallback : jsstring) : jsstring :=
  if is_empty value then fallback else value.

(** [textModel.generateContent(prompt)] followed by [response.text()];
    the prompt is the fixed system prompt around [userText]. *)
Definition generateText (g : Gemini) (userText : jsstring) : M jsstring :=
  record_call (AiGenerateText userText) ;;
  match textModel g userText with
  | Some text => ret text
  | None => throw ServiceError
  end.

(** [visionModel.generateContent([prompt, mediaPart])] followed by
    [response.text()]; the prompt is fixed by the content type. *)
Definition generateMedia (g : Gemini) (bufferBase64 contentType : jsstring)
  : M jsstring :=
  record_call (AiGenerateMedia contentType) ;;
  match visionModel g contentType bufferBase64 with
  | Some text => ret text
  | None => throw ServiceError
  end.

Definition llmTextReply (userText : jsstring) : M jsstring :=
  w <- get ;;
  match gemini w with
  | None =>
      ret (js "I'm currently unable to process your request. Please contact our staff directly for assistance.")
  | Some client =>
      try_catch
        (text <- generateText client userText ;;
         let text :=
           if 400 <? length text
           then substring text 0 397 ++ js "..."
           else text in
         ret (or_else text
                (js "Thank you for your message. A staff member will assist you shortly.")))
        (fun _ =>
           ret (js "I'm having trouble processing your request right now. Please try again or contact our staff directly."))
  end.

Inductive MediaType := image | audio | video | document.

(** The chain of tests on [contentType] in the [try] block; [None] is
    the final [else]. *)
Definition mediaTypeOf (contentType : jsstring) : option MediaType :=
  if startsWith contentType (js "image/") then Some image
  else if startsWith contentType (js "audio/") then Some audio
  else if startsWith contentType (js "video/") then Some video
  else if str_eqb contentType (js "application/pdf")
          || includes contentType (js "document") then Some document
  else None.

Definition label (m : MediaType) : jsstring :=
  match m with
  | image => js "📸 **Image Analysis:**" ++ nl
  | audio => js "🎵 **Audio Transcription:**" ++ nl
  | video => js "🎥 **Video Summary:**" ++ nl
  | document => js "📄 **Document Summary:**" ++ nl
  end.

Definition disclaimer : jsstring :=
  nl ++ nl ++ js "*Note: This is an AI analysis. For medical concerns, please consult with our healthcare professionals.*".

Definition unavailableMessage : jsstring :=
  js "Media analysis is currently unavailable. Please contact our staff for manual review.".

Definition unknownTypeMessage (filename : jsstring) : jsstring :=
  js "File received: " ++ or_else filename (js "Unknown file")
     ++ js ". Our staff will review this file type manually.".

(** The reply chosen in the [catch] block. *)
Definition failureMessage (contentType filename : jsstring) : jsstring :=
  if startsWith contentType (js "image/") then
    js "📸 Image received. Our medical staff will review it during your appointment."
  else if startsWith contentType (js "audio/") then
    js "🎵 Audio message received. Our staff will listen to it and respond accordingly."
  else if startsWith contentType (js "video/") then
    js "🎥 Video received. Our team will review it as part of your consultation."
  else if str_eqb contentType (js "application/pdf") then
    js "📄 Document received. Our staff will review it and discuss during your appointment."
  else
    js "File received (" ++ or_else filename (js "unknown type")
       ++ js "). Our team will review it manually.".

Definition llmAnalyzeMedia (bufferBase64 contentType filename : jsstring)
  : M jsstring :=
  w <- get ;;
  match gemini w with
  | None => ret unavailableMessage
  | Some client =>
      try_catch
        (match mediaTypeOf contentType with
         | None => ret (unknownTypeMessage filename)
         | Some mediaType =>
             text <- generateMedia client bufferBase64 contentType ;;
             ret (label mediaType ++ text ++ disclaimer)
         end)
        (fun _ => ret (failureMessage contentType filename))
  end.

Definition emergencyKeywords : list jsstring :=
  [js "emergency"; js "urgent"; js "help"; js "dying"; js "suicide";
   js "kill myself"; js "overdose"; js "chest pain"; js "can't breathe";
   js "bleeding"; js "unconscious"].

Definition containsEmergencyKeywords (text : jsstring) : bool :=
  let lowerText := toLowerCase text in
  existsb (fun keyword => includes lowerText keyword) emergencyKeywords.

Definition getEmergencyResponse (env : Env) : jsstring :=
  join [
    js "🚨 **URGENT MEDICAL ATTENTION NEEDED**";
    empty;
    js "If this is a medical emergency:";
    js "• Call emergency services immediately: 199 or 112";
    js "• Go to the nearest hospital emergency room";
    empty;
    js "For mental health crisis:";
    js "• National Mental Health Helpline: 080-963-4357";
    empty;
    js "Our clinic (" ++ CLINIC_NAME env ++ js ") is available 8am-6pm for urgent appointments."
  ] nl.

End Llm.

(* ================================================================== *)
(** ** Regular expressions built at run time *)
(* ================================================================== *)

Record RegExp := { test : jsstring -> bool }.

Definition is_line_terminator (c : N) : bool :=
  ((c =? 10) || (c =? 13) || (c =? 8232) || (c =? 8233))%N.

(** [new RegExp(source, "i")] for a source made of ordinary characters
    and [.], such as the default owner name: [.] matches any code unit
    but a line terminator, a letter matches in either case. *)
Fixpoint match_here (source s : jsstring) : bool :=
  match source, s with
  | [], _ => true
  | y :: source', x :: s' =>
      (if (y =? 46)%N then negb (is_line_terminator x)
       else (lower_unit x =? lower_unit y)%N)
      && match_here source' s'
  | _ :: _, [] => false
  end.

Fixpoint search (source s : jsstring) : bool :=
  match_here source s ||
  match s with
  | [] => false
  | _ :: r => search source r
  end.

Definition RegExp_i (source : jsstring) : RegExp := {| test := search source |}.

(* ================================================================== *)
(** ** The bot ([api/routes/telegram.js]) *)
(* ================================================================== *)

(** The command and text handlers, as Telegraf runs them on an update
    that reaches them.  The two middlewares registered before them
    (patient upsert, chat logging) are not modelled; what they leave in
    the context, [ctx.patient], is an input of the handlers. *)
Module Telegram.

Record Patient := { id : Z }.

(** What the handlers read from the Telegraf context: [ctx.from.id] and
    [ctx.chat.id] ([None] when [ctx.from] or [ctx.chat] is undefined),
    [ctx.message.text] and [ctx.patient]. *)
Record Ctx := {
  from_id : option Z;
  chat_id : option Z;
  message_text : jsstring;
  patient : option Patient
}.

(** [`${n}`] for a count. *)
Definition nat_to_js (n : nat) : jsstring :=
  js (NilEmpty.string_of_uint (Nat.to_uint n)).

Definition status_name (s : Status) : jsstring :=
  match s with
  | pending => js "pending"
  | confirmed => js "confirmed"
  | cancelled => js "cancelled"
  | completed => js "completed"
  | rescheduled => js "rescheduled"
  end.

Definition safeHandler (handler : Ctx -> M unit) (ctx : Ctx) : M unit :=
  try_catch (handler ctx)
    (fun _ => try_catch (reply Utils.getErrorMessage false) (fun _ => ret tt)).

Definition unauthorizedReply : jsstring :=
  js "❌ Unauthorized. This command is restricted to clinic administrators.".

Definition guidedOptions : jsstring :=
  join [
    js "Thank you for your message. Our team will review it and respond appropriately.";
    empty;
    js "For immediate assistance:";
    js "• Type '1' to book an appointment";
    js "• Type '2' for frequently asked questions";
    js "• Type '3' to connect with staff"
  ] nl.

Definition bookingShortcuts : list jsstring :=
  [js "1"; js "book"; js "booking"; js "appointment"].
Definition faqShortcuts : list jsstring :=
  [js "2"; js "faq"; js "faqs"; js "info"; js "information"].
Definition staffShortcuts : list jsstring :=
  [js "3"; js "staff"; js "agent"; js "human"; js "person"].

(** The intents of the specification; a booking submission carries the
    outcome of its validation. *)
Inductive Intent :=
| Greeting
| BookingInstructions
| FAQMenu
| StaffConnect
| BookingSubmission (validation : Utils.BookingValidation)
| HealthConcern
| EmergencyConcern
| OwnerQuery
| AdminBrief
| AdminFollowups
| Unrecognized.

Section WithConfig.
Variable env : Env.
(** [new RegExp(env.OWNER_NAME, "i")] *)
Variable ownerRegex : RegExp.

(** [bot.command('md_brief', ...)] *)
Definition md_brief (ctx : Ctx) : M unit :=
  userId <- property (from_id ctx) ;;
  if negb (Utils.isAuthorizedMD env userId) then
    reply unauthorizedReply false
  else
    try_catch
      (briefData <- Supabase.getDailyBrief None ;;
       w <- get ;;
       let response := join [
         js "📊 **Daily Brief** (Today)";
         empty;
         js "💬 Chats: " ++ nat_to_js (Supabase.chats briefData);
         js "📅 Bookings: " ++ nat_to_js (Supabase.bookings briefData);
         js "❌ Cancels: " ++ nat_to_js (Supabase.cancels briefData);
         js "❓ FAQs: " ++ nat_to_js (Supabase.faqs briefData);
         empty;
         js "🏥 " ++ CLINIC_NAME env ++ js " - " ++ localeDate w
       ] nl in
       reply response true)
      (fun _ => reply (js "❌ Error retrieving daily brief. Please try again.") false).

Definition followup_line (index : nat) (apt : Appointment) : jsstring :=
  nat_to_js (index + 1) ++ js ". **" ++ ap_full_name apt ++ js "** - "
    ++ Llm.or_else (ap_preferred_datetime apt) (js "TBD")
    ++ js " (" ++ status_name (ap_status apt) ++ js ")".

Fixpoint map_indexed {A B} (f : nat -> A -> B) (index : nat) (l : list A)
  : list B :=
  match l with
  | [] => []
  | a :: r => f index a :: map_indexed f (S index) r
  end.

(** [bot.command('md_followups', ...)] *)
Definition md_followups (ctx : Ctx) : M unit :=
  userId <- property (from_id ctx) ;;
  if negb (Utils.isAuthorizedMD env userId) then
    reply unauthorizedReply false
  else
    try_catch
      (followups <- Supabase.getFollowupAppointments 20 ;;
       if length followups =? 0 then
         reply (js "✅ No pending follow-ups at this time.") false
       else
         let response := join
           ([js "📋 **Pending Follow-ups** (Top 20)"; empty]
            ++ map_indexed followup_line 0 followups
            ++ [empty; js "Total: " ++ nat_to_js (length followups)
                         ++ js " appointments"]) nl in
         reply response true)
      (fun _ => reply (js "❌ Error retrieving follow-ups. Please try again.") false).

(** [bot.on('text', ...)] *)
Definition onText (ctx : Ctx) : M unit :=
  let text := Utils.sanitizeText (message_text ctx) in
  if is_empty text then ret tt
  else if Llm.containsEmergencyKeywords text then
    reply (Llm.getEmergencyResponse env) true
  else if test ownerRegex text then
    reply (Utils.getOwnerProfile env) false
  else
    let lowerText := toLowerCase text in
    if array_includes bookingShortcuts lowerText then
      reply Utils.getBookingInstructions false
    else if array_includes faqShortcuts lowerText then
      reply Utils.getFAQMenu false
    else if array_includes staffShortcuts lowerText then
      reply Utils.getStaffConnectionMessage false
    else if Utils.looksLikeBooking text then
      match Utils.validateBookingFormat text with
      | Utils.Valid name timeSlot =>
          match patient ctx with
          | Some p =>
              userId <- property (from_id ctx) ;;
              chatId <- property (chat_id ctx) ;;
              Supabase.createAppointment {|
                patient_id := id p;
                full_name := name;
                preferred_datetime := timeSlot;
                telegram_user_id := userId;
                telegram_chat_id := chatId;
                raw_request := text |} ;;
              ret tt
          | None => ret tt
          end ;;
          reply (Utils.getBookingReply text) false
      | Utils.Invalid => reply Utils.getInvalidBookingMessage false
      end
    else if Utils.hasHealthKeywords text then
      reply Utils.getHealthResponse false
    else
      try_catch
        (aiResponse <- Llm.llmTextReply text ;;
         reply aiResponse false)
        (fun _ => reply guidedOptions false).

(** The rule of the text handler that fires on a sanitized text: the
    [classify] of the specification. *)
Definition classify (text : jsstring) : Intent :=
  if Llm.containsEmergencyKeywords text then EmergencyConcern
  else if test ownerRegex text then OwnerQuery
  else
    let lowerText := toLowerCase text in
    if array_includes bookingShortcuts lowerText then BookingInstructions
    else if array_includes faqShortcuts lowerText then FAQMenu
    else if array_includes staffShortcuts lowerText then StaffConnect
    else if Utils.looksLikeBooking text then
      BookingSubmission (Utils.validateBookingFormat text)
    else if Utils.hasHealthKeywords text then HealthConcern
    else Unrecognized.

End WithConfig.

End Telegram.

(* ================================================================== *)
(** ** The HTTP endpoints ([api/server.js]) *)
(* ================================================================== *)

Module Server.

Record Request := { authorization : option jsstring }.

Inductive Body :=
| ErrorBody (error : jsstring)
| BriefBody (date : Z) (clinic : jsstring) (briefData : Supabase.DailyBrief)
| FollowupsBody (count : nat) (appointments : list Appointment).

Record Response := { status : nat; body : Body }.

(** [s.replace(pattern, '')] with a string pattern: the first occurrence
    is removed. *)
Fixpoint replace_first (s pattern : jsstring) : jsstring :=
  if startsWith s pattern then skipn (length pattern) s
  else match s with
       | [] => []
       | c :: r => c :: replace_first r pattern
       end.

Definition notConfigured : Response :=
  {| status := 403;
     body := ErrorBody (js "Unauthorized - MD access not configured") |}.

Definition internalError : Response :=
  {| status := 500; body := ErrorBody (js "Internal server error") |}.

Section WithEnv.
Variable env : Env.

(** [app.get('/api/md/brief', ...)] *)
Definition get_md_brief (req : Request) : M Response :=
  try_catch
    (let authHeader := authorization req in
     let apiKey :=
       option_map (fun h => replace_first h (js "Bearer ")) authHeader in
     if negb (admin_configured (MD_TELEGRAM_USER_ID env)) then
       ret notConfigured
     else
       briefData <- Supabase.getDailyBrief None ;;
       w <- get ;;
       ret {| status := 200;
              body := BriefBody (Supabase.today w) (CLINIC_NAME env) briefData |})
    (fun _ => ret internalError).

(** [app.get('/api/md/followups', ...)] *)
Definition get_md_followups (req : Request) : M Response :=
  try_catch
    (if negb (admin_configured (MD_TELEGRAM_USER_ID env)) then
       ret notConfigured
     else
       followups <- Supabase.getFollowupAppointments 20 ;;
       ret {| status := 200;
              body := FollowupsBody (length followups) followups |})
    (fun _ => ret internalError).

End WithEnv.

End Server.

(* ================================================================== *)
(** ** Sample values *)
(* ================================================================== *)

Definition ownerRegexDefault : RegExp := RegExp_i (OWNER_NAME defaultEnv).

Definition emptyWorld : World := {|
  now := 0;
  localeDate := js "1/1/1970";
  supabase := None;
  gemini := None;
  replies := [];
  calls := []
|}.

Definition textCtx (text : jsstring) : Telegram.Ctx := {|
  Telegram.from_id := Some 42%Z;
  Telegram.chat_id := Some 42%Z;
  Telegram.message_text := text;
  Telegram.patient := Some {| Telegram.id := 7 |}
|}.

(* ================================================================== *)
(** ** Routing of a text message, rule by rule *)
(* ================================================================== *)

Section Routing.
Variable env : Env.
Variable ownerRegex : RegExp.

(** The booking branch up to the reply: the appointment is written only
    when the sender has a patient record. *)
Definition storeBooking (ctx : Telegram.Ctx) (text name timeSlot : jsstring)
  : M unit :=
  match Telegram.patient ctx with
  | Some p =>
      userId <- property (Telegram.from_id ctx) ;;
      chatId <- property (Telegram.chat_id ctx) ;;
      Supabase.createAppointment {|
        patient_id := Telegram.id p;
        full_name := name;
        preferred_datetime := timeSlot;
        telegram_user_id := userId;
        telegram_chat_id := chatId;
        raw_request := text |} ;;
      ret tt
  | None => ret tt
  end.

(** The reply of each branch of the text handler, by intent.  The three
    intents the text rules never produce have no branch. *)
Definition resolve (ctx : Telegram.Ctx) (text : jsstring) (i : Telegram.Intent)
  : M unit :=
  match i with
  | Telegram.EmergencyConcern => reply (Llm.getEmergencyResponse env) true
  | Telegram.OwnerQuery => reply (Utils.getOwnerProfile env) false
  | Telegram.BookingInstructions => reply Utils.getBookingInstructions false
  | Telegram.FAQMenu => reply Utils.getFAQMenu false
  | Telegram.StaffConnect => reply Utils.getStaffConnectionMessage false
  | Telegram.BookingSubmission (Utils.Valid name timeSlot) =>
      storeBooking ctx text name timeSlot ;;
      reply (Utils.getBookingReply text) false
  | Telegram.BookingSubmission Utils.Invalid =>
      reply Utils.getInvalidBookingMessage false
  | Telegram.HealthConcern => reply Utils.getHealthResponse false
  | Telegram.Unrecognized =>
      try_catch
        (aiResponse <- Llm.llmTextReply text ;;
         reply aiResponse false)
        (fun _ => reply Telegram.guidedOptions false)
  | Telegram.Greeting | Telegram.AdminBrief | Telegram.AdminFollowups => ret tt
  end.

(** The ordered rule list of the specification, first match wins: each
    rule asks that all the rules before it fail. *)
Inductive Classifies (text : jsstring) : Telegram.Intent -> Prop :=
| rule_emergency :
    Llm.containsEmergencyKeywords text = true ->
    Classifies text Telegram.EmergencyConcern
| rule_owner :
    Llm.containsEmergencyKeywords text = false ->
    test ownerRegex text = true ->
    Classifies text Telegram.OwnerQuery
| rule_booking_shortcut :
    Llm.containsEmergencyKeywords text = false ->
    test ownerRegex text = false ->
    array_includes Telegram.bookingShortcuts (toLowerCase text) = true ->
    Classifies text Telegram.BookingInstructions
| rule_faq_shortcut :
    Llm.containsEmergencyKeywords text = false ->
    test ownerRegex text = false ->
    array_includes Telegram.bookingShortcuts (toLowerCase text) = false ->
    array_includes Telegram.faqShortcuts (toLowerCase text) = true ->
    Classifies text Telegram.FAQMenu
| rule_staff_shortcut :
    Llm.containsEmergencyKeywords text = false ->
    test ownerRegex text = false ->
    array_includes Telegram.bookingShortcuts (toLowerCase text) = false ->
    array_includes Telegram.faqShortcuts (toLowerCase text) = false ->
    array_includes Telegram.staffShortcuts (toLowerCase text) = true ->
    Classifies text Telegram.StaffConnect
| rule_booking :
    Llm.containsEmergencyKeywords text = false ->
    test ownerRegex text = false ->
    array_includes Telegram.bookingShortcuts (toLowerCase text) = false ->
    array_includes Telegram.faqShortcuts (toLowerCase text) = false ->
    array_includes Telegram.staffShortcuts (toLowerCase text) = false ->
    Utils.looksLikeBooking text = true ->
    Classifies text (Telegram.BookingSubmission (Utils.validateBookingFormat text))
| rule_health :
    Llm.containsEmergencyKeywords text = false ->
    test ownerRegex text = false ->
    array_includes Telegram.bookingShortcuts (toLowerCase text) = false ->
    array_includes Telegram.faqShortcuts (toLowerCase text) = false ->
    array_includes Telegram.staffShortcuts (toLowerCase text) = false ->
    Utils.looksLikeBooking text = false ->
    Utils.hasHealthKeywords text = true ->
    Classifies text Telegram.HealthConcern
| rule_fallback :
    Llm.containsEmergencyKeywords text = false ->
    test ownerRegex text = false ->
    array_includes Telegram.bookingShortcuts (toLowerCase text) = false ->
    array_includes Telegram.faqShortcuts (toLowerCase text) = false ->
    array_includes Telegram.staffShortcuts (toLowerCase text) = false ->
    Utils.looksLikeBooking text = false ->
    Utils.hasHealthKeywords text = false ->
    Classifies text Telegram.Unrecognized.

End Routing.

(** The emergency keywords the specification lists, and rule 1 read
    with that list. *)
Definition specEmergencyKeywords : list jsstring :=
  [js "emergency"; js "suicide"; js "overdose"; js "can't breathe";
   js "unconscious"; js "bleeding"].

Definition containsSpecEmergencyKeywords (text : jsstring) : bool :=
  existsb (fun keyword => includes (toLowerCase text) keyword)
          specEmergencyKeywords.

(** The part of a text before its first comma. *)
Fixpoint before_first_comma (s : jsstring) : jsstring :=
  match s with
  | [] => []
  | c :: r => if (c =? comma)%N then [] else c :: before_first_comma r
  end.

(** A storage client that inserts what it is given, and one whose every
    request is rejected. *)
Definition workingStore : Client :=
  {| chat_logs := []; appointments := []; outcome := fun _ => Succeeds |}.

Definition failingStore : Client :=
  {| chat_logs := []; appointments := []; outcome := fun _ => Rejects |}.

Definition worldWith (c : Client) : World := with_client emptyWorld c.

(* ================================================================== *)
(** ** The analytics function of the database schema *)
(* ================================================================== *)

Module Schema.

(** [DATE(timestamp) = target_date], in UTC, for a stamp in whole
    milliseconds as the program writes them; [Timestamptz], further
    down, has the microseconds the database keeps. *)
Definition on_date (target_date t : Z) : bool :=
  (t / Supabase.ms_per_day =? target_date)%Z.

(** [get_daily_brief(target_date)], the SQL function the schema defines
    for the same four counts. *)
Definition get_daily_brief (c : Client) (target_date : Z) : Supabase.DailyBrief :=
  {| Supabase.chats :=
       length (filter (fun r => on_date target_date (cl_timestamp r))
                      (chat_logs c));
     Supabase.bookings :=
       length (filter (fun a => on_date target_date (ap_created_at a)
                                && status_eqb (ap_status a) pending)
                      (appointments c));
     Supabase.cancels :=
       length (filter (fun a => on_date target_date (ap_updated_at a)
                                && status_eqb (ap_status a) cancelled)
                      (appointments c));
     Supabase.faqs :=
       length (filter (fun r => on_date target_date (cl_timestamp r)
                                && (Supabase.ilike_contains (cl_message_text r) (js "faq")
                                    || Supabase.ilike_contains (cl_message_text r)
                                         (js "question")))
                      (chat_logs c)) |}.

End Schema.

(** One message logged on day 0 that asks a question without the word
    "faq". *)
Definition questionLog : Client :=
  {| chat_logs :=
       [{| cl_timestamp := 1000;
           cl_message_text := js "I have a question about opening hours" |}];
     appointments := [];
     outcome := fun _ => Succeeds |}.

(** An environment with an admin configured, a request that carries no
    credentials, and an update sent by somebody else. *)
Definition adminEnv : Env := {|
  OWNER_NAME := OWNER_NAME defaultEnv;
  CLINIC_NAME := CLINIC_NAME defaultEnv;
  CITY := CITY defaultEnv;
  MD_TELEGRAM_USER_ID := AdminNum 123456789
|}.

Definition anonymousRequest : Server.Request :=
  {| Server.authorization := None |}.

(** A command sent by a user who is not the admin of [adminEnv]. *)
Definition strangerCtx : Telegram.Ctx := {|
  Telegram.from_id := Some 5%Z;
  Telegram.chat_id := Some 5%Z;
  Telegram.message_text := js "/md_brief";
  Telegram.patient := None
|}.

(** A store that holds one pending appointment. *)
Definition adaAppointment : Appointment := {|
  ap_patient_id := 7;
  ap_full_name := js "Ada Lovelace";
  ap_preferred_datetime := js "Friday 3pm";
  ap_status := pending;
  ap_telegram_user_id := 42;
  ap_telegram_chat_id := 42;
  ap_raw_request := js "Ada Lovelace, Friday 3pm";
  ap_created_at := 2000;
  ap_updated_at := 2000
|}.

Definition clinicStore : Client :=
  {| chat_logs := []; appointments := [adaAppointment];
     outcome := fun _ => Succeeds |}.



(** A string with no leading white space. *)
Definition starts_clean (s : jsstring) : Prop :=
  match s with
  | [] => True
  | c :: _ => is_space c = false
  end.

(** What [sanitizeText] hands to [substring]. *)
Definition cleaned (text : jsstring) : jsstring :=
  trim
    (remove_matches Utils.on_handler_len
       (remove_matches Utils.javascript_len
          (filter (fun c => negb (Utils.is_angle c)) text) 0) 0).

(** 1999 letters, a space and one more letter: the cut at 2000 falls
    right after the space. *)
Definition long_text : jsstring := repeat 97%N 1999 ++ js " b".

(* ================================================================== *)
(** ** The consent notices ([api/lib/utils.js]) *)
(* ================================================================== *)

Module Notices.

Definition getOptOutMessage : jsstring :=
  join [
    js "✅ You have opted out of data collection.";
    empty;
    js "We will no longer log your messages for improvement purposes.";
    js "You can still use the bot normally, but your conversations won't be stored.";
    empty;
    js "To opt back in, send /optin anytime."
  ] nl.

Definition getOptInMessage : jsstring :=
  join [
    js "✅ You have opted back into data collection.";
    empty;
    js "Your messages will now be logged to help us improve our service.";
    js "This data is kept secure and used only for service improvement.";
    empty;
    js "To opt out again, send /optout anytime."
  ] nl.

End Notices.

(* ================================================================== *)
(** ** Patients, consent and chat logging ([api/lib/supabase.js]) *)
(* ================================================================== *)

Module Patients.

(** A row of [patients]: the generated [id] and the columns
    [upsertPatientByTelegramId] writes. *)
Record PatientRow := {
  p_id : Z;
  p_external_id : jsstring;
  p_telegram_user_id : Z;
  p_first_name : jsstring;
  p_last_name : jsstring;
  p_username : jsstring;
  p_phone_number : jsstring;
  p_consent_opt_in : bool;
  p_channel : jsstring;
  p_created_at : Z;
  p_updated_at : Z
}.

(** The [userData] argument; a missing property is [None]. *)
Record UserData := {
  first_name : option jsstring;
  last_name : option jsstring;
  username : option jsstring;
  phone_number : option jsstring
}.

(** The requests of this part of [supabase.js], and the calls made to
    its functions. *)
Inductive Request := UpsertPatient | SelectPatient | UpdateConsent | InsertChatLog.

Inductive DbCall :=
| CallUpsertPatient (telegramId : Z)
| CallGetPatient (telegramId : Z)
| CallUpdateConsent (telegramId : Z) (consentOptIn : bool)
| CallLogChat (message_text : jsstring).

(** The world of the handlers together with the [patients] table, the
    id the database generates next, the way the server answers the
    requests above and the log of calls. *)
Record Backend := {
  world : World;
  patients : list PatientRow;
  next_id : Z;
  answer : Request -> Outcome;
  db_calls : list DbCall
}.

Definition MX (A : Type) : Type := Backend -> Completion A * Backend.

Definition retX {A} (a : A) : MX A := fun b => (Normal a, b).

Definition bindX {A B} (m : MX A) (k : A -> MX B) : MX B :=
  fun b =>
    match m b with
    | (Normal a, b') => k a b'
    | (Throw e, b') => (Throw e, b')
    end.

Definition throwX {A} (e : Exn) : MX A := fun b => (Throw e, b).

Definition try_catchX {A} (m : MX A) (handler : Exn -> MX A) : MX A :=
  fun b =>
    match m b with
    | (Normal a, b') => (Normal a, b')
    | (Throw e, b') => handler e b'
    end.

Definition getX : MX Backend := fun b => (Normal b, b).

Definition with_world (b : Backend) (w : World) : Backend :=
  {| world := w; patients := patients b; next_id := next_id b;
     answer := answer b; db_calls := db_calls b |}.

Definition with_patients (b : Backend) (rows : list PatientRow) (next : Z)
  : Backend :=
  {| world := world b; patients := rows; next_id := next;
     answer := answer b; db_calls := db_calls b |}.

Definition add_db_call (b : Backend) (c : DbCall) : Backend :=
  {| world := world b; patients := patients b; next_id := next_id b;
     answer := answer b; db_calls := db_calls b ++ [c] |}.

(** A computation of the handler monad, run on the world inside. *)
Definition lift {A} (m : M A) : MX A :=
  fun b => let (r, w) := m (world b) in (r, with_world b w).

Definition record_db_call (c : DbCall) : MX unit :=
  fun b => (Normal tt, add_db_call b c).

Definition set_patients (rows : list PatientRow) (next : Z) : MX unit :=
  fun b => (Normal tt, with_patients b rows next).

Declare Scope jsx_scope.
Notation "x <- m ;; k" := (bindX m (fun x => k))
  (at level 61, m at next level, right associativity) : jsx_scope.
Notation "m ;; k" := (bindX m (fun _ => k))
  (at level 61, right associativity) : jsx_scope.
Local Open Scope jsx_scope.

(** [value || ''] for a property that may be missing. *)
Definition or_empty (value : option jsstring) : jsstring :=
  match value with
  | Some s => s
  | None => empty
  end.

(** [`${n}`] for an integer. *)
Definition z_to_js (n : Z) : jsstring :=
  js (NilZero.string_of_int (Z.to_int n)).

(** [`telegram:${telegramId}`] *)
Definition external_id_of (telegramId : Z) : jsstring :=
  js "telegram:" ++ z_to_js telegramId.

(** The object [patientData], with the row id the database keeps or
    generates. *)
Definition patientData (rowId telegramId : Z) (userData : UserData) (t : Z)
  : PatientRow := {|
  p_id := rowId;
  p_external_id := external_id_of telegramId;
  p_telegram_user_id := telegramId;
  p_first_name := or_empty (first_name userData);
  p_last_name := or_empty (last_name userData);
  p_username := or_empty (username userData);
  p_phone_number := or_empty (phone_number userData);
  p_consent_opt_in := true;
  p_channel := js "telegram";
  p_created_at := t;
  p_updated_at := t
|}.

(** [telegram_user_id] is UNIQUE: the upsert fails when another row,
    with another [external_id], has the same value. *)
Definition violates_unique (rows : list PatientRow) (telegramId : Z) : bool :=
  existsb (fun r => (p_telegram_user_id r =? telegramId)%Z
                    && negb (str_eqb (p_external_id r)
                                     (external_id_of telegramId))) rows.

(** [.upsert(patientData, { onConflict: 'external_id',
    ignoreDuplicates: false })]: the row with that [external_id] gets
    every column of [patientData], its id apart; without such a row one
    is inserted under a fresh id.  The result is the table and the row
    written. *)
Fixpoint upsert_rows (rows : list PatientRow) (fresh telegramId : Z)
         (userData : UserData) (t : Z) : list PatientRow * PatientRow :=
  match rows with
  | [] => ([patientData fresh telegramId userData t],
           patientData fresh telegramId userData t)
  | r :: rest =>
      if str_eqb (p_external_id r) (external_id_of telegramId)
      then (patientData (p_id r) telegramId userData t :: rest,
            patientData (p_id r) telegramId userData t)
      else let (rest', written) := upsert_rows rest fresh telegramId userData t in
           (r :: rest', written)
  end.

Definition upsertPatientByTelegramId (telegramId : Z) (userData : UserData)
  : MX (option PatientRow) :=
  record_db_call (CallUpsertPatient telegramId) ;;
  b <- getX ;;
  match supabase (world b) with
  | None => retX None
  | Some _ =>
      match answer b UpsertPatient with
      | Succeeds =>
          if violates_unique (patients b) telegramId then retX None
          else
            let (rows, written) :=
              upsert_rows (patients b) (next_id b) telegramId userData
                          (now (world b)) in
            set_patients rows (next_id b + 1) ;;
            retX (Some written)
      | ReturnsError => retX None
      | Rejects => retX None
      end
  end.

(** The rows one Telegram user id selects. *)
Definition rows_of (rows : list PatientRow) (telegramId : Z) : list PatientRow :=
  filter (fun r => (p_telegram_user_id r =? telegramId)%Z) rows.

(** [.single()]: the row when exactly one is selected, [null] (with the
    error PGRST116) otherwise. *)
Definition single (rows : list PatientRow) : option PatientRow :=
  match rows with
  | [r] => Some r
  | _ => None
  end.

Definition getPatientByTelegramId (telegramId : Z) : MX (option PatientRow) :=
  record_db_call (CallGetPatient telegramId) ;;
  b <- getX ;;
  match supabase (world b) with
  | None => retX None
  | Some _ =>
      match answer b SelectPatient with
      | Succeeds => retX (single (rows_of (patients b) telegramId))
      | ReturnsError => retX None
      | Rejects => retX None
      end
  end.

Definition with_consent (r : PatientRow) (consentOptIn : bool) (t : Z)
  : PatientRow := {|
  p_id := p_id r;
  p_external_id := p_external_id r;
  p_telegram_user_id := p_telegram_user_id r;
  p_first_name := p_first_name r;
  p_last_name := p_last_name r;
  p_username := p_username r;
  p_phone_number := p_phone_number r;
  p_consent_opt_in := consentOptIn;
  p_channel := p_channel r;
  p_created_at := p_created_at r;
  p_updated_at := t
|}.

(** [.update({ consent_opt_in, updated_at }).eq('telegram_user_id', id)] *)
Definition update_rows (rows : list PatientRow) (telegramId : Z)
           (consentOptIn : bool) (t : Z) : list PatientRow :=
  map (fun r => if (p_telegram_user_id r =? telegramId)%Z
                then with_consent r consentOptIn t else r) rows.

(** The update is kept when it changed exactly one row; [.single()]
    fails on any other number of rows, and then nothing is written (no
    row at all, or several, which the UNIQUE column excludes). *)
Definition updatePatientConsent (telegramId : Z) (consentOptIn : bool)
  : MX (option PatientRow) :=
  record_db_call (CallUpdateConsent telegramId consentOptIn) ;;
  b <- getX ;;
  match supabase (world b) with
  | None => retX None
  | Some _ =>
      match answer b UpdateConsent with
      | Succeeds =>
          match rows_of (patients b) telegramId with
          | [r] =>
              set_patients
                (update_rows (patients b) telegramId consentOptIn (now (world b)))
                (next_id b) ;;
              retX (Some (with_consent r consentOptIn (now (world b))))
          | _ => retX None
          end
      | ReturnsError => retX None
      | Rejects => retX None
      end
  end.

(** [logChat]: of the entry, the columns the program reads back. *)
Definition logChat (message_text : option jsstring) : MX (option ChatLog) :=
  record_db_call (CallLogChat (or_empty message_text)) ;;
  b <- getX ;;
  match supabase (world b) with
  | None => retX None
  | Some client =>
      let logEntry := {| cl_timestamp := now (world b);
                         cl_message_text := or_empty message_text |} in
      match answer b InsertChatLog with
      | Succeeds =>
          lift (set_client {| chat_logs := chat_logs client ++ [logEntry];
                              appointments := appointments client;
                              outcome := outcome client |}) ;;
          retX (Some logEntry)
      | ReturnsError => retX None
      | Rejects => retX None
      end
  end.

End Patients.

(* ================================================================== *)
(** ** Sending a reply *)
(* ================================================================== *)

(** [await ctx.reply(text, options)] with its two ways to fail.
    Telegraf's [reply] first asserts that the update has a chat and
    throws a [TypeError] when it has none; it then calls [sendMessage],
    whose promise rejects when the Bot API refuses the message or cannot
    be reached.  [accepts] tells which messages go through. *)
Definition send (chat : option Z) (accepts : Sent -> bool)
           (text : jsstring) (md : bool) : M unit :=
  match chat with
  | None => throw TypeError
  | Some _ =>
      if accepts {| sent_text := text; markdown := md |}
      then reply text md
      else throw ServiceError
  end.

(** What one call of [ctx.reply] adds to the replies. *)
Definition delivered (chat : option Z) (accepts : Sent -> bool) (m : Sent)
  : list Sent :=
  match chat with
  | None => []
  | Some _ => if accepts m then [m] else []
  end.

(* ================================================================== *)
(** ** Middlewares and the consent commands ([api/routes/telegram.js]) *)
(* ================================================================== *)

Module Bot.

Import Patients.
Local Open Scope jsx_scope.

(** [ctx.from] *)
Record User := {
  user_id : Z;
  user_first_name : option jsstring;
  user_last_name : option jsstring;
  user_username : option jsstring
}.

(** The Telegraf context as the middlewares see and extend it:
    [ctx.from], [ctx.chat.id], [ctx.message.text] (no message at all is
    [None], a message without text [Some None]), the two properties the
    first middleware sets, and [ctx.telegram.sendMessage], given by the
    messages the Bot API takes. *)
Record Context := {
  from : option User;
  chat : option Z;
  message : option (option jsstring);
  patient : option PatientRow;
  consentOptIn : bool;
  accepts : Sent -> bool
}.

(** A Telegraf middleware gets the context and the continuation. *)
Definition Middleware : Type := Context -> (Context -> MX unit) -> MX unit.

(** [Composer.compose]: each middleware is called with the rest of the
    chain as its continuation. *)
Fixpoint compose (chain : list Middleware) (ctx : Context) : MX unit :=
  match chain with
  | [] => retX tt
  | m :: rest => m ctx (compose rest)
  end.

(** Calling [next()]: a [TypeError] when [next] is undefined. *)
Definition call_next (next : option (Context -> MX unit)) (ctx : Context)
  : MX unit :=
  match next with
  | Some k => k ctx
  | None => throwX TypeError
  end.

(** [await ctx.reply(text, options)] *)
Definition reply (ctx : Context) (text : jsstring) (md : bool) : MX unit :=
  lift (send (chat ctx) (accepts ctx) text md).

(** [safeHandler(handler)] registered with [bot.use]: the function it
    returns takes [ctx] only and calls [handler(ctx)], so the handler's
    second parameter [next] is undefined and Telegraf's continuation is
    dropped.  The error reply has a [try] of its own. *)
Definition safeHandler
           (handler : Context -> option (Context -> MX unit) -> MX unit)
  : Middleware :=
  fun ctx _ =>
    try_catchX (handler ctx None)
      (fun _ => try_catchX (reply ctx Utils.getErrorMessage false)
                           (fun _ => retX tt)).

(** The first middleware: user identification and consent check. *)
Definition identify (ctx : Context) (next : option (Context -> MX unit))
  : MX unit :=
  match from ctx with
  | None => call_next next ctx
  | Some user =>
      patient <- upsertPatientByTelegramId (user_id user)
                   {| first_name := user_first_name user;
                      last_name := user_last_name user;
                      username := user_username user;
                      phone_number := None |} ;;
      call_next next
        {| from := from ctx; chat := chat ctx; message := message ctx;
           patient := patient;
           consentOptIn := match patient with
                           | Some r => p_consent_opt_in r
                           | None => true
                           end;
           accepts := accepts ctx |}
  end.

(** The second middleware: chat logging, after the rest of the chain.
    The text logged is [ctx.message.text] as received. *)
Definition logging (ctx : Context) (next : option (Context -> MX unit))
  : MX unit :=
  result <- call_next next ctx ;;
  match consentOptIn ctx, patient ctx, message ctx with
  | true, Some _, Some text =>
      match from ctx, chat ctx with
      | Some _, Some _ =>
          logChat (Some (or_empty text)) ;;
          retX result
      | _, _ => throwX TypeError
      end
  | _, _, _ => retX result
  end.

(** [ctx.from.id] *)
Definition from_id (ctx : Context) : MX Z :=
  match from ctx with
  | Some user => retX (user_id user)
  | None => throwX TypeError
  end.

(** [bot.command('optout', ...)] and [bot.command('optin', ...)], before
    [safeHandler] wraps them. *)
Definition optout (ctx : Context) : MX unit :=
  userId <- from_id ctx ;;
  updatePatientConsent userId false ;;
  reply ctx Notices.getOptOutMessage false.

Definition optin (ctx : Context) : MX unit :=
  userId <- from_id ctx ;;
  updatePatientConsent userId true ;;
  reply ctx Notices.getOptInMessage false.

End Bot.

(** A backend with a working store, no patient yet, and a server that
    accepts every request. *)
Definition freshBackend : Patients.Backend := {|
  Patients.world := worldWith workingStore;
  Patients.patients := [];
  Patients.next_id := 1;
  Patients.answer := fun _ => Succeeds;
  Patients.db_calls := []
|}.

Definition adaUser : Bot.User := {|
  Bot.user_id := 42;
  Bot.user_first_name := Some (js "Ada");
  Bot.user_last_name := Some (js "Lovelace");
  Bot.user_username := None
|}.

Definition adaProfile : Patients.UserData := {|
  Patients.first_name := Some (js "Ada");
  Patients.last_name := Some (js "Lovelace");
  Patients.username := None;
  Patients.phone_number := None
|}.

(** A text message from [adaUser], as Telegraf first hands it over. *)
Definition incoming (text : jsstring) : Bot.Context := {|
  Bot.from := Some adaUser;
  Bot.chat := Some 42%Z;
  Bot.message := Some (Some text);
  Bot.patient := None;
  Bot.consentOptIn := false;
  Bot.accepts := fun _ => true
|}.

(** The same message over a connection that is down. *)
Definition undelivered (text : jsstring) : Bot.Context := {|
  Bot.from := Some adaUser;
  Bot.chat := Some 42%Z;
  Bot.message := Some (Some text);
  Bot.patient := None;
  Bot.consentOptIn := false;
  Bot.accepts := fun _ => false
|}.

(** A backend that accepts every request of a configured client. *)
Definition accepting (b : Patients.Backend) : Prop :=
  supabase (Patients.world b) <> None
  /\ forall q, Patients.answer b q = Succeeds.

(** No row of the table belongs to this Telegram user. *)
Definition new_user (rows : list Patients.PatientRow) (telegramId : Z) : bool :=
  forallb (fun r => negb (Patients.p_telegram_user_id r =? telegramId)%Z
                    && negb (str_eqb (Patients.p_external_id r)
                                     (Patients.external_id_of telegramId)))
          rows.

(* ================================================================== *)
(** ** Media messages ([api/lib/llm.js], [api/routes/telegram.js]) *)
(* ================================================================== *)

Module Media.

(** The specialised analysis functions of [llm.js]. *)
Definition transcribeAudio (bufferBase64 contentType : jsstring) : M jsstring :=
  Llm.llmAnalyzeMedia bufferBase64 contentType (js "audio_message").

Definition analyzeImage (bufferBase64 contentType : jsstring) : M jsstring :=
  Llm.llmAnalyzeMedia bufferBase64 contentType (js "image_file").

Definition summarizeDocument (bufferBase64 contentType filename : jsstring)
  : M jsstring :=
  Llm.llmAnalyzeMedia bufferBase64 contentType filename.

Definition summarizeVideo (bufferBase64 contentType : jsstring) : M jsstring :=
  Llm.llmAnalyzeMedia bufferBase64 contentType (js "video_file").

(** The media types [handleMedia] is called with. *)
Inductive MediaKind := photo | voice | video_note | video | document | audio.

Definition kind_name (k : MediaKind) : jsstring :=
  match k with
  | photo => js "photo"
  | voice => js "voice"
  | video_note => js "video_note"
  | video => js "video"
  | document => js "document"
  | audio => js "audio"
  end.

(** A file of a message: a photo size, a voice note, a video, a
    document or an audio file, with the optional properties Telegram may
    leave out. *)
Record Attachment := {
  file_id : jsstring;
  mime_type : option jsstring;
  file_name : option jsstring
}.

(** [ctx.message], as far as [handleMedia] reads it. *)
Record MediaMessage := {
  m_photo : option (list Attachment);
  m_voice : option Attachment;
  m_video_note : option Attachment;
  m_video : option Attachment;
  m_document : option Attachment;
  m_audio : option Attachment
}.

(** The context of a media update, as far as [handleMedia] uses it:
    [ctx.chat.id], [ctx.message], and of [ctx.telegram] the messages the
    Bot API takes and what a download gives.  [download] stands for
    [ctx.telegram.getFile] and [fetch]: the content of the file of that
    id in base64, as [fileBuffer.toString('base64')] gives it, or [None]
    when either call fails. *)
Record Context := {
  chat : option Z;
  message : MediaMessage;
  accepts : Sent -> bool;
  download : jsstring -> option jsstring
}.

(** [await ctx.reply(text)] *)
Definition reply (ctx : Context) (text : jsstring) (md : bool) : M unit :=
  send (chat ctx) (accepts ctx) text md.

(** [value || fallback] for an optional string property. *)
Definition or_default (value : option jsstring) (fallback : jsstring) : jsstring :=
  match value with
  | Some s => Llm.or_else s fallback
  | None => fallback
  end.

(** The [switch] of [handleMedia]: file id, mime type and file name. *)
Definition extract (msg : MediaMessage) (mediaType : MediaKind)
  : M (jsstring * jsstring * jsstring) :=
  match mediaType with
  | photo =>
      sizes <- property (m_photo msg) ;;
      largest <- property (nth_error sizes (length sizes - 1)) ;;
      ret (file_id largest, js "image/jpeg", js "photo.jpg")
  | voice =>
      f <- property (m_voice msg) ;;
      ret (file_id f, or_default (mime_type f) (js "audio/ogg"), js "voice.ogg")
  | video_note =>
      f <- property (m_video_note msg) ;;
      ret (file_id f, js "video/mp4", js "video_note.mp4")
  | video =>
      f <- property (m_video msg) ;;
      ret (file_id f, or_default (mime_type f) (js "video/mp4"),
           or_default (file_name f) (js "video.mp4"))
  | document =>
      f <- property (m_document msg) ;;
      ret (file_id f, or_default (mime_type f) (js "application/octet-stream"),
           or_default (file_name f) (js "document"))
  | audio =>
      f <- property (m_audio msg) ;;
      ret (file_id f, or_default (mime_type f) (js "audio/mpeg"),
           or_default (file_name f) (js "audio.mp3"))
  end.

(** The processor each [bot.on] handler passes to [handleMedia]. *)
Definition processor (mediaType : MediaKind)
           (bufferBase64 contentType filename : jsstring) : M jsstring :=
  match mediaType with
  | photo => analyzeImage bufferBase64 contentType
  | voice => transcribeAudio bufferBase64 contentType
  | video_note => summarizeVideo bufferBase64 contentType
  | video => summarizeVideo bufferBase64 contentType
  | document => summarizeDocument bufferBase64 contentType filename
  | audio => transcribeAudio bufferBase64 contentType
  end.

Definition apology (mediaType : MediaKind) : jsstring :=
  js "❌ Sorry, I couldn't process your " ++ kind_name mediaType
     ++ js ". Our staff will review it manually during your appointment.".

(** [handleMedia(ctx, mediaType, processor)], with the processor each
    [bot.on] handler passes for its media type.  The reply of the
    [catch] block is outside any [try]. *)
Definition handleMedia (ctx : Context) (mediaType : MediaKind) : M unit :=
  try_catch
    (info <- extract (message ctx) mediaType ;;
     let '(fileId, mimeType, fileName) := info in
     match download ctx fileId with
     | None => throw ServiceError
     | Some fileBuffer =>
         analysisResult <- processor mediaType fileBuffer mimeType fileName ;;
         reply ctx analysisResult false
     end)
    (fun _ => reply ctx (apology mediaType) false).

End Media.

(** A document sent without a mime type, a download that works, and the
    update that carries the document, over a connection that works. *)
Definition untypedDocument : Media.MediaMessage := {|
  Media.m_photo := None;
  Media.m_voice := None;
  Media.m_video_note := None;
  Media.m_video := None;
  Media.m_document :=
    Some {| Media.file_id := js "file-1"; Media.mime_type := None;
            Media.file_name := Some (js "scan.bin") |};
  Media.m_audio := None
|}.

Definition downloadOk (fileId : jsstring) : option jsstring := Some (js "AAAA").

Definition untypedDocumentCtx : Media.Context := {|
  Media.chat := Some 42%Z;
  Media.message := untypedDocument;
  Media.accepts := fun _ => true;
  Media.download := downloadOk
|}.

(** The health keywords that are not emergency keywords as well. *)
Definition decidingHealthKeywords : list jsstring :=
  [js "pain"; js "sick"; js "depression"; js "anxiety"; js "mental";
   js "stress"; js "hurt"; js "feel"; js "doctor"; js "medicine";
   js "treatment"].

(* ================================================================== *)
(** ** Time stamps as the database keeps them *)
(* ================================================================== *)

(** The time columns are [TIMESTAMPTZ]: the database keeps microseconds.
    The stamps the program writes, made by [toISOString], are whole
    milliseconds; those the database writes itself, with [NOW()] in the
    trigger that sets [updated_at] on every update, are not.  Here a
    stamp is a number of microseconds since the epoch, and dates are in
    UTC. *)
Module Timestamptz.

Definition us_per_ms : Z := 1000.

(** A stamp of the program, in microseconds. *)
Definition of_ms (t : Z) : Z := t * us_per_ms.

(** [.gte(column, `${targetDate}T00:00:00.000Z`)
     .lte(column, `${targetDate}T23:59:59.999Z`)] *)
Definition in_window (day t : Z) : bool :=
  (of_ms (Supabase.startOfDay day) <=? t)%Z
  && (t <=? of_ms (Supabase.endOfDay day))%Z.

(** [DATE(column) = target_date] *)
Definition on_date (target_date t : Z) : bool :=
  (t / of_ms Supabase.ms_per_day =? target_date)%Z.

(** After [T23:59:59.999Z] of a day and before the next day. *)
Definition last_millisecond (day t : Z) : bool :=
  (of_ms (Supabase.endOfDay day) <? t)%Z
  && (t <? of_ms (Supabase.startOfDay (day + 1)))%Z.

(** An appointment as the two cancellation counts read it: its status
    and [updated_at]. *)
Record Row := {
  status : Status;
  updated_at : Z
}.

(** The cancellation count of [getDailyBrief]:
    [.eq('status', 'cancelled').gte('updated_at', startOfDay)
     .lte('updated_at', endOfDay)]. *)
Definition cancels (rows : list Row) (day : Z) : nat :=
  length (filter (fun r => status_eqb (status r) cancelled
                           && in_window day (updated_at r)) rows).

(** The cancellation count of the SQL function [get_daily_brief]:
    [DATE(updated_at) = target_date AND status = 'cancelled']. *)
Definition get_daily_brief_cancels (rows : list Row) (target_date : Z) : nat :=
  length (filter (fun r => on_date target_date (updated_at r)
                           && status_eqb (status r) cancelled) rows).

(** A row of the store, whose stamps are whole milliseconds. *)
Definition of_appointment (a : Appointment) : Row :=
  {| status := ap_status a; updated_at := of_ms (ap_updated_at a) |}.

(** The cancelled rows stamped in the last millisecond of a day. *)
Definition late_cancels (rows : list Row) (day : Z) : nat :=
  length (filter (fun r => status_eqb (status r) cancelled
                           && last_millisecond day (updated_at r)) rows).

End Timestamptz.

(** An appointment cancelled half a millisecond before midnight of
    day 0. *)
Definition cancelledAtMidnight : Timestamptz.Row :=
  {| Timestamptz.status := cancelled;
     Timestamptz.updated_at := 86399999500 |}.

(* ================================================================== *)
(** ** Notions used to state further properties *)
(* ================================================================== *)

(** [subseq a b]: [a] is [b] with some code units left out, the others
    in their order. *)
Inductive subseq : jsstring -> jsstring -> Prop :=
| subseq_nil : subseq [] []
| subseq_keep (c : N) (a b : jsstring) : subseq a b -> subseq (c :: a) (c :: b)
| subseq_drop (c : N) (a b : jsstring) : subseq a b -> subseq a (c :: b).

(** No match of a regular expression starts anywhere in [s]. *)
Fixpoint matches_nowhere (match_len : jsstring -> nat) (s : jsstring) : bool :=
  (match_len s =? 0) &&
  match s with
  | [] => true
  | _ :: r => matches_nowhere match_len r
  end.

(** Rows in ascending order of [created_at]. *)
Inductive ascending : list Appointment -> Prop :=
| ascending_nil : ascending []
| ascending_one (a : Appointment) : ascending [a]
| ascending_cons (a b : Appointment) (l : list Appointment) :
    (ap_created_at a <= ap_created_at b)%Z ->
    ascending (b :: l) -> ascending (a :: b :: l).

(** The row [createAppointment] inserts at time [t]. *)
Definition appointment_row (d : AppointmentData) (t : Z) : Appointment := {|
  ap_patient_id := patient_id d;
  ap_full_name := full_name d;
  ap_preferred_datetime := preferred_datetime d;
  ap_status := pending;
  ap_telegram_user_id := telegram_user_id d;
  ap_telegram_chat_id := telegram_chat_id d;
  ap_raw_request := raw_request d;
  ap_created_at := t;
  ap_updated_at := t |}.

(** A client after one more appointment. *)
Definition with_appointment (c : Client) (a : Appointment) : Client :=
  {| chat_logs := chat_logs c;
     appointments := appointments c ++ [a];
     outcome := outcome c |}.

(** A model that answers every text with 500 letters. *)
Definition verboseModel : Gemini :=
  {| textModel := fun _ => Some (repeat 97%N 500);
     visionModel := fun _ _ => Some (js "A chest X-ray.") |}.

Definition worldWithModel (g : Gemini) : World := {|
  now := 0;
  localeDate := js "1/1/1970";
  supabase := None;
  gemini := Some g;
  replies := [];
  calls := []
|}.

(** The context [textCtx] sent by the admin of [adminEnv]. *)
Definition adminCtx : Telegram.Ctx := {|
  Telegram.from_id := Some 123456789%Z;
  Telegram.chat_id := Some 123456789%Z;
  Telegram.message_text := js "/md_followups";
  Telegram.patient := None
|}.

(** [pending] or [rescheduled]: the rows a follow-up list shows. *)
Definition is_followup (a : Appointment) : bool :=
  status_eqb (ap_status a) pending || status_eqb (ap_status a) rescheduled.

(** A store with [n] pending appointments created at time 1. *)
Definition olderAppointment : Appointment := {|
  ap_patient_id := 1;
  ap_full_name := js "Grace Hopper";
  ap_preferred_datetime := js "Monday 9am";
  ap_status := pending;
  ap_telegram_user_id := 1;
  ap_telegram_chat_id := 1;
  ap_raw_request := js "Grace Hopper, Monday 9am";
  ap_created_at := 1;
  ap_updated_at := 1
|}.

Definition busyStore (n : nat) : Client :=
  {| chat_logs := []; appointments := repeat olderAppointment n;
     outcome := fun _ => Succeeds |}.

Definition adaData : AppointmentData := {|
  patient_id := 7;
  full_name := js "Ada Lovelace";
  preferred_datetime := js "Friday 3pm";
  telegram_user_id := 42;
  telegram_chat_id := 42;
  raw_request := js "Ada Lovelace, Friday 3pm"
|}.

(** A world at time [t] with a store. *)
Definition worldAt (t : Z) (c : Client) : World := {|
  now := t;
  localeDate := js "1/1/1970";
  supabase := Some c;
  gemini := None;
  replies := [];
  calls := []
|}.

(** [questionLog] on a server that answers the FAQ request with an
    error. *)
Definition questionLogFaqError : Client :=
  {| chat_logs := chat_logs questionLog;
     appointments := [];
     outcome := fun q => match q with QFaqs => ReturnsError | _ => Succeeds end |}.

(* ================================================================== *)
(** ** Facts about strings *)
(* ================================================================== *)

Section StringFacts.

Lemma startsWith_app (t rest : jsstring) : startsWith (t ++ rest) t = true.
Proof.
  induction t as [|c t IH]; simpl.
  - destruct rest; reflexivity.
  - rewrite N.eqb_refl. exact IH.
Qed.

Lemma includes_app_l (pre s sub : jsstring) :
  includes s sub = true -> includes (pre ++ s) sub = true.
Proof.
  intros H. induction pre as [|c pre IH]; simpl.
  - exact H.
  - rewrite IH. apply orb_true_r.
Qed.

Lemma includes_prefix (s sub : jsstring) :
  startsWith s sub = true -> includes s sub = true.
Proof.
  intros H. destruct s; simpl in *; rewrite H; reflexivity.
Qed.

(** A string includes whatever sits in its middle. *)
Lemma includes_middle (pre t post : jsstring) :
  includes (pre ++ t ++ post) t = true.
Proof.
  apply includes_app_l, includes_prefix, startsWith_app.
Qed.

Lemma substring_from_0 (s : jsstring) (n : nat) : substring s 0 n = firstn n s.
Proof.
  unfold substring. simpl Nat.min at 1.
  rewrite Nat.min_0_l, Nat.max_0_l, Nat.sub_0_r. simpl skipn.
  destruct (Nat.le_ge_cases n (length s)) as [H|H].
  - rewrite Nat.min_l by exact H. reflexivity.
  - rewrite Nat.min_r by exact H.
    rewrite !firstn_all2; auto.
Qed.

(** Every stage of the sanitizer only drops code units. *)
Lemma remove_matches_Forall (P : N -> Prop) (m : jsstring -> nat) (s : jsstring) :
  Forall P s -> forall skip, Forall P (remove_matches m s skip).
Proof.
  induction 1 as [|c r Hc Hr IH]; intros skip; simpl.
  - constructor.
  - destruct skip.
    + destruct (m (c :: r)).
      * constructor; auto.
      * apply IH.
    + apply IH.
Qed.

Lemma trimStart_Forall (P : N -> Prop) (s : jsstring) :
  Forall P s -> Forall P (trimStart s).
Proof.
  induction 1 as [|c r Hc Hr IH]; simpl.
  - constructor.
  - destruct (is_space c); [exact IH | constructor; assumption].
Qed.

Lemma trimEnd_Forall (P : N -> Prop) (s : jsstring) :
  Forall P s -> Forall P (trimEnd s).
Proof.
  induction 1 as [|c r Hc Hr IH]; simpl.
  - constructor.
  - destruct (trimEnd r) as [|d r'].
    + destruct (is_space c); repeat constructor; assumption.
    + constructor; assumption.
Qed.

Lemma firstn_Forall (P : N -> Prop) (n : nat) (s : jsstring) :
  Forall P s -> Forall P (firstn n s).
Proof.
  intros H. revert n. induction H; intros [|n]; simpl; constructor; auto.
Qed.

Lemma trimStart_starts_clean (s : jsstring) : starts_clean (trimStart s).
Proof.
  induction s as [|c r IH]; simpl.
  - exact I.
  - destruct (is_space c) eqn:E; [exact IH | simpl; exact E].
Qed.

Lemma starts_clean_trimStart (s : jsstring) : starts_clean s -> trimStart s = s.
Proof.
  destruct s as [|c r]; simpl; intros H.
  - reflexivity.
  - rewrite H. reflexivity.
Qed.

Lemma trimEnd_starts_clean (s : jsstring) : starts_clean s -> starts_clean (trimEnd s).
Proof.
  destruct s as [|c r]; simpl; intros H.
  - exact I.
  - destruct (trimEnd r); [rewrite H|]; simpl; exact H.
Qed.

Lemma firstn_starts_clean (n : nat) (s : jsstring) :
  starts_clean s -> starts_clean (firstn n s).
Proof.
  destruct n, s; simpl; auto.
Qed.

Lemma trimEnd_cons (c : N) (r : jsstring) :
  trimEnd (c :: r) =
  match trimEnd r with
  | [] => if is_space c then [] else [c]
  | d :: r' => c :: d :: r'
  end.
Proof. reflexivity. Qed.

Lemma trimEnd_idempotent (s : jsstring) : trimEnd (trimEnd s) = trimEnd s.
Proof.
  induction s as [|c r IH]; [reflexivity|].
  rewrite trimEnd_cons. destruct (trimEnd r) as [|d r'] eqn:E.
  - destruct (is_space c) eqn:Ec; [reflexivity|].
    rewrite trimEnd_cons. simpl. rewrite Ec. reflexivity.
  - rewrite trimEnd_cons, IH. reflexivity.
Qed.

Lemma trim_idempotent (s : jsstring) : trim (trim s) = trim s.
Proof.
  unfold trim.
  rewrite (starts_clean_trimStart (trimEnd (trimStart s))).
  - apply trimEnd_idempotent.
  - apply trimEnd_starts_clean, trimStart_starts_clean.
Qed.

Lemma trim_starts_clean (s : jsstring) : starts_clean (trim s).
Proof. apply trimEnd_starts_clean, trimStart_starts_clean. Qed.

Lemma split_head (text : jsstring) :
  nth 0 (split text comma) [] = before_first_comma text.
Proof.
  induction text as [|c r IH]; simpl.
  - reflexivity.
  - destruct (c =? comma)%N; [reflexivity|].
    destruct (split r comma); simpl in *; rewrite <- IH; reflexivity.
Qed.

Lemma split_app_comma (a r : jsstring) :
  ~ In comma a -> split (a ++ comma :: r) comma = a :: split r comma.
Proof.
  induction a as [|c a IH]; intros H; simpl.
  - reflexivity.
  - destruct (N.eqb_spec c comma) as [->|_].
    + exfalso. apply H. now left.
    + rewrite IH; [reflexivity|]. intros Hin. apply H. now right.
Qed.

Lemma no_comma_check (a : jsstring) :
  forallb (fun c => negb (c =? comma)%N) a = true -> ~ In comma a.
Proof.
  intros H Hin. rewrite forallb_forall in H. specialize (H comma Hin).
  rewrite N.eqb_refl in H. discriminate H.
Qed.


Lemma includes_cons (c : N) (s sub : jsstring) :
  includes (c :: s) sub = startsWith (c :: s) sub || includes s sub.
Proof. reflexivity. Qed.


End StringFacts.

(* ================================================================== *)
(** ** The sanitizer *)
(* ================================================================== *)

Lemma sanitizeText_cleaned (text : jsstring) :
  Utils.sanitizeText text = firstn 2000 (cleaned text).
Proof.
  unfold Utils.sanitizeText. destruct text as [|c r].
  - reflexivity.
  - simpl is_empty. cbv iota. apply substring_from_0.
Qed.

(** C9, as stated, fails: the result of [sanitizeText] is not always
    trimmed.  The text is trimmed before it is cut to 2000 code units,
    so the cut can leave white space at the end. *)
Lemma sanitizeText_not_always_trimmed :
  ~ (forall text : jsstring,
        trim (Utils.sanitizeText text) = Utils.sanitizeText text
        /\ Forall (fun c => Utils.is_angle c = false) (Utils.sanitizeText text)
        /\ length (Utils.sanitizeText text) <= 2000).
Proof.
  intros H. destruct (H long_text) as [E _].
  assert (L : Nat.eqb (length (trim (Utils.sanitizeText long_text)))
                      (length (Utils.sanitizeText long_text)) = true)
    by (rewrite E; apply Nat.eqb_refl).
  vm_compute in L. discriminate L.
Qed.

(** The sanitized text has at most 2000 code units, none of them an
    angle bracket, and no leading white space; it is trimmed unless it
    was cut: more than 2000 code units were left after cleaning and
    trimming, and it is the first 2000 of them. *)
Lemma sanitizeText_shape (text : jsstring) :
  length (Utils.sanitizeText text) <= 2000
  /\ Forall (fun c => Utils.is_angle c = false) (Utils.sanitizeText text)
  /\ trimStart (Utils.sanitizeText text) = Utils.sanitizeText text
  /\ (trim (Utils.sanitizeText text) = Utils.sanitizeText text
      \/ (length (Utils.sanitizeText text) = 2000
          /\ 2000 < length (cleaned text))).
Proof.
  rewrite sanitizeText_cleaned. repeat split.
  - rewrite length_firstn. apply Nat.le_min_l.
  - apply firstn_Forall. unfold cleaned, trim.
    apply trimEnd_Forall, trimStart_Forall.
    do 2 apply remove_matches_Forall.
    apply Forall_forall. intros c Hc. apply filter_In in Hc.
    destruct Hc as [_ Hc]. apply negb_true_iff in Hc. exact Hc.
  - apply starts_clean_trimStart, firstn_starts_clean.
    unfold cleaned. apply trim_starts_clean.
  - destruct (Nat.le_gt_cases (length (cleaned text)) 2000) as [H|H].
    + left. rewrite firstn_all2 by exact H. unfold cleaned. apply trim_idempotent.
    + right. split; [|exact H]. rewrite length_firstn. apply Nat.min_l. lia.
Qed.

(* ================================================================== *)
(** ** The text handler and its rule chain *)
(* ================================================================== *)

Section RoutingFacts.
Variable env : Env.
Variable ownerRegex : RegExp.

Abbreviation onText := (Telegram.onText env ownerRegex).
Abbreviation classify := (Telegram.classify ownerRegex).

(** The handler is the resolver applied to the intent of the sanitized
    text; an empty text is dropped before any rule is tried. *)
Lemma onText_resolve (ctx : Telegram.Ctx) :
  onText ctx =
  let text := Utils.sanitizeText (Telegram.message_text ctx) in
  if is_empty text then ret tt
  else resolve env ctx text (classify text).
Proof.
  unfold Telegram.onText, Telegram.classify, resolve, storeBooking. cbv zeta.
  destruct (is_empty _); [reflexivity|].
  destruct (Llm.containsEmergencyKeywords _); [reflexivity|].
  destruct (test ownerRegex _); [reflexivity|].
  destruct (array_includes Telegram.bookingShortcuts _); [reflexivity|].
  destruct (array_includes Telegram.faqShortcuts _); [reflexivity|].
  destruct (array_includes Telegram.staffShortcuts _); [reflexivity|].
  destruct (Utils.looksLikeBooking _).
  - destruct (Utils.validateBookingFormat _); reflexivity.
  - destruct (Utils.hasHealthKeywords _); reflexivity.
Qed.

Lemma classify_Classifies (text : jsstring) :
  Classifies ownerRegex text (classify text).
Proof.
  unfold Telegram.classify. cbv zeta.
  destruct (Llm.containsEmergencyKeywords text) eqn:E1; [now constructor|].
  destruct (test ownerRegex text) eqn:E2; [now constructor|].
  destruct (array_includes Telegram.bookingShortcuts _) eqn:E3; [now constructor|].
  destruct (array_includes Telegram.faqShortcuts _) eqn:E4; [now constructor|].
  destruct (array_includes Telegram.staffShortcuts _) eqn:E5; [now constructor|].
  destruct (Utils.looksLikeBooking text) eqn:E6; [now constructor|].
  destruct (Utils.hasHealthKeywords text) eqn:E7; now constructor.
Qed.

Lemma Classifies_classify (text : jsstring) (i : Telegram.Intent) :
  Classifies ownerRegex text i -> i = classify text.
Proof.
  unfold Telegram.classify. cbv zeta.
  destruct 1;
    repeat match goal with
           | H : _ = true |- _ => rewrite H; clear H
           | H : _ = false |- _ => rewrite H; clear H
           end; reflexivity.
Qed.

(** The general reply never throws and sends nothing itself. *)
Lemma llmTextReply_normal (text : jsstring) (w : World) :
  exists r w', Llm.llmTextReply text w = (Normal r, w') /\ replies w' = replies w.
Proof.
  unfold Llm.llmTextReply, bind, get, try_catch, Llm.generateText, record_call, ret, throw.
  destruct (gemini w) as [g|]; [|eauto].
  cbn. destruct (textModel g text); cbn; eauto.
Qed.

(** What storing a booking does, by what the context holds: with a
    patient, a sender and a chat, one call to [createAppointment] with
    the parsed fields and no reply; with a patient but no sender or no
    chat, a [TypeError]; without a patient, nothing. *)
Lemma storeBooking_effect (ctx : Telegram.Ctx) (text name timeSlot : jsstring)
      (w : World) :
  match Telegram.patient ctx, Telegram.from_id ctx, Telegram.chat_id ctx with
  | Some p, Some userId, Some chatId =>
      exists w',
        storeBooking ctx text name timeSlot w = (Normal tt, w')
        /\ replies w' = replies w
        /\ calls w' =
           calls w
           ++ [DbCreateAppointment {|
                 patient_id := Telegram.id p;
                 full_name := name;
                 preferred_datetime := timeSlot;
                 telegram_user_id := userId;
                 telegram_chat_id := chatId;
                 raw_request := text |}]
  | Some _, _, _ => storeBooking ctx text name timeSlot w = (Throw TypeError, w)
  | None, _, _ => storeBooking ctx text name timeSlot w = (Normal tt, w)
  end.
Proof.
  unfold storeBooking.
  destruct (Telegram.patient ctx) as [p|]; [|destruct (Telegram.from_id ctx),
    (Telegram.chat_id ctx); reflexivity].
  destruct (Telegram.from_id ctx) as [u|];
    [|destruct (Telegram.chat_id ctx); reflexivity].
  destruct (Telegram.chat_id ctx) as [c|]; [|reflexivity].
  unfold Supabase.createAppointment, bind, get, record_call, property, ret, set_client.
  cbn. destruct (supabase w) as [cl|]; [|eexists; repeat split; reflexivity].
  cbn. destruct (outcome cl QInsertAppointment); eexists; repeat split; reflexivity.
Qed.

(** The rule chain never yields one of the three intents that have no
    text rule. *)
Lemma classify_text_intent (text : jsstring) :
  classify text <> Telegram.Greeting
  /\ classify text <> Telegram.AdminBrief
  /\ classify text <> Telegram.AdminFollowups.
Proof.
  unfold Telegram.classify. cbv zeta.
  destruct (Llm.containsEmergencyKeywords text); [repeat split; discriminate|].
  destruct (test ownerRegex text); [repeat split; discriminate|].
  destruct (array_includes Telegram.bookingShortcuts _);
    [repeat split; discriminate|].
  destruct (array_includes Telegram.faqShortcuts _); [repeat split; discriminate|].
  destruct (array_includes Telegram.staffShortcuts _);
    [repeat split; discriminate|].
  destruct (Utils.looksLikeBooking text); [repeat split; discriminate|].
  destruct (Utils.hasHealthKeywords text); repeat split; discriminate.
Qed.

(** C3, amended: classification is total and single-valued on every
    message that is left after sanitizing.  For every message, the
    ordered rule list assigns its sanitized text exactly one intent, the
    one the rule chain of the handler computes; that intent is
    [Unrecognized] exactly when every rule fails, and never one of the
    three intents without a text rule.  When the sanitized text is empty
    the handler does nothing at all: no intent, no reply.  Otherwise the
    handler runs the branch of that intent and, behind [safeHandler],
    ends normally with exactly one reply, the one of that intent: the
    canned message of the rule, the booking confirmation, the
    format-correction message, or, for [Unrecognized], the text
    [llmTextReply] returns.  (The context is one the bot can build: a
    patient record comes with a sender and a chat.) *)
Theorem classify_total (ctx : Telegram.Ctx) (w : World) :
  let text := Utils.sanitizeText (Telegram.message_text ctx) in
  let canned (m : jsstring) := {| sent_text := m; markdown := false |} in
  let answer :=
    match classify text with
    | Telegram.EmergencyConcern =>
        {| sent_text := Llm.getEmergencyResponse env; markdown := true |}
    | Telegram.OwnerQuery => canned (Utils.getOwnerProfile env)
    | Telegram.BookingInstructions => canned Utils.getBookingInstructions
    | Telegram.FAQMenu => canned Utils.getFAQMenu
    | Telegram.StaffConnect => canned Utils.getStaffConnectionMessage
    | Telegram.BookingSubmission (Utils.Valid _ _) =>
        canned (Utils.getBookingReply text)
    | Telegram.BookingSubmission Utils.Invalid =>
        canned Utils.getInvalidBookingMessage
    | Telegram.HealthConcern => canned Utils.getHealthResponse
    | Telegram.Unrecognized | Telegram.Greeting | Telegram.AdminBrief
    | Telegram.AdminFollowups =>
        canned (match fst (Llm.llmTextReply text w) with
                | Normal aiResponse => aiResponse
                | Throw _ => Telegram.guidedOptions
                end)
    end in
  (Telegram.patient ctx <> None ->
   Telegram.from_id ctx <> None /\ Telegram.chat_id ctx <> None) ->
  (forall i, Classifies ownerRegex text i <-> i = classify text)
  /\ (classify text = Telegram.Unrecognized <->
      Llm.containsEmergencyKeywords text = false
      /\ test ownerRegex text = false
      /\ array_includes Telegram.bookingShortcuts (toLowerCase text) = false
      /\ array_includes Telegram.faqShortcuts (toLowerCase text) = false
      /\ array_includes Telegram.staffShortcuts (toLowerCase text) = false
      /\ Utils.looksLikeBooking text = false
      /\ Utils.hasHealthKeywords text = false)
  /\ (classify text <> Telegram.Greeting
      /\ classify text <> Telegram.AdminBrief
      /\ classify text <> Telegram.AdminFollowups)
  /\ (if is_empty text
      then Telegram.safeHandler onText ctx w = (Normal tt, w)
      else onText ctx = resolve env ctx text (classify text)
           /\ exists w',
                Telegram.safeHandler onText ctx w = (Normal tt, w')
                /\ replies w' = replies w ++ [answer]).
Proof.
  cbv zeta. intros Hwf.
  set (text := Utils.sanitizeText (Telegram.message_text ctx)).
  split.
  { intros i; split; [apply Classifies_classify|].
    intros ->. apply classify_Classifies. }
  split.
  { split.
    - intros E. pose proof (classify_Classifies text) as H. rewrite E in H.
      inversion H. repeat split; assumption.
    - intros (E1 & E2 & E3 & E4 & E5 & E6 & E7).
      symmetry. apply Classifies_classify. now constructor. }
  split; [apply classify_text_intent|].
  pose proof (onText_resolve ctx) as R. cbv zeta in R. fold text in R.
  unfold Telegram.safeHandler. rewrite R.
  destruct (is_empty text); [reflexivity|].
  split; [reflexivity|].
  pose proof (classify_Classifies text) as H.
  unfold try_catch at 1.
  inversion H as [E1|E1 E2|E1 E2 E3|E1 E2 E3 E4|E1 E2 E3 E4 E5
                  |E1 E2 E3 E4 E5 E6|E1 E2 E3 E4 E5 E6 E7
                  |E1 E2 E3 E4 E5 E6 E7]; simpl resolve;
    try (unfold reply; eexists; split; reflexivity).
  - (* booking *)
    destruct (Utils.validateBookingFormat text) as [name slot|];
      [|unfold reply; eexists; split; reflexivity].
    simpl resolve. unfold bind.
    pose proof (storeBooking_effect ctx text name slot w) as S.
    destruct (Telegram.patient ctx) as [p|].
    + destruct (Hwf ltac:(discriminate)) as [Hf Hc].
      destruct (Telegram.from_id ctx) as [u|]; [|contradiction].
      destruct (Telegram.chat_id ctx) as [c|]; [|contradiction].
      destruct S as (w1 & S & Rp & _). rewrite S. unfold reply.
      eexists. split; [reflexivity|]. simpl. rewrite Rp. reflexivity.
    + assert (S' : storeBooking ctx text name slot w = (Normal tt, w))
        by (destruct (Telegram.from_id ctx), (Telegram.chat_id ctx); exact S).
      rewrite S'. unfold reply. eexists. split; reflexivity.
  - (* fallback *)
    unfold try_catch, bind.
    destruct (llmTextReply_normal text w) as (r & w1 & E & Rp). rewrite E.
    unfold reply. eexists. split; [reflexivity|]. simpl. rewrite Rp.
    reflexivity.
Qed.

(** C1: emergency keywords dominate.  Whenever the sanitized text of a
    message contains one of the emergency keywords, in any letter case,
    the handler sends the emergency response, in Markdown, and nothing
    else: no other reply and no call to storage or to the model,
    whatever else the text looks like; the intent is
    [EmergencyConcern]. *)
Theorem emergency_dominates
        (ctx : Telegram.Ctx) (w : World) (keyword : jsstring) :
  In keyword Llm.emergencyKeywords ->
  includes (toLowerCase (Utils.sanitizeText (Telegram.message_text ctx)))
           keyword = true ->
  Telegram.safeHandler onText ctx w
  = (Normal tt, add_reply w (Llm.getEmergencyResponse env) true)
  /\ classify (Utils.sanitizeText (Telegram.message_text ctx))
     = Telegram.EmergencyConcern.
Proof.
  intros Hk Hi.
  assert (H : Llm.containsEmergencyKeywords
                (Utils.sanitizeText (Telegram.message_text ctx)) = true).
  { unfold Llm.containsEmergencyKeywords. apply existsb_exists.
    exists keyword. split; assumption. }
  unfold Telegram.safeHandler, Telegram.onText, Telegram.classify.
  cbv zeta. rewrite H.
  destruct (Utils.sanitizeText (Telegram.message_text ctx)) as [|c r] eqn:E.
  - vm_compute in H. discriminate H.
  - split; reflexivity.
Qed.

Lemma classify_booking_nonempty (text : jsstring) (v : Utils.BookingValidation) :
  classify text = Telegram.BookingSubmission v -> is_empty text = false.
Proof.
  destruct text; [|reflexivity].
  intros H. unfold Telegram.classify in H.
  destruct (test ownerRegex []); vm_compute in H; discriminate H.
Qed.

(** The confirmation, cut around the echoed text. *)
Lemma getBookingReply_echo (text : jsstring) :
  Utils.getBookingReply text =
  (js "✅ Booking request received!" ++ nl ++ empty ++ nl
     ++ js "Request: " ++ dquote)
  ++ text
  ++ (dquote ++ nl ++ empty ++ nl
      ++ js "A staff member will contact you shortly to confirm your appointment."
      ++ nl
      ++ js "Please ensure your phone number is available for confirmation.").
Proof.
  unfold Utils.getBookingReply. cbn [join].
  repeat rewrite <- app_assoc. reflexivity.
Qed.

(** C5, amended: a valid booking is always acknowledged, with the
    confirmation built around the sanitized text.  When the sanitized
    text of a message is a valid booking submission, the handler ends
    normally and its one reply is the confirmation: the fixed heading,
    the line [Request: "..."] quoting the sanitized text verbatim, and
    the two closing lines.  This holds in every world, that is whether
    the storage client is missing, inserts the row, answers with an
    error or rejects; storage is asked once, with the parsed name and
    time slot and the sanitized text as [raw_request], exactly when the
    sender has a patient record.  (The context is one the bot can
    build: a patient record comes with a sender and a chat.) *)
Theorem booking_acknowledged_whatever_storage_does
        (ctx : Telegram.Ctx) (w : World) (name timeSlot : jsstring) :
  let text := Utils.sanitizeText (Telegram.message_text ctx) in
  let confirmation :=
    js "✅ Booking request received!" ++ nl
    ++ nl
    ++ js "Request: " ++ dquote ++ text ++ dquote ++ nl
    ++ nl
    ++ js "A staff member will contact you shortly to confirm your appointment."
    ++ nl
    ++ js "Please ensure your phone number is available for confirmation." in
  classify text = Telegram.BookingSubmission (Utils.Valid name timeSlot) ->
  (Telegram.patient ctx <> None ->
   Telegram.from_id ctx <> None /\ Telegram.chat_id ctx <> None) ->
  exists w',
    Telegram.safeHandler onText ctx w = (Normal tt, w')
    /\ replies w' =
       replies w ++ [{| sent_text := confirmation; markdown := false |}]
    /\ includes confirmation text = true
    /\ calls w' =
       calls w
       ++ match Telegram.patient ctx, Telegram.from_id ctx,
                Telegram.chat_id ctx with
          | Some p, Some userId, Some chatId =>
              [DbCreateAppointment {|
                 patient_id := Telegram.id p;
                 full_name := name;
                 preferred_datetime := timeSlot;
                 telegram_user_id := userId;
                 telegram_chat_id := chatId;
                 raw_request := text |}]
          | _, _, _ => []
          end.
Proof.
  cbv zeta. intros H Hwf. unfold Telegram.safeHandler.
  rewrite onText_resolve. cbv zeta.
  rewrite (classify_booking_nonempty _ _ H), H. simpl resolve.
  unfold try_catch, bind.
  assert (I : forall a b : jsstring,
             includes
               (a ++ Utils.sanitizeText (Telegram.message_text ctx) ++ b)
               (Utils.sanitizeText (Telegram.message_text ctx)) = true)
    by (intros; apply includes_middle).
  assert (G : Utils.getBookingReply
                (Utils.sanitizeText (Telegram.message_text ctx))
              = js "✅ Booking request received!" ++ nl ++ nl
                ++ js "Request: " ++ dquote
                ++ Utils.sanitizeText (Telegram.message_text ctx)
                ++ dquote ++ nl ++ nl
                ++ js "A staff member will contact you shortly to confirm your appointment."
                ++ nl
                ++ js "Please ensure your phone number is available for confirmation.").
  { rewrite getBookingReply_echo. repeat rewrite <- app_assoc. reflexivity. }
  pose proof (storeBooking_effect ctx
                (Utils.sanitizeText (Telegram.message_text ctx)) name timeSlot w)
    as S.
  destruct (Telegram.patient ctx) as [p|].
  - destruct (Hwf ltac:(discriminate)) as [Hf Hc].
    destruct (Telegram.from_id ctx) as [u|]; [|contradiction].
    destruct (Telegram.chat_id ctx) as [c|]; [|contradiction].
    destruct S as (w1 & S & Rp & Cl). rewrite S. unfold reply.
    eexists. split; [reflexivity|]. split; [|split].
    + simpl. rewrite Rp, G. reflexivity.
    + rewrite <- G, getBookingReply_echo. apply I.
    + exact Cl.
  - assert (S' : storeBooking ctx
                   (Utils.sanitizeText (Telegram.message_text ctx)) name
                   timeSlot w = (Normal tt, w))
      by (destruct (Telegram.from_id ctx), (Telegram.chat_id ctx); exact S).
    rewrite S'. unfold reply.
    eexists. split; [reflexivity|]. split; [|split].
    + simpl. rewrite G. reflexivity.
    + rewrite <- G, getBookingReply_echo. apply I.
    + simpl. rewrite app_nil_r. reflexivity.
Qed.

(** C6, amended: the health rule fires once the handler's own emergency
    keywords are ruled out.  A sanitized text with none of the emergency
    keywords of [containsEmergencyKeywords], no owner match, no shortcut
    and no booking look, that contains a health keyword, is a
    [HealthConcern] and is answered with the canned health response and
    nothing else.  A text that contains "help" or "urgent", in any
    letter case, is an [EmergencyConcern]. *)
Theorem health_concern_after_code_emergency_list
        (ctx : Telegram.Ctx) (w : World) :
  let text := Utils.sanitizeText (Telegram.message_text ctx) in
  Llm.containsEmergencyKeywords text = false ->
  test ownerRegex text = false ->
  array_includes Telegram.bookingShortcuts (toLowerCase text) = false ->
  array_includes Telegram.faqShortcuts (toLowerCase text) = false ->
  array_includes Telegram.staffShortcuts (toLowerCase text) = false ->
  Utils.looksLikeBooking text = false ->
  Utils.hasHealthKeywords text = true ->
  classify text = Telegram.HealthConcern
  /\ Telegram.safeHandler onText ctx w
     = (Normal tt, add_reply w Utils.getHealthResponse false)
  /\ (forall other : jsstring,
        includes (toLowerCase other) (js "help") = true
        \/ includes (toLowerCase other) (js "urgent") = true ->
        classify other = Telegram.EmergencyConcern).
Proof.
  cbv zeta. intros E1 E2 E3 E4 E5 E6 E7.
  assert (C : classify (Utils.sanitizeText (Telegram.message_text ctx))
              = Telegram.HealthConcern)
    by (symmetry; apply Classifies_classify; now constructor).
  split; [exact C|]. split.
  - unfold Telegram.safeHandler. rewrite onText_resolve. cbv zeta. rewrite C.
    destruct (Utils.sanitizeText (Telegram.message_text ctx)) as [|c r].
    + discriminate E7.
    + reflexivity.
  - intros other K.
    assert (E : Llm.containsEmergencyKeywords other = true).
    { unfold Llm.containsEmergencyKeywords. apply existsb_exists.
      destruct K as [K|K]; eexists; (split; [|exact K]);
        unfold Llm.emergencyKeywords; simpl; tauto. }
    unfold Telegram.classify. rewrite E. reflexivity.
Qed.

(** With two commas or more, the second part stops at the second comma. *)
Lemma validateBookingFormat_two_commas (a b c : jsstring) :
  ~ In comma a -> ~ In comma b ->
  Utils.validateBookingFormat (a ++ [comma] ++ b ++ [comma] ++ c) =
  if (2 <? length (trim a)) && (2 <? length (trim b))
  then Utils.Valid (trim a) (trim b)
  else Utils.Invalid.
Proof.
  intros Ha Hb. unfold Utils.validateBookingFormat.
  assert (S : split (a ++ [comma] ++ b ++ [comma] ++ c) comma
              = a :: b :: split c comma).
  { simpl app. rewrite split_app_comma by exact Ha.
    rewrite split_app_comma by exact Hb. reflexivity. }
  rewrite S.
  destruct (a ++ [comma] ++ b ++ [comma] ++ c) eqn:E.
  - destruct a; discriminate E.
  - reflexivity.
Qed.

(** C10: only the text between the first two commas becomes the time
    slot.  Take a message whose sanitized text is [a , b , c] with no
    comma in [a] and [b], routed to the booking branch, with name and
    slot long enough, from a known patient, on a store that accepts the
    insert.  Then the row appended to [appointments] has
    [preferred_datetime] equal to the trimmed [b] alone, while
    [raw_request] and the confirmation sent carry the whole text. *)
Theorem timeSlot_stops_at_second_comma
        (a b c : jsstring) (ctx : Telegram.Ctx) (w : World)
        (client : Client) (p : Telegram.Patient) (userId chatId : Z) :
  let text := a ++ [comma] ++ b ++ [comma] ++ c in
  ~ In comma a -> ~ In comma b ->
  2 < length (trim a) -> 2 < length (trim b) ->
  Utils.sanitizeText (Telegram.message_text ctx) = text ->
  classify text = Telegram.BookingSubmission (Utils.validateBookingFormat text) ->
  Telegram.patient ctx = Some p ->
  Telegram.from_id ctx = Some userId ->
  Telegram.chat_id ctx = Some chatId ->
  supabase w = Some client ->
  outcome client QInsertAppointment = Succeeds ->
  Utils.validateBookingFormat text = Utils.Valid (trim a) (trim b)
  /\ exists w' client',
       Telegram.safeHandler onText ctx w = (Normal tt, w')
       /\ supabase w' = Some client'
       /\ appointments client' =
          appointments client
          ++ [{| ap_patient_id := Telegram.id p;
                 ap_full_name := trim a;
                 ap_preferred_datetime := trim b;
                 ap_status := pending;
                 ap_telegram_user_id := userId;
                 ap_telegram_chat_id := chatId;
                 ap_raw_request := text;
                 ap_created_at := now w;
                 ap_updated_at := now w |}]
       /\ replies w' =
          replies w
          ++ [{| sent_text := Utils.getBookingReply text; markdown := false |}]
       /\ includes (Utils.getBookingReply text) text = true.
Proof.
  cbv zeta. intros Ha Hb La Lb Etext Hclass Hp Hu Hc Hs Ho.
  assert (V : Utils.validateBookingFormat (a ++ [comma] ++ b ++ [comma] ++ c)
              = Utils.Valid (trim a) (trim b)).
  { rewrite validateBookingFormat_two_commas by assumption.
    apply Nat.ltb_lt in La, Lb. rewrite La, Lb. reflexivity. }
  split; [exact V|].
  unfold Telegram.safeHandler. rewrite onText_resolve. cbv zeta.
  rewrite Etext, Hclass, V.
  rewrite V in Hclass. rewrite (classify_booking_nonempty _ _ Hclass).
  simpl resolve. unfold storeBooking. rewrite Hp, Hu, Hc.
  unfold Supabase.createAppointment, try_catch, bind, get, record_call,
    property, ret, set_client, reply.
  cbn -[Utils.getBookingReply]. rewrite Hs.
  cbn -[Utils.getBookingReply]. rewrite Ho.
  cbn -[Utils.getBookingReply].
  eexists. eexists. split; [reflexivity|].
  split; [reflexivity|]. split; [reflexivity|]. split; [reflexivity|].
  rewrite getBookingReply_echo. apply includes_middle.
Qed.

End RoutingFacts.

(* ================================================================== *)
(** ** Sanitizing comes first *)
(* ================================================================== *)

(** C9, amended: the handler works on the sanitized text only (an empty
    one is dropped, otherwise the rules, the booking parser and the
    replies all get the sanitized text), and for every message text the
    sanitized text has at most 2000 code units, none of them an angle
    bracket, and no leading white space; it has no trailing white space
    either unless it was cut: more than 2000 code units were left after
    removing and trimming, and the result is the first 2000 of them. *)
Theorem sanitizeText_bounded_clean
        (env : Env) (ownerRegex : RegExp) (ctx : Telegram.Ctx) :
  let r := Utils.sanitizeText (Telegram.message_text ctx) in
  Telegram.onText env ownerRegex ctx
  = (if is_empty r then ret tt
     else resolve env ctx r (Telegram.classify ownerRegex r))
  /\ length r <= 2000
  /\ Forall (fun c => Utils.is_angle c = false) r
  /\ trimStart r = r
  /\ (trim r = r
      \/ (length r = 2000 /\ 2000 < length (cleaned (Telegram.message_text ctx)))).
Proof.
  cbv zeta. split; [apply onText_resolve | apply sanitizeText_shape].
Qed.

(* ================================================================== *)
(** ** The rule chain on sample messages *)
(* ================================================================== *)

Example shortcuts_reach_booking_instructions :
  map (Telegram.classify ownerRegexDefault) [js "1"; js "book"; js "BOOKING"]
  = [Telegram.BookingInstructions; Telegram.BookingInstructions;
     Telegram.BookingInstructions].
Proof. vm_compute. reflexivity. Qed.

Example owner_name_is_recognized :
  Telegram.classify ownerRegexDefault (js "Is dr. kunle adesina in today?")
  = Telegram.OwnerQuery.
Proof. vm_compute. reflexivity. Qed.

Example blank_message_gets_no_reply :
  Telegram.safeHandler (Telegram.onText defaultEnv ownerRegexDefault)
    (textCtx (js "   ")) emptyWorld = (Normal tt, emptyWorld).
Proof. vm_compute. reflexivity. Qed.

Example sanitizeText_sample :
  Utils.sanitizeText (js "  <b>Hello</b> JavaScript:run() onclick=go  ")
  = js "bHello/b run() go".
Proof. vm_compute. reflexivity. Qed.

(** The text of C1 is an emergency although it also parses as a booking
    (name "I have chest pain", slot "John Doe"). *)
Lemma emergency_dominates_witness :
  let ctx := textCtx (js "I have chest pain, John Doe, Friday 3pm") in
  let text := Utils.sanitizeText (Telegram.message_text ctx) in
  (Utils.looksLikeBooking text = true
   /\ Utils.validateBookingFormat text
      = Utils.Valid (js "I have chest pain") (js "John Doe"))
  /\ Telegram.safeHandler (Telegram.onText defaultEnv ownerRegexDefault) ctx
       (worldWith workingStore)
     = (Normal tt,
        add_reply (worldWith workingStore)
          (Llm.getEmergencyResponse defaultEnv) true)
  /\ Telegram.classify ownerRegexDefault text = Telegram.EmergencyConcern.
Proof.
  cbv zeta. split.
  - split; vm_compute; reflexivity.
  - apply (emergency_dominates defaultEnv ownerRegexDefault
             (textCtx (js "I have chest pain, John Doe, Friday 3pm"))
             (worldWith workingStore) (js "chest pain")).
    + unfold Llm.emergencyKeywords. simpl. tauto.
    + vm_compute. reflexivity.
Defined.

(** "Ada Lovelace, Friday 3pm" on a store that rejects every request. *)
Lemma booking_acknowledged_witness :
  let ctx := textCtx (js "Ada Lovelace, Friday 3pm") in
  let text := Utils.sanitizeText (Telegram.message_text ctx) in
  text = js "Ada Lovelace, Friday 3pm"
  /\ Telegram.classify ownerRegexDefault text
     = Telegram.BookingSubmission
         (Utils.Valid (js "Ada Lovelace") (js "Friday 3pm"))
  /\ exists w',
       Telegram.safeHandler (Telegram.onText defaultEnv ownerRegexDefault) ctx
         (worldWith failingStore) = (Normal tt, w')
       /\ map sent_text (replies w') =
          [join [js "✅ Booking request received!";
                 empty;
                 js "Request: " ++ dquote ++ js "Ada Lovelace, Friday 3pm"
                   ++ dquote;
                 empty;
                 js "A staff member will contact you shortly to confirm your appointment.";
                 js "Please ensure your phone number is available for confirmation."]
             nl]
       /\ supabase w' = Some failingStore.
Proof.
  cbv zeta. split; [vm_compute; reflexivity|].
  split; [vm_compute; reflexivity|].
  destruct (booking_acknowledged_whatever_storage_does defaultEnv
              ownerRegexDefault (textCtx (js "Ada Lovelace, Friday 3pm"))
              (worldWith failingStore) (js "Ada Lovelace") (js "Friday 3pm"))
    as (w' & E & R & _).
  - vm_compute. reflexivity.
  - intros _. split; discriminate.
  - exists w'. split; [exact E|]. split.
    + rewrite R. vm_compute. reflexivity.
    + vm_compute in E. injection E as <-. reflexivity.
Defined.

(** C5, as stated, fails: the confirmation does not always contain the
    raw text of the message.  It quotes the sanitized text; the message
    "  <Ada> Lovelace, Friday 3pm" is a valid booking submission once
    sanitized, and its confirmation quotes "Ada Lovelace, Friday 3pm",
    without the blanks and the angle brackets. *)
Lemma booking_reply_quotes_the_sanitized_text :
  ~ (forall (ctx : Telegram.Ctx) (w : World) (name timeSlot : jsstring),
        Telegram.classify ownerRegexDefault
          (Utils.sanitizeText (Telegram.message_text ctx))
        = Telegram.BookingSubmission (Utils.Valid name timeSlot) ->
        (Telegram.patient ctx <> None ->
         Telegram.from_id ctx <> None /\ Telegram.chat_id ctx <> None) ->
        exists w' m,
          Telegram.safeHandler (Telegram.onText defaultEnv ownerRegexDefault)
            ctx w = (Normal tt, w')
          /\ replies w' = replies w ++ [m]
          /\ includes (sent_text m) (Telegram.message_text ctx) = true).
Proof.
  intros H.
  destruct (H (textCtx (js "  <Ada> Lovelace, Friday 3pm")) emptyWorld
              (js "Ada Lovelace") (js "Friday 3pm"))
    as (w' & m & E & R & I).
  - vm_compute. reflexivity.
  - intros _. split; discriminate.
  - vm_compute in E. injection E as <-.
    vm_compute in R. injection R as <-.
    vm_compute in I. discriminate I.
Qed.

(** "What are your opening hours?" matches no rule: it is [Unrecognized]
    and, with no model configured, gets the one reply [llmTextReply]
    gives in that case. *)
Lemma classify_total_witness :
  let ctx := textCtx (js "What are your opening hours?") in
  Telegram.classify ownerRegexDefault
    (Utils.sanitizeText (Telegram.message_text ctx)) = Telegram.Unrecognized
  /\ exists w',
       Telegram.safeHandler (Telegram.onText defaultEnv ownerRegexDefault) ctx
         emptyWorld = (Normal tt, w')
       /\ map sent_text (replies w')
          = [js "I'm currently unable to process your request. Please contact our staff directly for assistance."].
Proof.
  cbv zeta.
  destruct (classify_total defaultEnv ownerRegexDefault
              (textCtx (js "What are your opening hours?")) emptyWorld)
    as (_ & U & _ & H).
  - intros _. split; discriminate.
  - split.
    + apply U. vm_compute. repeat split.
    + change (is_empty (Utils.sanitizeText
                          (Telegram.message_text
                             (textCtx (js "What are your opening hours?")))))
        with false in H.
      destruct H as (_ & w' & E & R).
      exists w'. split; [exact E|]. rewrite R. vm_compute. reflexivity.
Defined.

(** C3, as stated, fails: not every text gets an intent.  The message
    "<>" is not blank, yet nothing is left of it after sanitizing and
    the handler returns before any rule is tried: it is not handled as
    [Unrecognized], the intent the rule list gives a text that matches
    no rule, nor as any other intent, and no reply is sent. *)
Lemma angle_brackets_get_no_intent :
  ~ (forall (text : jsstring) (w : World),
        is_empty (trim text) = false ->
        exists i,
          Classifies ownerRegexDefault (Utils.sanitizeText text) i
          /\ Telegram.safeHandler (Telegram.onText defaultEnv ownerRegexDefault)
               (textCtx text) w
             = Telegram.safeHandler
                 (fun ctx => resolve defaultEnv ctx (Utils.sanitizeText text) i)
                 (textCtx text) w).
Proof.
  intros H.
  destruct (H (js "<>") emptyWorld eq_refl) as (i & C & E).
  apply Classifies_classify in C. vm_compute in C. subst i.
  vm_compute in E. discriminate E.
Qed.

(** C6, as stated, fails: "I need help" has none of the six emergency
    keywords the specification lists, matches no owner, no shortcut and
    no booking look, and contains the health keyword "help"; the handler
    answers it as an emergency, because "help" is one of its own
    emergency keywords. *)
Lemma help_is_an_emergency_not_a_health_concern :
  ~ (forall text : jsstring,
        containsSpecEmergencyKeywords text = false ->
        test ownerRegexDefault text = false ->
        array_includes Telegram.bookingShortcuts (toLowerCase text) = false ->
        array_includes Telegram.faqShortcuts (toLowerCase text) = false ->
        array_includes Telegram.staffShortcuts (toLowerCase text) = false ->
        Utils.looksLikeBooking text = false ->
        Utils.hasHealthKeywords text = true ->
        Telegram.classify ownerRegexDefault text = Telegram.HealthConcern).
Proof.
  intros H.
  assert (E : Telegram.classify ownerRegexDefault (js "I need help")
              = Telegram.HealthConcern)
    by (apply H; vm_compute; reflexivity).
  vm_compute in E. discriminate E.
Qed.

(** "I feel sick" is a health concern; "It is URGENT" is an emergency. *)
Lemma health_concern_witness :
  let ctx := textCtx (js "I feel sick") in
  Telegram.classify ownerRegexDefault
    (Utils.sanitizeText (Telegram.message_text ctx)) = Telegram.HealthConcern
  /\ Telegram.safeHandler (Telegram.onText defaultEnv ownerRegexDefault) ctx
       emptyWorld
     = (Normal tt, add_reply emptyWorld Utils.getHealthResponse false)
  /\ Telegram.classify ownerRegexDefault (js "It is URGENT")
     = Telegram.EmergencyConcern.
Proof.
  destruct (health_concern_after_code_emergency_list defaultEnv
              ownerRegexDefault (textCtx (js "I feel sick")) emptyWorld)
    as (C & E & U); try (vm_compute; reflexivity).
  split; [exact C|]. split; [exact E|].
  apply U. right. vm_compute. reflexivity.
Defined.

(** "John Doe, Friday, 3pm": the slot stored is "Friday". *)
Lemma timeSlot_stops_at_second_comma_witness :
  let text := js "John Doe, Friday, 3pm" in
  exists w' client',
    Telegram.safeHandler (Telegram.onText defaultEnv ownerRegexDefault)
      (textCtx text) (worldWith workingStore) = (Normal tt, w')
    /\ supabase w' = Some client'
    /\ map ap_preferred_datetime (appointments client') = [js "Friday"]
    /\ map ap_raw_request (appointments client') = [text]
    /\ map sent_text (replies w') = [Utils.getBookingReply text].
Proof.
  cbv zeta.
  destruct (timeSlot_stops_at_second_comma defaultEnv ownerRegexDefault
              (js "John Doe") (js " Friday") (js " 3pm")
              (textCtx (js "John Doe, Friday, 3pm")) (worldWith workingStore)
              workingStore {| Telegram.id := 7 |} 42%Z 42%Z)
    as (_ & w' & client' & E & S & A & R & _).
  - apply no_comma_check. vm_compute. reflexivity.
  - apply no_comma_check. vm_compute. reflexivity.
  - vm_compute. lia.
  - vm_compute. lia.
  - vm_compute. reflexivity.
  - vm_compute. reflexivity.
  - reflexivity.
  - reflexivity.
  - reflexivity.
  - reflexivity.
  - reflexivity.
  - exists w', client'. split; [exact E|]. split; [exact S|].
    rewrite A, R. repeat split.
Defined.

(* ================================================================== *)
(** ** Booking submissions *)
(* ================================================================== *)

(** C4: validity of a booking submission.  The validation answers
    [{ valid: true, name, timeSlot }], with [name] the trimmed text
    before the first comma and [timeSlot] the trimmed second part,
    exactly when the split on commas has at least two parts and both
    have more than two code units; otherwise it answers
    [{ valid: false }].  The text "A, B" is invalid, and a message with
    that text is answered with the format-correction message and nothing
    else: no storage call is made. *)
Theorem validateBookingFormat_valid_iff (text : jsstring) :
  let parts := split text comma in
  let name := trim (before_first_comma text) in
  let timeSlot := trim (nth 1 parts []) in
  (Utils.validateBookingFormat text = Utils.Valid name timeSlot
   <-> 2 <= length parts /\ 2 < length name /\ 2 < length timeSlot)
  /\ (Utils.validateBookingFormat text = Utils.Invalid
      <-> ~ (2 <= length parts /\ 2 < length name /\ 2 < length timeSlot))
  /\ Utils.validateBookingFormat (js "A, B") = Utils.Invalid
  /\ (forall w,
        Telegram.safeHandler (Telegram.onText defaultEnv ownerRegexDefault)
          (textCtx (js "A, B")) w
        = (Normal tt, add_reply w Utils.getInvalidBookingMessage false)).
Proof.
  cbv zeta. rewrite <- split_head.
  assert (V : Utils.validateBookingFormat text =
              if (2 <=? length (split text comma))
                 && ((2 <? length (trim (nth 0 (split text comma) [])))
                     && (2 <? length (trim (nth 1 (split text comma) []))))
              then Utils.Valid (trim (nth 0 (split text comma) []))
                               (trim (nth 1 (split text comma) []))
              else Utils.Invalid).
  { unfold Utils.validateBookingFormat. destruct text as [|c r]; [reflexivity|].
    simpl is_empty. cbv iota.
    destruct (2 <=? length (split (c :: r) comma)); reflexivity. }
  rewrite V.
  destruct (Nat.leb_spec 2 (length (split text comma)));
    destruct (Nat.ltb_spec 2 (length (trim (nth 0 (split text comma) []))));
    destruct (Nat.ltb_spec 2 (length (trim (nth 1 (split text comma) []))));
    simpl; (repeat split; try reflexivity; try discriminate; try lia;
            try (intros; vm_compute; reflexivity)).
Qed.

(* ================================================================== *)
(** ** Media analysis *)
(* ================================================================== *)





(* ================================================================== *)
(** ** The daily brief *)
(* ================================================================== *)

(** The brief never throws and leaves the tables alone. *)
Lemma getDailyBrief_normal (date : option Z) (w : World) :
  exists brief,
    Supabase.getDailyBrief date w = (Normal brief, add_call w DbGetDailyBrief).
Proof.
  unfold Supabase.getDailyBrief, bind, get, try_catch, record_call,
    Supabase.select, ret, throw.
  cbn. destruct (supabase w) as [c|]; [|eauto].
  destruct (outcome c QChats); eauto;
  destruct (outcome c QBookings); eauto;
  destruct (outcome c QCancels); eauto;
  destruct (outcome c QFaqs); eauto.
Qed.

(** Without a client every count is 0. *)
Lemma getDailyBrief_no_client (date : option Z) (w : World) :
  supabase w = None ->
  Supabase.getDailyBrief date w = (Normal Supabase.zeroBrief, add_call w DbGetDailyBrief).
Proof.
  intros H. unfold Supabase.getDailyBrief, bind, get, record_call, ret.
  cbn. rewrite H. reflexivity.
Qed.

(** A rejected request zeroes the four counts. *)
Lemma getDailyBrief_rejected (date : option Z) (w : World) (c : Client) (q : Query) :
  supabase w = Some c ->
  In q [QChats; QBookings; QCancels; QFaqs] ->
  outcome c q = Rejects ->
  Supabase.getDailyBrief date w = (Normal Supabase.zeroBrief, add_call w DbGetDailyBrief).
Proof.
  intros H Hq Ho.
  unfold Supabase.getDailyBrief, bind, get, try_catch, record_call,
    Supabase.select, ret, throw.
  cbn. rewrite H.
  simpl in Hq. destruct Hq as [<-|[<-|[<-|[<-|[]]]]];
    destruct (outcome c QChats); try discriminate Ho; try reflexivity;
    destruct (outcome c QBookings); try discriminate Ho; try reflexivity;
    destruct (outcome c QCancels); try discriminate Ho; try reflexivity;
    destruct (outcome c QFaqs); try discriminate Ho; try reflexivity.
Qed.

(** When no request is rejected, each count is the number of rows of its
    own request, or 0 when that request answers with an error. *)
Lemma getDailyBrief_counts (date : option Z) (w : World) (c : Client) :
  supabase w = Some c ->
  (forall q, outcome c q <> Rejects) ->
  let day := match date with Some d => d | None => Supabase.today w end in
  let count (q : Query) (n : nat) :=
    match outcome c q with Succeeds => n | _ => 0 end in
  Supabase.getDailyBrief date w
  = (Normal {| Supabase.chats := count QChats (length (Supabase.chat_rows c day));
               Supabase.bookings := count QBookings (length (Supabase.booking_rows c day));
               Supabase.cancels := count QCancels (length (Supabase.cancel_rows c day));
               Supabase.faqs := count QFaqs (length (Supabase.faq_rows c day)) |},
     add_call w DbGetDailyBrief).
Proof.
  intros H Hq. cbv zeta.
  unfold Supabase.getDailyBrief, bind, get, try_catch, record_call,
    Supabase.select, ret, throw.
  cbn. rewrite H.
  pose proof (Hq QChats). pose proof (Hq QBookings).
  pose proof (Hq QCancels). pose proof (Hq QFaqs).
  destruct (outcome c QChats); try contradiction;
  destruct (outcome c QBookings); try contradiction;
  destruct (outcome c QCancels); try contradiction;
  destruct (outcome c QFaqs); try contradiction; reflexivity.
Qed.

(** On a day without records every count is 0. *)
Lemma getDailyBrief_empty_day (date : option Z) (w : World) (c : Client) :
  supabase w = Some c ->
  chat_logs c = [] -> appointments c = [] ->
  Supabase.getDailyBrief date w = (Normal Supabase.zeroBrief, add_call w DbGetDailyBrief).
Proof.
  intros H Hc Ha.
  unfold Supabase.getDailyBrief, bind, get, try_catch, record_call,
    Supabase.select, ret, throw, Supabase.chat_rows, Supabase.booking_rows,
    Supabase.cancel_rows, Supabase.faq_rows.
  cbn. rewrite H, Hc, Ha.
  destruct (outcome c QChats); try reflexivity;
  destruct (outcome c QBookings); try reflexivity;
  destruct (outcome c QCancels); try reflexivity;
  destruct (outcome c QFaqs); reflexivity.
Qed.

(** C8: the brief of [supabase.js] counts as FAQ only the messages that
    contain "faq".  On a day whose one logged message is "I have a
    question about opening hours" it reports [chats = 1] and [faqs = 0],
    where the count the claim describes, and the one the schema's
    [get_daily_brief] computes, is 1. *)
Theorem getDailyBrief_ignores_question :
  Supabase.getDailyBrief None (worldWith questionLog)
  = (Normal {| Supabase.chats := 1; Supabase.bookings := 0;
               Supabase.cancels := 0; Supabase.faqs := 0 |},
     add_call (worldWith questionLog) DbGetDailyBrief)
  /\ length (filter (fun r => (Supabase.ilike_contains (cl_message_text r) (js "faq")
                               || Supabase.ilike_contains (cl_message_text r)
                                    (js "question"))
                              && Supabase.in_window 0 (cl_timestamp r))
                    (chat_logs questionLog)) = 1
  /\ Supabase.faqs (Schema.get_daily_brief questionLog 0) = 1.
Proof.
  repeat split; vm_compute; reflexivity.
Qed.

(* ================================================================== *)
(** ** The admin gate *)
(* ================================================================== *)

Section AdminGate.
Variable env : Env.

(** The admin check passes only for the configured, non-zero id. *)
Lemma isAuthorizedMD_true_iff (userId : Z) :
  Utils.isAuthorizedMD env userId = true
  <-> MD_TELEGRAM_USER_ID env = AdminNum userId /\ userId <> 0%Z.
Proof.
  unfold Utils.isAuthorizedMD, admin_configured.
  destruct (MD_TELEGRAM_USER_ID env) as [| |id]; simpl.
  - split; [discriminate | intros [H _]; discriminate H].
  - split; [discriminate | intros [H _]; discriminate H].
  - rewrite andb_true_iff, negb_true_iff, Z.eqb_neq, Z.eqb_eq. split.
    + intros [H1 ->]. split; [reflexivity | exact H1].
    + intros [H1 H2]. injection H1 as ->. split; [exact H2 | reflexivity].
Qed.

(** The two commands turn away every sender the check fails for, with
    the same fixed reply and without touching storage. *)
Lemma md_brief_rejects (ctx : Telegram.Ctx) (w : World) (userId : Z) :
  Telegram.from_id ctx = Some userId ->
  Utils.isAuthorizedMD env userId = false ->
  Telegram.safeHandler (Telegram.md_brief env) ctx w
  = (Normal tt, add_reply w Telegram.unauthorizedReply false).
Proof.
  intros Hf Ha.
  unfold Telegram.safeHandler, Telegram.md_brief, try_catch, bind, property.
  rewrite Hf. cbn. rewrite Ha. reflexivity.
Qed.

Lemma md_followups_rejects (ctx : Telegram.Ctx) (w : World) (userId : Z) :
  Telegram.from_id ctx = Some userId ->
  Utils.isAuthorizedMD env userId = false ->
  Telegram.safeHandler (Telegram.md_followups env) ctx w
  = (Normal tt, add_reply w Telegram.unauthorizedReply false).
Proof.
  intros Hf Ha.
  unfold Telegram.safeHandler, Telegram.md_followups, try_catch, bind, property.
  rewrite Hf. cbn. rewrite Ha. reflexivity.
Qed.

(** An update without a sender makes [ctx.from.id] throw: the reply is
    the generic error message of [safeHandler], again without any call
    to storage. *)
Lemma md_brief_without_sender (ctx : Telegram.Ctx) (w : World) :
  Telegram.from_id ctx = None ->
  Telegram.safeHandler (Telegram.md_brief env) ctx w
  = (Normal tt, add_reply w Utils.getErrorMessage false).
Proof.
  intros Hf.
  unfold Telegram.safeHandler, Telegram.md_brief, try_catch, bind, property.
  rewrite Hf. reflexivity.
Qed.

(** The HTTP endpoints answer 403 exactly when no admin is configured. *)
Lemma get_md_brief_not_configured (req : Server.Request) (w : World) :
  admin_configured (MD_TELEGRAM_USER_ID env) = false ->
  Server.get_md_brief env req w = (Normal Server.notConfigured, w).
Proof.
  intros H. unfold Server.get_md_brief, try_catch. rewrite H. reflexivity.
Qed.

Lemma get_md_followups_not_configured (req : Server.Request) (w : World) :
  admin_configured (MD_TELEGRAM_USER_ID env) = false ->
  Server.get_md_followups env req w = (Normal Server.notConfigured, w).
Proof.
  intros H. unfold Server.get_md_followups, try_catch. rewrite H. reflexivity.
Qed.

(** Once an admin is configured they read the brief for any request:
    the request is not looked at. *)
Lemma get_md_brief_configured (req : Server.Request) (w : World) :
  admin_configured (MD_TELEGRAM_USER_ID env) = true ->
  exists brief,
    Server.get_md_brief env req w
    = (Normal {| Server.status := 200;
                 Server.body :=
                   Server.BriefBody (Supabase.today w) (CLINIC_NAME env) brief |},
       add_call w DbGetDailyBrief).
Proof.
  intros H. destruct (getDailyBrief_normal None w) as [brief E].
  exists brief. unfold Server.get_md_brief, try_catch. rewrite H.
  cbn [negb]. unfold bind at 1. rewrite E. reflexivity.
Qed.

End AdminGate.

(** C2: the HTTP endpoints do not apply the gate of the commands.  With
    admin id 123456789 configured, a request without any credentials
    gets status 200 from both endpoints, the brief and the list of
    pending appointments included, and each makes its storage call;
    the command [md_brief] sent by user 5 in the same world is turned
    away with the unauthorized reply and makes none. *)
Theorem http_endpoints_skip_the_sender_check :
  Server.get_md_brief adminEnv anonymousRequest (worldWith clinicStore)
  = (Normal {| Server.status := 200;
               Server.body :=
                 Server.BriefBody 0 (js "Serenity Royale Hospital")
                   {| Supabase.chats := 0; Supabase.bookings := 1;
                      Supabase.cancels := 0; Supabase.faqs := 0 |} |},
     add_call (worldWith clinicStore) DbGetDailyBrief)
  /\ Server.get_md_followups adminEnv anonymousRequest (worldWith clinicStore)
     = (Normal {| Server.status := 200;
                  Server.body := Server.FollowupsBody 1 [adaAppointment] |},
        add_call (worldWith clinicStore) (DbGetFollowupAppointments 20))
  /\ Telegram.safeHandler (Telegram.md_brief adminEnv) strangerCtx
       (worldWith clinicStore)
     = (Normal tt,
        add_reply (worldWith clinicStore) Telegram.unauthorizedReply false).
Proof.
  repeat split; vm_compute; reflexivity.
Qed.

(* ================================================================== *)
(** ** More on the sanitizer *)
(* ================================================================== *)

Section SubseqFacts.

Lemma subseq_refl (s : jsstring) : subseq s s.
Proof. induction s; constructor; assumption. Qed.

Lemma subseq_trans (a b c : jsstring) : subseq a b -> subseq b c -> subseq a c.
Proof.
  intros Hab Hbc. revert a Hab.
  induction Hbc as [|x b c Hbc IH|x b c Hbc IH]; intros a Hab.
  - exact Hab.
  - inversion Hab; subst.
    + constructor. apply IH. assumption.
    + apply subseq_drop. apply IH. assumption.
  - apply subseq_drop. apply IH. exact Hab.
Qed.

Lemma subseq_nil_l (s : jsstring) : subseq [] s.
Proof. induction s; constructor; assumption. Qed.

Lemma subseq_length (a b : jsstring) : subseq a b -> length a <= length b.
Proof. induction 1; simpl; lia. Qed.

Lemma subseq_filter (f : N -> bool) (s : jsstring) : subseq (filter f s) s.
Proof.
  induction s as [|c r IH]; simpl; [constructor|].
  destruct (f c); constructor; exact IH.
Qed.

Lemma subseq_remove_matches (m : jsstring -> nat) (s : jsstring) (skip : nat) :
  subseq (remove_matches m s skip) s.
Proof.
  revert skip. induction s as [|c r IH]; intros skip; simpl; [constructor|].
  destruct skip; [destruct (m (c :: r))|]; constructor; apply IH.
Qed.

Lemma subseq_trimStart (s : jsstring) : subseq (trimStart s) s.
Proof.
  induction s as [|c r IH]; simpl; [constructor|].
  destruct (is_space c); [apply subseq_drop, IH | apply subseq_refl].
Qed.

Lemma subseq_trimEnd (s : jsstring) : subseq (trimEnd s) s.
Proof.
  induction s as [|c r IH]; [constructor|].
  rewrite trimEnd_cons. destruct (trimEnd r) as [|d r'].
  - destruct (is_space c); [apply subseq_nil_l | constructor; exact IH].
  - constructor. exact IH.
Qed.

Lemma subseq_firstn (n : nat) (s : jsstring) : subseq (firstn n s) s.
Proof.
  revert n. induction s as [|c r IH]; intros [|n]; simpl;
    try constructor; try apply subseq_nil_l; apply IH.
Qed.

End SubseqFacts.

(** X1: the sanitizer only deletes.  Whatever the message, the sanitized
    text is the message with some code units left out: nothing is
    inserted, replaced or reordered. *)
Theorem sanitizeText_only_deletes (text : jsstring) :
  subseq (Utils.sanitizeText text) text
  /\ length (Utils.sanitizeText text) <= length text.
Proof.
  assert (H : subseq (Utils.sanitizeText text) text).
  { rewrite sanitizeText_cleaned. unfold cleaned, trim.
    eapply subseq_trans; [apply subseq_firstn|].
    eapply subseq_trans; [apply subseq_trimEnd|].
    eapply subseq_trans; [apply subseq_trimStart|].
    eapply subseq_trans; [apply subseq_remove_matches|].
    eapply subseq_trans; [apply subseq_remove_matches|].
    apply subseq_filter. }
  split; [exact H | apply subseq_length, H].
Qed.

Lemma remove_matches_nowhere (m : jsstring -> nat) (s : jsstring) :
  matches_nowhere m s = true -> remove_matches m s 0 = s.
Proof.
  induction s as [|c r IH]; simpl; intros H; [reflexivity|].
  apply andb_true_iff in H. destruct H as [H0 Hr].
  apply Nat.eqb_eq in H0. rewrite H0, (IH Hr). reflexivity.
Qed.

Lemma filter_all (f : N -> bool) (s : jsstring) :
  forallb f s = true -> filter f s = s.
Proof.
  induction s as [|c r IH]; simpl; intros H; [reflexivity|].
  apply andb_true_iff in H. destruct H as [Hc Hr].
  rewrite Hc, (IH Hr). reflexivity.
Qed.

(** X2: an ordinary message passes through.  When a text has no angle
    bracket and no match of [/javascript:/i] or [/on\w+=/i] starts
    anywhere in it, sanitizing it only trims it and cuts it to 2000 code
    units. *)
Theorem sanitizeText_plain_text (text : jsstring) :
  forallb (fun c => negb (Utils.is_angle c)) text = true ->
  matches_nowhere Utils.javascript_len text = true ->
  matches_nowhere Utils.on_handler_len text = true ->
  Utils.sanitizeText text = firstn 2000 (trim text).
Proof.
  intros Ha Hj Ho. rewrite sanitizeText_cleaned. unfold cleaned.
  rewrite (filter_all _ _ Ha), (remove_matches_nowhere _ _ Hj),
    (remove_matches_nowhere _ _ Ho).
  reflexivity.
Qed.

Lemma sanitizeText_plain_text_witness :
  Utils.sanitizeText (js "  Ada Lovelace, Friday 3:30pm ")
  = firstn 2000 (trim (js "  Ada Lovelace, Friday 3:30pm ")).
Proof.
  apply sanitizeText_plain_text; vm_compute; reflexivity.
Defined.

Lemma on_handler_len_not_o (c : N) (s : jsstring) :
  (lower_unit c =? 111)%N = false -> Utils.on_handler_len (c :: s) = 0.
Proof.
  intros H. unfold Utils.on_handler_len. destruct s as [|n r]; [reflexivity|].
  rewrite H. reflexivity.
Qed.

Lemma remove_on_handler_prefix (p s : jsstring) :
  forallb (fun c => negb (lower_unit c =? 111)%N) p = true ->
  remove_matches Utils.on_handler_len (p ++ s) 0
  = p ++ remove_matches Utils.on_handler_len s 0.
Proof.
  induction p as [|c p IH]; intros H; [reflexivity|].
  simpl in H. apply andb_true_iff in H. destruct H as [Hc Hp].
  apply negb_true_iff in Hc.
  change ((c :: p) ++ s) with (c :: (p ++ s)).
  change (remove_matches Utils.on_handler_len (c :: (p ++ s)) 0)
    with (match Utils.on_handler_len (c :: (p ++ s)) with
          | S k => remove_matches Utils.on_handler_len (p ++ s) k
          | O => c :: remove_matches Utils.on_handler_len (p ++ s) 0
          end).
  rewrite (on_handler_len_not_o c (p ++ s) Hc), (IH Hp). reflexivity.
Qed.

Lemma trimEnd_keeps_prefix (p s : jsstring) :
  forallb (fun c => negb (is_space c)) p = true ->
  startsWith (trimEnd (p ++ s)) p = true.
Proof.
  induction p as [|c p IH]; intros H.
  - destruct (trimEnd ([] ++ s)); reflexivity.
  - simpl in H. apply andb_true_iff in H. destruct H as [Hc Hp].
    apply negb_true_iff in Hc. specialize (IH Hp).
    change ((c :: p) ++ s) with (c :: (p ++ s)). rewrite trimEnd_cons.
    destruct (trimEnd (p ++ s)) as [|d r'] eqn:E.
    + rewrite Hc. destruct p as [|y p']; [simpl; rewrite N.eqb_refl; reflexivity|].
      simpl in IH. discriminate IH.
    + simpl. rewrite N.eqb_refl. exact IH.
Qed.

Lemma startsWith_firstn (n : nat) (s p : jsstring) :
  length p <= n -> startsWith s p = true -> startsWith (firstn n s) p = true.
Proof.
  revert n s. induction p as [|y p IH]; intros n s Hn H.
  - destruct (firstn n s); reflexivity.
  - destruct s as [|x s]; [discriminate H|].
    destruct n as [|n]; [simpl in Hn; lia|].
    simpl in *. apply andb_true_iff in H. destruct H as [H1 H2].
    rewrite H1. simpl. apply IH; [lia | exact H2].
Qed.

(** X3: one pass is not enough.  Removing [javascript:] from the middle
    of [javajavascript:script:] joins the two halves into a new
    [javascript:], and the sanitizer does not look again: whatever
    follows, the sanitized text starts with [javascript:]. *)
Theorem sanitizeText_can_leave_javascript (rest : jsstring) :
  startsWith (Utils.sanitizeText (js "javajavascript:script:" ++ rest))
             (js "javascript:") = true.
Proof.
  rewrite sanitizeText_cleaned. apply startsWith_firstn; [vm_compute; lia|].
  unfold cleaned, trim.
  assert (F : filter (fun c => negb (Utils.is_angle c))
                     (js "javajavascript:script:" ++ rest)
              = js "javajavascript:script:"
                ++ filter (fun c => negb (Utils.is_angle c)) rest)
    by (rewrite filter_app; reflexivity).
  rewrite F.
  set (rest' := filter _ rest).
  assert (J : remove_matches Utils.javascript_len
                (js "javajavascript:script:" ++ rest') 0
              = js "javascript:" ++ remove_matches Utils.javascript_len rest' 0)
    by (vm_compute; reflexivity).
  rewrite J.
  rewrite remove_on_handler_prefix by (vm_compute; reflexivity).
  set (tail := remove_matches Utils.on_handler_len _ 0).
  assert (T : trimStart (js "javascript:" ++ tail) = js "javascript:" ++ tail)
    by reflexivity.
  rewrite T. apply trimEnd_keeps_prefix. vm_compute. reflexivity.
Qed.

(* ================================================================== *)
(** ** More on booking detection *)
(* ================================================================== *)

Lemma startsWith_nil (s : jsstring) : startsWith s [] = true.
Proof. destruct s; reflexivity. Qed.

Lemma includes_comma_In (s : jsstring) :
  includes s (js ",") = true <-> In comma s.
Proof.
  change (js ",") with [comma].
  induction s as [|c r IH].
  - simpl. split; [discriminate | contradiction].
  - rewrite includes_cons. simpl startsWith. rewrite startsWith_nil, andb_true_r.
    rewrite orb_true_iff, IH, N.eqb_eq. simpl. split; intros [H|H]; auto.
Qed.

Lemma split_not_nil (s : jsstring) (sep : N) : split s sep <> [].
Proof.
  induction s as [|c r IH]; simpl; [discriminate|].
  destruct (c =? sep)%N; [discriminate|].
  destruct (split r sep); discriminate.
Qed.

Lemma split_two_parts_comma (s : jsstring) :
  2 <= length (split s comma) <-> In comma s.
Proof.
  induction s as [|c r IH]; simpl.
  - split; [lia | contradiction].
  - destruct (N.eqb_spec c comma) as [->|Hc].
    + pose proof (split_not_nil r comma) as Hn.
      destruct (split r comma); [contradiction|]. simpl.
      split; [auto | lia].
    + destruct (split r comma) as [|p ps] eqn:E.
      * exfalso. apply (split_not_nil r comma). exact E.
      * simpl in *. rewrite IH. split; [auto | intros [H|H]; [congruence | exact H]].
Qed.

Lemma nameTimePattern_needs_comma (s : jsstring) (seen : bool) :
  Utils.nameTimePattern_from s seen = true -> In comma s.
Proof.
  revert seen. induction s as [|c r IH]; intros seen; simpl; [discriminate|].
  destruct (N.eqb_spec c comma) as [->|Hc]; [auto|].
  intros H. apply andb_true_iff in H. right. apply (IH true), H.
Qed.

(** A comma, or a booking keyword, is enough to look like a booking. *)
Lemma looksLikeBooking_first_tests (text : jsstring) :
  includes text (js ",")
  || existsb (fun keyword => includes (toLowerCase text) keyword)
             Utils.bookingKeywords = true ->
  Utils.looksLikeBooking text = true.
Proof.
  unfold Utils.looksLikeBooking. destruct text as [|c r]; [discriminate|].
  simpl is_empty. cbv iota zeta. intros ->. reflexivity.
Qed.

(** X4: the name-and-time pattern never decides.  A text looks like a
    booking exactly when it contains a comma or one of the four booking
    keywords; the regular expression of [looksLikeBooking] matches only
    texts that contain a comma already. *)
Theorem looksLikeBooking_comma_or_keyword (text : jsstring) :
  Utils.looksLikeBooking text
  = includes text (js ",")
    || existsb (fun keyword => includes (toLowerCase text) keyword)
               Utils.bookingKeywords.
Proof.
  unfold Utils.looksLikeBooking. destruct text as [|c r]; [reflexivity|].
  simpl is_empty. cbv iota zeta.
  destruct (Utils.nameTimePattern_test (c :: r)) eqn:E.
  - apply nameTimePattern_needs_comma, includes_comma_In in E.
    rewrite E. reflexivity.
  - rewrite orb_false_r. reflexivity.
Qed.

Lemma validateBookingFormat_Valid_inv (text name timeSlot : jsstring) :
  Utils.validateBookingFormat text = Utils.Valid name timeSlot ->
  2 <= length (split text comma)
  /\ name = trim (nth 0 (split text comma) [])
  /\ timeSlot = trim (nth 1 (split text comma) [])
  /\ 2 < length name /\ 2 < length timeSlot.
Proof.
  unfold Utils.validateBookingFormat.
  destruct (is_empty text); [discriminate|].
  destruct (Nat.leb_spec 2 (length (split text comma))); [|discriminate].
  destruct (Nat.ltb_spec 2 (length (trim (nth 0 (split text comma) []))));
    [|discriminate].
  destruct (Nat.ltb_spec 2 (length (trim (nth 1 (split text comma) []))));
    [|discriminate].
  simpl. intros E. injection E as <- <-. auto.
Qed.

(** X5: whatever validates is detected.  A text that
    [validateBookingFormat] accepts contains a comma, so
    [looksLikeBooking] is true of it: the handler cannot miss a valid
    submission once the earlier rules have let the text pass. *)
Theorem valid_booking_looks_like_booking (text : jsstring) :
  Utils.valid (Utils.validateBookingFormat text) = true ->
  In comma text /\ Utils.looksLikeBooking text = true.
Proof.
  intros H. destruct (Utils.validateBookingFormat text) as [name slot|] eqn:E;
    [|discriminate H].
  apply validateBookingFormat_Valid_inv in E. destruct E as (L & _).
  apply split_two_parts_comma in L. split; [exact L|].
  apply looksLikeBooking_first_tests.
  apply includes_comma_In in L. rewrite L. reflexivity.
Qed.

Lemma valid_booking_looks_like_booking_witness :
  In comma (js "Ada Lovelace, Friday 3pm")
  /\ Utils.looksLikeBooking (js "Ada Lovelace, Friday 3pm") = true.
Proof.
  apply valid_booking_looks_like_booking. vm_compute. reflexivity.
Defined.

Lemma validateBookingFormat_no_comma (text : jsstring) :
  includes text (js ",") = false -> Utils.validateBookingFormat text = Utils.Invalid.
Proof.
  intros H. destruct (Utils.validateBookingFormat text) as [name slot|] eqn:E;
    [|reflexivity].
  apply validateBookingFormat_Valid_inv in E. destruct E as (L & _).
  apply split_two_parts_comma, includes_comma_In in L. congruence.
Qed.

(** X6: a booking word without a comma is answered with the format
    message.  When the sanitized text passes the emergency, owner and
    shortcut rules, contains one of the booking keywords in any letter
    case and has no comma, the handler's whole effect is the reply
    "Booking format not recognized"; nothing is stored and the model is
    not asked. *)
Theorem booking_word_without_comma
        (env : Env) (ownerRegex : RegExp) (ctx : Telegram.Ctx) (w : World)
        (keyword : jsstring) :
  let text := Utils.sanitizeText (Telegram.message_text ctx) in
  Llm.containsEmergencyKeywords text = false ->
  test ownerRegex text = false ->
  array_includes Telegram.bookingShortcuts (toLowerCase text) = false ->
  array_includes Telegram.faqShortcuts (toLowerCase text) = false ->
  array_includes Telegram.staffShortcuts (toLowerCase text) = false ->
  In keyword Utils.bookingKeywords ->
  includes (toLowerCase text) keyword = true ->
  includes text (js ",") = false ->
  Telegram.safeHandler (Telegram.onText env ownerRegex) ctx w
  = (Normal tt, add_reply w Utils.getInvalidBookingMessage false).
Proof.
  cbv zeta. intros E1 E2 E3 E4 E5 Hk Hi Hc.
  assert (L : Utils.looksLikeBooking
                (Utils.sanitizeText (Telegram.message_text ctx)) = true).
  { apply looksLikeBooking_first_tests. apply orb_true_iff. right.
    apply existsb_exists. exists keyword. split; assumption. }
  unfold Telegram.safeHandler, Telegram.onText. cbv zeta.
  rewrite E1, E2, E3, E4, E5, L, (validateBookingFormat_no_comma _ Hc).
  destruct (Utils.sanitizeText (Telegram.message_text ctx)) as [|c r].
  - discriminate L.
  - reflexivity.
Qed.

Lemma booking_word_without_comma_witness :
  Telegram.safeHandler (Telegram.onText defaultEnv ownerRegexDefault)
    (textCtx (js "I want to visit the clinic tomorrow")) (worldWith workingStore)
  = (Normal tt,
     add_reply (worldWith workingStore) Utils.getInvalidBookingMessage false).
Proof.
  apply (booking_word_without_comma defaultEnv ownerRegexDefault
           (textCtx (js "I want to visit the clinic tomorrow"))
           (worldWith workingStore) (js "visit"));
    try (vm_compute; reflexivity).
  unfold Utils.bookingKeywords. simpl. tauto.
Defined.

(* ================================================================== *)
(** ** What a text message can do to the store *)
(* ================================================================== *)

Section StoreInvariant.
Variable env : Env.
Variable ownerRegex : RegExp.

Lemma classify_booking_inv (text : jsstring) (v : Utils.BookingValidation) :
  Telegram.classify ownerRegex text = Telegram.BookingSubmission v ->
  v = Utils.validateBookingFormat text.
Proof.
  unfold Telegram.classify. cbv zeta.
  destruct (Llm.containsEmergencyKeywords text); [discriminate|].
  destruct (test ownerRegex text); [discriminate|].
  destruct (array_includes Telegram.bookingShortcuts _); [discriminate|].
  destruct (array_includes Telegram.faqShortcuts _); [discriminate|].
  destruct (array_includes Telegram.staffShortcuts _); [discriminate|].
  destruct (Utils.looksLikeBooking text).
  - intros E. injection E as <-. reflexivity.
  - destruct (Utils.hasHealthKeywords text); discriminate.
Qed.

(** The booking branch up to the reply: it either leaves the store as it
    was or appends the one row built from the parsed fields. *)
Lemma storeBooking_store (ctx : Telegram.Ctx) (text name timeSlot : jsstring)
      (w : World) :
  exists r w1,
    storeBooking ctx text name timeSlot w = (r, w1)
    /\ gemini w1 = gemini w /\ now w1 = now w /\ replies w1 = replies w
    /\ (supabase w1 = supabase w
        \/ exists c d,
             supabase w = Some c
             /\ supabase w1 = Some (with_appointment c (appointment_row d (now w)))
             /\ full_name d = name /\ preferred_datetime d = timeSlot
             /\ raw_request d = text).
Proof.
  unfold storeBooking.
  destruct (Telegram.patient ctx) as [p|];
    [|do 2 eexists; split; [reflexivity|]; auto].
  destruct (Telegram.from_id ctx) as [u|];
    [|do 2 eexists; split; [reflexivity|]; auto].
  destruct (Telegram.chat_id ctx) as [ch|];
    [|do 2 eexists; split; [reflexivity|]; auto].
  unfold Supabase.createAppointment, bind, get, record_call, property, ret,
    set_client.
  cbn. destruct (supabase w) as [c|] eqn:S;
    [|do 2 eexists; split; [reflexivity|]; cbn; auto].
  cbn. destruct (outcome c QInsertAppointment);
    do 2 eexists; (split; [reflexivity|]); cbn; repeat split; auto.
  right. exists c.
  exists {| patient_id := Telegram.id p; full_name := name;
            preferred_datetime := timeSlot; telegram_user_id := u;
            telegram_chat_id := ch; raw_request := text |}.
  split; [reflexivity|]. split; [reflexivity|]. cbn. auto.
Qed.

Lemma llmTextReply_store (text : jsstring) (w : World) :
  exists r w1,
    Llm.llmTextReply text w = (Normal r, w1)
    /\ gemini w1 = gemini w /\ now w1 = now w /\ supabase w1 = supabase w.
Proof.
  unfold Llm.llmTextReply, bind, get, try_catch, Llm.generateText, record_call,
    ret, throw.
  destruct (gemini w) as [g|] eqn:G; [|do 2 eexists; split; [reflexivity|]; auto].
  cbn. destruct (textModel g text); cbn; do 2 eexists;
    (split; [reflexivity|]); cbn; auto.
Qed.

(** X7: a text message can only append one pending appointment.  After
    the text handler has run, the clock and the model are as before and
    the store is either untouched or has exactly one more row in
    [appointments], nothing else changed: that row is [pending], carries
    the sanitized text as [raw_request], a name and a time slot of more
    than two code units, and the time of the message as [created_at]. *)
Theorem onText_appends_at_most_one_pending
        (ctx : Telegram.Ctx) (w : World) :
  let w' := snd (Telegram.safeHandler (Telegram.onText env ownerRegex) ctx w) in
  gemini w' = gemini w /\ now w' = now w
  /\ (supabase w' = supabase w
      \/ exists c a,
           supabase w = Some c
           /\ supabase w' = Some (with_appointment c a)
           /\ ap_status a = pending
           /\ ap_raw_request a = Utils.sanitizeText (Telegram.message_text ctx)
           /\ 2 < length (ap_full_name a)
           /\ 2 < length (ap_preferred_datetime a)
           /\ ap_created_at a = now w).
Proof.
  cbv zeta.
  destruct (Telegram.safeHandler (Telegram.onText env ownerRegex) ctx w)
    as [c0 w'] eqn:R.
  simpl snd. unfold Telegram.safeHandler in R. rewrite onText_resolve in R.
  cbv zeta in R.
  destruct (is_empty _); [cbn in R; injection R as <- <-; auto|].
  set (text := Utils.sanitizeText _) in *.
  destruct (Telegram.classify ownerRegex text) as [| | | |[name slot|]| | | | | |]
    eqn:C; simpl resolve in R;
    try (cbn in R; injection R as <- <-; cbn; auto; fail).
  - (* a valid booking *)
    apply classify_booking_inv in C. symmetry in C.
    apply validateBookingFormat_Valid_inv in C.
    destruct C as (_ & _ & _ & Ln & Ls).
    destruct (storeBooking_store ctx text name slot w)
      as (r & w1 & E & G & T & _ & S).
    assert (P : forall w2, gemini w2 = gemini w1 -> now w2 = now w1 ->
                           supabase w2 = supabase w1 ->
                gemini w2 = gemini w /\ now w2 = now w
                /\ (supabase w2 = supabase w
                    \/ exists c a,
                         supabase w = Some c
                         /\ supabase w2 = Some (with_appointment c a)
                         /\ ap_status a = pending
                         /\ ap_raw_request a = text
                         /\ 2 < length (ap_full_name a)
                         /\ 2 < length (ap_preferred_datetime a)
                         /\ ap_created_at a = now w)).
    { intros w2 G2 T2 S2. rewrite G2, T2, S2. split; [exact G|]. split; [exact T|].
      destruct S as [S|(c & d & Sc & S1 & Dn & Ds & Dr)]; [left; exact S|].
      right. exists c, (appointment_row d (now w)).
      split; [exact Sc|]. split; [exact S1|]. cbn.
      rewrite Dn, Ds, Dr. auto. }
    unfold try_catch, bind in R. rewrite E in R.
    destruct r as [[]|e]; cbn in R; injection R as <- <-; apply P; reflexivity.
  - (* the general reply *)
    destruct (llmTextReply_store text w) as (r & w1 & E & G & T & S).
    unfold try_catch, bind in R. rewrite E in R. cbn in R.
    injection R as <- <-. cbn. rewrite G, T, S. auto.
Qed.

End StoreInvariant.

(* ================================================================== *)
(** ** More on the model calls *)
(* ================================================================== *)

(** What [llmTextReply] makes of the model's text: cut to 400 code
    units, replaced when empty. *)
Lemma model_text_bounded (text : jsstring) :
  0 < length
        (Llm.or_else
           (if 400 <? length text
            then substring text 0 397 ++ js "..."
            else text)
           (js "Thank you for your message. A staff member will assist you shortly."))
    <= 400.
Proof.
  destruct (Nat.ltb_spec 400 (length text)) as [L|L].
  - rewrite substring_from_0.
    assert (E : length (firstn 397 text ++ js "...") = 400)
      by (rewrite length_app, length_firstn, Nat.min_l by lia; reflexivity).
    unfold Llm.or_else.
    destruct (firstn 397 text ++ js "...") eqn:F; [discriminate E|].
    simpl is_empty. cbv iota. rewrite E. lia.
  - unfold Llm.or_else. destruct text as [|c r]; [vm_compute; lia|].
    simpl is_empty. cbv iota. simpl in *. lia.
Qed.

(** X8: the general reply is short, never empty and never an error.
    Whether the model is missing, answers or fails, [llmTextReply]
    returns a text of 1 to 400 code units; it sends nothing, leaves the
    store alone and asks the model at most once, with the user's text. *)
Theorem llmTextReply_bounded (userText : jsstring) (w : World) :
  exists r w',
    Llm.llmTextReply userText w = (Normal r, w')
    /\ 0 < length r <= 400
    /\ replies w' = replies w /\ supabase w' = supabase w
    /\ (calls w' = calls w \/ calls w' = calls w ++ [AiGenerateText userText]).
Proof.
  unfold Llm.llmTextReply, bind, get, try_catch, Llm.generateText, record_call,
    ret, throw.
  destruct (gemini w) as [g|].
  - destruct (textModel g userText) as [text|].
    + do 2 eexists. split; [reflexivity|].
      split; [apply model_text_bounded|]. cbn. auto.
    + do 2 eexists. split; [reflexivity|]. split; [vm_compute; lia|]. cbn. auto.
  - do 2 eexists. split; [reflexivity|]. split; [vm_compute; lia|]. auto.
Qed.

(** X9: when the model is asked about a file.  [llmAnalyzeMedia] asks
    the model exactly once when a model is configured and the content
    type is recognized, and not at all otherwise; it never sends
    anything itself.  When that one call succeeds the result is the
    model's text between the label of the media type and the
    disclaimer. *)
Theorem llmAnalyzeMedia_calls
        (bufferBase64 contentType filename : jsstring) (w : World) :
  let w' := snd (Llm.llmAnalyzeMedia bufferBase64 contentType filename w) in
  replies w' = replies w /\ supabase w' = supabase w
  /\ calls w' =
     calls w ++ (match gemini w, Llm.mediaTypeOf contentType with
                 | Some _, Some _ => [AiGenerateMedia contentType]
                 | _, _ => []
                 end)
  /\ (forall g mediaType text,
        gemini w = Some g ->
        Llm.mediaTypeOf contentType = Some mediaType ->
        visionModel g contentType bufferBase64 = Some text ->
        fst (Llm.llmAnalyzeMedia bufferBase64 contentType filename w)
        = Normal (Llm.label mediaType ++ text ++ Llm.disclaimer)).
Proof.
  cbv zeta.
  unfold Llm.llmAnalyzeMedia, bind, get, try_catch, Llm.generateMedia,
    record_call, ret, throw.
  destruct (gemini w) as [g|].
  - destruct (Llm.mediaTypeOf contentType) as [mt|].
    + cbn. destruct (visionModel g contentType bufferBase64) as [t|] eqn:V; cbn;
        repeat split; try reflexivity.
      * intros g' mt' t' Eg Em Ev. injection Eg as <-. injection Em as <-.
        rewrite V in Ev. injection Ev as <-. reflexivity.
      * intros g' mt' t' Eg Em Ev. injection Eg as <-. congruence.
    + cbn. repeat split; try (rewrite app_nil_r; reflexivity). discriminate.
  - cbn. repeat split; try (rewrite app_nil_r; reflexivity). discriminate.
Qed.

Lemma llmAnalyzeMedia_calls_witness :
  fst (Llm.llmAnalyzeMedia (js "AAAA") (js "image/png") (js "image_file")
         (worldWithModel verboseModel))
  = Normal (Llm.label Llm.image ++ js "A chest X-ray." ++ Llm.disclaimer).
Proof.
  destruct (llmAnalyzeMedia_calls (js "AAAA") (js "image/png") (js "image_file")
              (worldWithModel verboseModel)) as (_ & _ & _ & H).
  apply (H verboseModel Llm.image (js "A chest X-ray.")); vm_compute; reflexivity.
Defined.

(* ================================================================== *)
(** ** The follow-up list *)
(* ================================================================== *)

Section FollowupFacts.

Lemma insert_In (x a : Appointment) (l : list Appointment) :
  In a (Supabase.insert_by_created_at x l) <-> a = x \/ In a l.
Proof.
  induction l as [|b r IH]; simpl.
  - split; intros [H|H]; auto.
  - destruct (ap_created_at x <=? ap_created_at b)%Z; simpl.
    + split; intros [H|H]; auto.
    + rewrite IH. split; intros H; intuition.
Qed.

Lemma order_In (a : Appointment) (l : list Appointment) :
  In a (Supabase.order_by_created_at l) <-> In a l.
Proof.
  induction l as [|b r IH]; simpl; [reflexivity|].
  unfold Supabase.order_by_created_at in *. simpl.
  rewrite insert_In, IH. split; intros [H|H]; auto.
Qed.

Lemma insert_filter_length (f : Appointment -> bool) (x : Appointment)
      (l : list Appointment) :
  length (filter f (Supabase.insert_by_created_at x l))
  = length (filter f (x :: l)).
Proof.
  induction l as [|b r IH]; [reflexivity|].
  simpl Supabase.insert_by_created_at.
  destruct (ap_created_at x <=? ap_created_at b)%Z; [reflexivity|].
  simpl in *. destruct (f b), (f x); simpl in *; lia.
Qed.

Lemma order_filter_length (f : Appointment -> bool) (l : list Appointment) :
  length (filter f (Supabase.order_by_created_at l)) = length (filter f l).
Proof.
  induction l as [|b r IH]; [reflexivity|].
  unfold Supabase.order_by_created_at in *. simpl fold_right.
  rewrite insert_filter_length. simpl. destruct (f b); simpl; lia.
Qed.

Lemma insert_length (x : Appointment) (l : list Appointment) :
  length (Supabase.insert_by_created_at x l) = S (length l).
Proof.
  induction l as [|b r IH]; [reflexivity|]. simpl.
  destruct (ap_created_at x <=? ap_created_at b)%Z; simpl; [|rewrite IH];
    reflexivity.
Qed.

Lemma order_length (l : list Appointment) :
  length (Supabase.order_by_created_at l) = length l.
Proof.
  induction l as [|b r IH]; [reflexivity|].
  unfold Supabase.order_by_created_at in *. simpl.
  rewrite insert_length, IH. reflexivity.
Qed.

Lemma insert_ascending (x : Appointment) (l : list Appointment) :
  ascending l -> ascending (Supabase.insert_by_created_at x l).
Proof.
  induction 1 as [|a|a b l Hab Hl IH]; simpl.
  - constructor.
  - destruct (Z.leb_spec (ap_created_at x) (ap_created_at a)).
    + constructor; [assumption | constructor].
    + constructor; [lia | constructor].
  - destruct (Z.leb_spec (ap_created_at x) (ap_created_at a)).
    + constructor; [assumption|]. constructor; assumption.
    + simpl in IH.
      destruct (Z.leb_spec (ap_created_at x) (ap_created_at b)).
      * constructor; [lia|]. exact IH.
      * constructor; [assumption|]. exact IH.
Qed.

Lemma order_ascending (l : list Appointment) :
  ascending (Supabase.order_by_created_at l).
Proof.
  induction l as [|a l IH]; [constructor|].
  unfold Supabase.order_by_created_at in *. simpl. apply insert_ascending, IH.
Qed.

Lemma firstn_subset (n : nat) (a : Appointment) (l : list Appointment) :
  In a (firstn n l) -> In a l.
Proof.
  revert l. induction n as [|n IH]; intros [|b l] H; simpl in *; try contradiction.
  destruct H as [H|H]; [left; exact H | right; apply IH, H].
Qed.

Lemma ascending_tail (a : Appointment) (l : list Appointment) :
  ascending (a :: l) -> ascending l.
Proof. inversion 1; subst; [constructor | assumption]. Qed.

Lemma firstn_ascending (n : nat) (l : list Appointment) :
  ascending l -> ascending (firstn n l).
Proof.
  revert l. induction n as [|n IH]; intros l H; [constructor|].
  destruct l as [|a l]; [constructor|]. simpl.
  specialize (IH l (ascending_tail _ _ H)).
  destruct l as [|b l]; [destruct n; constructor|].
  destruct n as [|n]; [constructor|].
  simpl in *. inversion H; subst. constructor; assumption.
Qed.

(** In an ascending list nothing after [x] is created before [x]. *)
Lemma ascending_after (x : Appointment) (l : list Appointment) :
  ascending (x :: l) ->
  Forall (fun b => (ap_created_at x <= ap_created_at b)%Z) l.
Proof.
  revert x. induction l as [|b l IH]; intros x H; [constructor|].
  inversion H; subst. constructor; [assumption|].
  specialize (IH b ltac:(assumption)).
  eapply Forall_impl; [|exact IH]. simpl. intros; lia.
Qed.

(** A row among the first [n] of an ascending list has fewer than [n]
    rows created strictly before it. *)
Lemma ascending_prefix_count (n : nat) (x : Appointment) (l : list Appointment) :
  ascending l -> In x (firstn n l) ->
  length (filter (fun b => (ap_created_at b <? ap_created_at x)%Z) l) < n.
Proof.
  revert n. induction l as [|a l IH]; intros n Hs Hin.
  - destruct n; simpl in Hin; contradiction.
  - destruct n as [|n]; [simpl in Hin; contradiction|].
    simpl in Hin. destruct Hin as [->|Hin].
    + pose proof (ascending_after _ _ Hs) as Ha. simpl.
      rewrite Z.ltb_irrefl.
      assert (E : filter (fun b => (ap_created_at b <? ap_created_at x)%Z) l = []).
      { clear -Ha. induction Ha as [|b l Hb _ IHl]; [reflexivity|].
        simpl. destruct (Z.ltb_spec (ap_created_at b) (ap_created_at x));
          [lia | exact IHl]. }
      rewrite E. simpl. lia.
    + specialize (IH n (ascending_tail _ _ Hs) Hin). simpl.
      destruct (ap_created_at a <? ap_created_at x)%Z; simpl; lia.
Qed.

End FollowupFacts.

(** X10: what the follow-up list holds.  [getFollowupAppointments] never
    throws and only reads; the rows it returns are at most [limit],
    every one of them is [pending] or [rescheduled] and is a row of the
    table, and they come in ascending order of [created_at]. *)
Theorem getFollowupAppointments_rows (limit : nat) (w : World) :
  exists rows,
    Supabase.getFollowupAppointments limit w
    = (Normal rows, add_call w (DbGetFollowupAppointments limit))
    /\ length rows <= limit
    /\ ascending rows
    /\ Forall (fun a => is_followup a = true) rows
    /\ (forall a, In a rows ->
        exists c, supabase w = Some c /\ In a (appointments c)).
Proof.
  unfold Supabase.getFollowupAppointments, bind, get, record_call, ret.
  cbn. destruct (supabase w) as [c|].
  - assert (R : length (Supabase.followup_rows c limit) <= limit
                /\ ascending (Supabase.followup_rows c limit)
                /\ Forall (fun a => is_followup a = true)
                          (Supabase.followup_rows c limit)
                /\ (forall a, In a (Supabase.followup_rows c limit) ->
                    exists c0, Some c = Some c0 /\ In a (appointments c0))).
    { unfold Supabase.followup_rows. split; [apply firstn_le_length|].
      split; [apply firstn_ascending, order_ascending|].
      assert (I : forall a, In a (firstn limit
                    (Supabase.order_by_created_at
                       (filter (fun a0 => status_eqb (ap_status a0) pending
                                          || status_eqb (ap_status a0) rescheduled)
                               (appointments c)))) ->
                  is_followup a = true /\ In a (appointments c)).
      { intros a H. apply firstn_subset, order_In, filter_In in H.
        destruct H as [H1 H2]. split; assumption. }
      split.
      - apply Forall_forall. intros a H. apply I, H.
      - intros a H. exists c. split; [reflexivity | apply I, H]. }
    destruct (outcome c QFollowups); eexists; (split; [reflexivity|]);
      try exact R;
      (split; [simpl; lia|]); (split; [constructor|]);
      (split; [constructor|]); intros a [].
  - eexists. split; [reflexivity|]. split; [simpl; lia|].
    split; [constructor|]. split; [constructor|]. intros a [].
Qed.

Lemma createAppointment_succeeds (d : AppointmentData) (w : World) (c : Client) :
  supabase w = Some c ->
  outcome c QInsertAppointment = Succeeds ->
  Supabase.createAppointment d w
  = (Normal (Some (appointment_row d (now w))),
     with_client (add_call w (DbCreateAppointment d))
       (with_appointment c (appointment_row d (now w)))).
Proof.
  intros Hs Hi.
  unfold Supabase.createAppointment, bind, get, record_call, ret, set_client.
  cbn. rewrite Hs. cbn. rewrite Hi. reflexivity.
Qed.

Lemma getFollowupAppointments_succeeds (limit : nat) (w : World) (c : Client) :
  supabase w = Some c ->
  outcome c QFollowups = Succeeds ->
  Supabase.getFollowupAppointments limit w
  = (Normal (Supabase.followup_rows c limit),
     add_call w (DbGetFollowupAppointments limit)).
Proof.
  intros Hs Hf.
  unfold Supabase.getFollowupAppointments, bind, get, record_call, ret.
  cbn. rewrite Hs, Hf. reflexivity.
Qed.

(** X11: a stored appointment shows up in the follow-up list.  When the
    insert succeeds and fewer than [limit] pending or rescheduled rows
    were there before, the follow-up list read right after holds the
    new row. *)
Theorem created_appointment_is_listed
        (d : AppointmentData) (w : World) (c : Client) (limit : nat) :
  supabase w = Some c ->
  outcome c QInsertAppointment = Succeeds ->
  outcome c QFollowups = Succeeds ->
  length (filter is_followup (appointments c)) < limit ->
  exists w1 rows w2,
    Supabase.createAppointment d w
    = (Normal (Some (appointment_row d (now w))), w1)
    /\ Supabase.getFollowupAppointments limit w1 = (Normal rows, w2)
    /\ In (appointment_row d (now w)) rows.
Proof.
  intros Hs Hi Hf Hl.
  do 3 eexists. split; [apply (createAppointment_succeeds d w c Hs Hi)|].
  split; [apply getFollowupAppointments_succeeds; [reflexivity | exact Hf]|].
  unfold Supabase.followup_rows.
  change (fun a => status_eqb (ap_status a) pending
                   || status_eqb (ap_status a) rescheduled) with is_followup.
  rewrite firstn_all2.
  - apply order_In, filter_In. split.
    + apply in_or_app. right. left. reflexivity.
    + reflexivity.
  - rewrite order_length. simpl appointments.
    rewrite filter_app, length_app. simpl. lia.
Qed.

Lemma created_appointment_is_listed_witness :
  exists w1 rows w2,
    Supabase.createAppointment adaData (worldAt 5000 (busyStore 3))
    = (Normal (Some (appointment_row adaData 5000)), w1)
    /\ Supabase.getFollowupAppointments 20 w1 = (Normal rows, w2)
    /\ In (appointment_row adaData 5000) rows.
Proof.
  apply (created_appointment_is_listed adaData (worldAt 5000 (busyStore 3))
           (busyStore 3) 20); try reflexivity.
  vm_compute. lia.
Defined.

(** X12: the list shows the oldest rows only.  When [limit] or more
    pending or rescheduled rows were created strictly before now, an
    appointment stored now is not in the follow-up list: new requests
    stay out of sight until older ones leave the list. *)
Theorem created_appointment_hidden_behind_older
        (d : AppointmentData) (w : World) (c : Client) (limit : nat) :
  supabase w = Some c ->
  outcome c QInsertAppointment = Succeeds ->
  outcome c QFollowups = Succeeds ->
  limit <= length (filter (fun a => is_followup a
                                    && (ap_created_at a <? now w)%Z)
                          (appointments c)) ->
  exists w1 rows w2,
    Supabase.createAppointment d w
    = (Normal (Some (appointment_row d (now w))), w1)
    /\ Supabase.getFollowupAppointments limit w1 = (Normal rows, w2)
    /\ ~ In (appointment_row d (now w)) rows.
Proof.
  intros Hs Hi Hf Hl.
  do 3 eexists. split; [apply (createAppointment_succeeds d w c Hs Hi)|].
  split; [apply getFollowupAppointments_succeeds; [reflexivity | exact Hf]|].
  unfold Supabase.followup_rows.
  change (fun a => status_eqb (ap_status a) pending
                   || status_eqb (ap_status a) rescheduled) with is_followup.
  intros Hin.
  apply ascending_prefix_count in Hin; [|apply order_ascending].
  rewrite order_filter_length in Hin. simpl appointments in Hin.
  change (ap_created_at (appointment_row d (now w))) with (now w) in Hin.
  rewrite filter_app, filter_app, length_app in Hin.
  assert (E : forall l, filter (fun b => (ap_created_at b <? now w)%Z)
                               (filter is_followup l)
                        = filter (fun a => is_followup a
                                           && (ap_created_at a <? now w)%Z) l).
  { induction l as [|a l IH]; [reflexivity|]. simpl.
    destruct (is_followup a); simpl; [|exact IH].
    destruct (ap_created_at a <? now w)%Z; rewrite IH; reflexivity. }
  rewrite E in Hin. lia.
Qed.

Lemma created_appointment_hidden_behind_older_witness :
  exists w1 rows w2,
    Supabase.createAppointment adaData (worldAt 5000 (busyStore 20))
    = (Normal (Some (appointment_row adaData 5000)), w1)
    /\ Supabase.getFollowupAppointments 20 w1 = (Normal rows, w2)
    /\ ~ In (appointment_row adaData 5000) rows.
Proof.
  apply (created_appointment_hidden_behind_older adaData
           (worldAt 5000 (busyStore 20)) (busyStore 20) 20);
    [reflexivity | reflexivity | reflexivity | vm_compute; lia].
Defined.

(* ================================================================== *)
(** ** More on the daily brief *)
(* ================================================================== *)

(** X13: the brief is fail-soft, count by count.  [getDailyBrief] never
    throws and only reads.  Without a client, or when one of its four
    requests is rejected, all four counts are 0; otherwise each count is
    the number of rows of its own request, or 0 when that request alone
    answers with an error, the other counts being unaffected. *)
Theorem getDailyBrief_fail_soft (date : option Z) (w : World) :
  exists brief,
    Supabase.getDailyBrief date w = (Normal brief, add_call w DbGetDailyBrief)
    /\ (supabase w = None -> brief = Supabase.zeroBrief)
    /\ (forall c,
          supabase w = Some c ->
          ((exists q, In q [QChats; QBookings; QCancels; QFaqs]
                      /\ outcome c q = Rejects) ->
           brief = Supabase.zeroBrief)
          /\ ((forall q, outcome c q <> Rejects) ->
              let day := match date with
                         | Some d => d
                         | None => Supabase.today w
                         end in
              let count (q : Query) (n : nat) :=
                match outcome c q with Succeeds => n | _ => 0 end in
              brief =
              {| Supabase.chats :=
                   count QChats (length (Supabase.chat_rows c day));
                 Supabase.bookings :=
                   count QBookings (length (Supabase.booking_rows c day));
                 Supabase.cancels :=
                   count QCancels (length (Supabase.cancel_rows c day));
                 Supabase.faqs :=
                   count QFaqs (length (Supabase.faq_rows c day)) |})).
Proof.
  destruct (getDailyBrief_normal date w) as [brief E].
  exists brief. split; [exact E|]. split.
  - intros Hn. rewrite (getDailyBrief_no_client date w Hn) in E.
    injection E as <-. reflexivity.
  - intros c Hc. split.
    + intros (q & Hq & Ho).
      rewrite (getDailyBrief_rejected date w c q Hc Hq Ho) in E.
      injection E as <-. reflexivity.
    + intros Hq. cbv zeta.
      pose proof (getDailyBrief_counts date w c Hc Hq) as K. cbv beta zeta in K.
      rewrite K in E. injection E as <-. reflexivity.
Qed.

Lemma getDailyBrief_fail_soft_witness :
  fst (Supabase.getDailyBrief None (worldWith questionLogFaqError))
  = Normal {| Supabase.chats := 1; Supabase.bookings := 0;
              Supabase.cancels := 0; Supabase.faqs := 0 |}.
Proof.
  destruct (getDailyBrief_fail_soft None (worldWith questionLogFaqError))
    as (brief & E & _ & H).
  destruct (H questionLogFaqError eq_refl) as [_ K].
  rewrite E. simpl fst. rewrite K.
  - reflexivity.
  - intros q. destruct q; discriminate.
Defined.

Section WindowFacts.

(** The window of a day holds exactly the times whose date is that day. *)
Lemma in_window_on_date (day t : Z) :
  Supabase.in_window day t = Schema.on_date day t.
Proof.
  unfold Supabase.in_window, Schema.on_date, Supabase.startOfDay,
    Supabase.endOfDay, Supabase.ms_per_day.
  pose proof (Z.div_mod t 86400000 ltac:(lia)) as D.
  pose proof (Z.mod_pos_bound t 86400000 ltac:(lia)) as B.
  destruct (Z.eqb_spec (t / 86400000) day) as [E|E].
  - apply andb_true_iff. split; [apply Z.leb_le | apply Z.leb_le]; lia.
  - apply andb_false_iff.
    destruct (Z.leb_spec (day * 86400000) t);
      destruct (Z.leb_spec t (day * 86400000 + (86400000 - 1))); auto.
    exfalso. apply E. nia.
Qed.

Lemma in_window_today (w : World) :
  Supabase.in_window (Supabase.today w) (now w) = true.
Proof.
  rewrite in_window_on_date. unfold Schema.on_date, Supabase.today.
  apply Z.eqb_refl.
Qed.

Lemma filter_split_length {A} (f g h : A -> bool) (l : list A) :
  (forall a, f a = g a || h a) ->
  (forall a, g a && h a = false) ->
  length (filter f l) = length (filter g l) + length (filter h l).
Proof.
  intros Hs Hd. induction l as [|a l IH]; [reflexivity|]. simpl.
  rewrite (Hs a). pose proof (Hd a) as D.
  destruct (g a), (h a); simpl in *; try discriminate D; lia.
Qed.

(** In microseconds, the date of a stamp is the day of the window it
    falls in, or the day whose last millisecond it falls in. *)
Lemma on_date_window_or_late (day t : Z) :
  Timestamptz.on_date day t
  = Timestamptz.in_window day t || Timestamptz.last_millisecond day t.
Proof.
  unfold Timestamptz.on_date, Timestamptz.in_window,
    Timestamptz.last_millisecond, Timestamptz.of_ms, Timestamptz.us_per_ms,
    Supabase.startOfDay, Supabase.endOfDay, Supabase.ms_per_day.
  pose proof (Z.div_mod t (86400000 * 1000) ltac:(lia)) as D.
  pose proof (Z.mod_pos_bound t (86400000 * 1000) ltac:(lia)) as B.
  destruct (Z.eqb_spec (t / (86400000 * 1000)) day) as [E|E];
    destruct (Z.leb_spec (day * 86400000 * 1000) t);
    destruct (Z.leb_spec t ((day * 86400000 + (86400000 - 1)) * 1000));
    destruct (Z.ltb_spec ((day * 86400000 + (86400000 - 1)) * 1000) t);
    destruct (Z.ltb_spec t ((day + 1) * 86400000 * 1000));
    simpl; try reflexivity; try lia; exfalso; apply E; nia.
Qed.

Lemma window_not_late (day t : Z) :
  Timestamptz.in_window day t && Timestamptz.last_millisecond day t = false.
Proof.
  unfold Timestamptz.in_window, Timestamptz.last_millisecond.
  destruct (Z.leb_spec (Timestamptz.of_ms (Supabase.startOfDay day)) t);
    destruct (Z.leb_spec t (Timestamptz.of_ms (Supabase.endOfDay day)));
    destruct (Z.ltb_spec (Timestamptz.of_ms (Supabase.endOfDay day)) t);
    simpl; try reflexivity; lia.
Qed.

(** A stamp of whole milliseconds is never in the last millisecond of a
    day, and its window and date are those of the millisecond clock. *)
Lemma of_ms_not_late (day t : Z) :
  Timestamptz.last_millisecond day (Timestamptz.of_ms t) = false.
Proof.
  unfold Timestamptz.last_millisecond, Timestamptz.of_ms, Timestamptz.us_per_ms,
    Supabase.startOfDay, Supabase.endOfDay, Supabase.ms_per_day.
  destruct (Z.ltb_spec ((day * 86400000 + (86400000 - 1)) * 1000) (t * 1000));
    destruct (Z.ltb_spec (t * 1000) ((day + 1) * 86400000 * 1000));
    simpl; try reflexivity; lia.
Qed.

Lemma of_ms_in_window (day t : Z) :
  Timestamptz.in_window day (Timestamptz.of_ms t) = Supabase.in_window day t.
Proof.
  unfold Timestamptz.in_window, Supabase.in_window, Timestamptz.of_ms,
    Timestamptz.us_per_ms.
  f_equal.
  - destruct (Z.leb_spec (Supabase.startOfDay day * 1000) (t * 1000));
      destruct (Z.leb_spec (Supabase.startOfDay day) t); try reflexivity; lia.
  - destruct (Z.leb_spec (t * 1000) (Supabase.endOfDay day * 1000));
      destruct (Z.leb_spec t (Supabase.endOfDay day)); try reflexivity; lia.
Qed.

Lemma of_ms_on_date (day t : Z) :
  Timestamptz.on_date day (Timestamptz.of_ms t) = Schema.on_date day t.
Proof.
  rewrite on_date_window_or_late, of_ms_not_late, orb_false_r, of_ms_in_window.
  apply in_window_on_date.
Qed.

End WindowFacts.

(** X14: the brief against the schema's function, on the stamps the
    database keeps.  For the cancellations of a day, the SQL function
    [get_daily_brief] counts what [getDailyBrief] counts and, in
    addition, the rows cancelled after [T23:59:59.999Z] of that day: the
    window of [getDailyBrief] ends there, a millisecond before the date
    does.  Such a row exists for every day, since the database stamps
    [updated_at] itself, in microseconds; the two counts agree when all
    stamps are whole milliseconds, and then they are the counts of
    [Supabase.cancel_rows] and [Schema.get_daily_brief]. *)
Theorem getDailyBrief_misses_late_cancels
        (rows : list Timestamptz.Row) (day : Z) :
  Timestamptz.get_daily_brief_cancels rows day
  = Timestamptz.cancels rows day + Timestamptz.late_cancels rows day
  /\ (exists row,
        Timestamptz.cancels (rows ++ [row]) day = Timestamptz.cancels rows day
        /\ Timestamptz.get_daily_brief_cancels (rows ++ [row]) day
           = S (Timestamptz.get_daily_brief_cancels rows day))
  /\ (forall c : Client,
        Timestamptz.late_cancels
          (map Timestamptz.of_appointment (appointments c)) day = 0
        /\ Timestamptz.cancels
             (map Timestamptz.of_appointment (appointments c)) day
           = length (Supabase.cancel_rows c day)
        /\ Timestamptz.get_daily_brief_cancels
             (map Timestamptz.of_appointment (appointments c)) day
           = Supabase.cancels (Schema.get_daily_brief c day)).
Proof.
  split; [|split].
  - unfold Timestamptz.get_daily_brief_cancels, Timestamptz.cancels,
      Timestamptz.late_cancels.
    apply filter_split_length.
    + intros r. rewrite on_date_window_or_late.
      destruct (status_eqb (Timestamptz.status r) cancelled);
        rewrite ?andb_true_r, ?andb_false_r; reflexivity.
    + intros r. pose proof (window_not_late day (Timestamptz.updated_at r)) as D.
      destruct (status_eqb (Timestamptz.status r) cancelled); [exact D|reflexivity].
  - exists {| Timestamptz.status := cancelled;
              Timestamptz.updated_at :=
                Timestamptz.of_ms (Supabase.endOfDay day) + 500 |}.
    unfold Timestamptz.get_daily_brief_cancels, Timestamptz.cancels.
    rewrite !filter_app, !length_app.
    cbn [filter Timestamptz.status Timestamptz.updated_at status_eqb andb].
    assert (W : Timestamptz.in_window day
                  (Timestamptz.of_ms (Supabase.endOfDay day) + 500) = false).
    { unfold Timestamptz.in_window. apply andb_false_iff. right.
      apply Z.leb_gt. lia. }
    assert (L : Timestamptz.last_millisecond day
                  (Timestamptz.of_ms (Supabase.endOfDay day) + 500) = true).
    { unfold Timestamptz.last_millisecond, Timestamptz.of_ms,
        Timestamptz.us_per_ms, Supabase.startOfDay, Supabase.endOfDay,
        Supabase.ms_per_day.
      apply andb_true_iff. split; apply Z.ltb_lt; lia. }
    rewrite on_date_window_or_late, W, L. simpl. split; lia.
  - intros c.
    unfold Timestamptz.late_cancels, Timestamptz.cancels,
      Timestamptz.get_daily_brief_cancels, Supabase.cancel_rows,
      Schema.get_daily_brief.
    cbn [Supabase.cancels].
    induction (appointments c) as [|a l IH]; [repeat split|].
    destruct IH as (I1 & I2 & I3).
    cbn [map filter Timestamptz.of_appointment Timestamptz.status
         Timestamptz.updated_at].
    rewrite of_ms_not_late, of_ms_in_window, of_ms_on_date, andb_false_r.
    split; [exact I1|]. split.
    + destruct (status_eqb (ap_status a) cancelled
                && Supabase.in_window day (ap_updated_at a));
        simpl; rewrite I2; reflexivity.
    + destruct (Schema.on_date day (ap_updated_at a)
                && status_eqb (ap_status a) cancelled);
        simpl; rewrite I3; reflexivity.
Qed.

(** A cancellation half a millisecond before midnight is in the SQL
    count of its day and not in the count of [getDailyBrief]. *)
Example cancelled_at_midnight :
  Timestamptz.cancels [cancelledAtMidnight] 0 = 0
  /\ Timestamptz.get_daily_brief_cancels [cancelledAtMidnight] 0 = 1
  /\ Timestamptz.get_daily_brief_cancels [cancelledAtMidnight] 1 = 0.
Proof. vm_compute. repeat split. Qed.

(** X15: a stored appointment counts in today's brief.  On a store whose
    requests all succeed, the brief read right after an appointment was
    stored reports one more booking than the brief read before, and the
    same chats, cancels and FAQs. *)
Theorem created_appointment_is_counted
        (d : AppointmentData) (w : World) (c : Client) :
  supabase w = Some c ->
  (forall q, outcome c q = Succeeds) ->
  exists before w0 w1 after w2,
    Supabase.getDailyBrief None w = (Normal before, w0)
    /\ Supabase.createAppointment d w
       = (Normal (Some (appointment_row d (now w))), w1)
    /\ Supabase.getDailyBrief None w1 = (Normal after, w2)
    /\ Supabase.bookings after = S (Supabase.bookings before)
    /\ Supabase.chats after = Supabase.chats before
    /\ Supabase.cancels after = Supabase.cancels before
    /\ Supabase.faqs after = Supabase.faqs before.
Proof.
  intros Hc Ho.
  assert (Hq : forall q, outcome c q <> Rejects)
    by (intros q; rewrite Ho; discriminate).
  pose proof (getDailyBrief_counts None w c Hc Hq) as K0. cbv beta zeta in K0.
  rewrite !Ho in K0.
  set (c1 := with_appointment c (appointment_row d (now w))).
  set (w1 := with_client (add_call w (DbCreateAppointment d)) c1).
  assert (Hq1 : forall q, outcome c1 q <> Rejects) by exact Hq.
  pose proof (getDailyBrief_counts None w1 c1 eq_refl Hq1) as K1.
  cbv beta zeta in K1. change (outcome c1) with (outcome c) in K1. rewrite !Ho in K1.
  do 5 eexists. split; [exact K0|].
  split; [apply (createAppointment_succeeds d w c Hc (Ho _))|].
  split; [exact K1|].
  change (Supabase.today w1) with (Supabase.today w).
  unfold Supabase.chat_rows, Supabase.booking_rows, Supabase.cancel_rows,
    Supabase.faq_rows. cbn -[Supabase.in_window Supabase.today].
  rewrite !filter_app, !length_app. cbn -[Supabase.in_window Supabase.today].
  rewrite in_window_today. cbn. repeat split; lia.
Qed.

Lemma created_appointment_is_counted_witness :
  exists before w0 w1 after w2,
    Supabase.getDailyBrief None (worldAt 5000 (busyStore 3)) = (Normal before, w0)
    /\ Supabase.createAppointment adaData (worldAt 5000 (busyStore 3))
       = (Normal (Some (appointment_row adaData 5000)), w1)
    /\ Supabase.getDailyBrief None w1 = (Normal after, w2)
    /\ Supabase.bookings after = S (Supabase.bookings before)
    /\ Supabase.chats after = Supabase.chats before
    /\ Supabase.cancels after = Supabase.cancels before
    /\ Supabase.faqs after = Supabase.faqs before.
Proof.
  apply (created_appointment_is_counted adaData (worldAt 5000 (busyStore 3))
           (busyStore 3) eq_refl (fun q => eq_refl)).
Defined.

(* ================================================================== *)
(** ** More on the admin commands *)
(* ================================================================== *)

Lemma getFollowupAppointments_normal (limit : nat) (w : World) :
  exists rows,
    Supabase.getFollowupAppointments limit w
    = (Normal rows, add_call w (DbGetFollowupAppointments limit)).
Proof.
  unfold Supabase.getFollowupAppointments, bind, get, record_call, ret.
  cbn. destruct (supabase w) as [c|]; [|eauto].
  destruct (outcome c QFollowups); eauto.
Qed.

(** X16: the two admin commands read storage exactly when the sender is
    the admin.  For an update with a sender, [md_brief] and
    [md_followups] each send exactly one reply and never change the
    store; each makes its one storage call when [isAuthorizedMD] accepts
    the sender and none when it does not, which is the case for every
    sender when the configured id is missing, NaN or 0. *)
Theorem admin_commands_read_iff_authorized
        (env : Env) (ctx : Telegram.Ctx) (w : World) (userId : Z) :
  Telegram.from_id ctx = Some userId ->
  let authorized := Utils.isAuthorizedMD env userId in
  let w1 := snd (Telegram.safeHandler (Telegram.md_brief env) ctx w) in
  let w2 := snd (Telegram.safeHandler (Telegram.md_followups env) ctx w) in
  (authorized = true <->
   MD_TELEGRAM_USER_ID env = AdminNum userId /\ userId <> 0%Z)
  /\ length (replies w1) = S (length (replies w))
  /\ length (replies w2) = S (length (replies w))
  /\ supabase w1 = supabase w /\ supabase w2 = supabase w
  /\ calls w1 = calls w ++ (if authorized then [DbGetDailyBrief] else [])
  /\ calls w2 = calls w ++ (if authorized
                            then [DbGetFollowupAppointments 20] else []).
Proof.
  intros Hf. cbv zeta. split; [apply isAuthorizedMD_true_iff|].
  destruct (Utils.isAuthorizedMD env userId) eqn:A.
  - destruct (getDailyBrief_normal None w) as [brief E1].
    destruct (getFollowupAppointments_normal 20 w) as [rows E2].
    unfold Telegram.safeHandler, Telegram.md_brief, Telegram.md_followups,
      try_catch, bind, property, get, ret.
    rewrite Hf, A. change (negb true) with false. cbv beta iota.
    rewrite E1, E2. cbv beta iota.
    destruct (length rows =? 0); unfold reply; cbn [snd fst replies supabase
      calls add_reply add_call]; repeat split; try reflexivity;
      rewrite length_app; simpl; lia.
  - rewrite (md_brief_rejects env ctx w userId Hf A),
      (md_followups_rejects env ctx w userId Hf A).
    cbn [snd fst replies supabase calls add_reply add_call].
    rewrite length_app, app_nil_r. simpl. repeat split; lia.
Qed.

Lemma admin_commands_read_iff_authorized_witness :
  calls (snd (Telegram.safeHandler (Telegram.md_followups adminEnv) adminCtx
                (worldWith clinicStore)))
  = [DbGetFollowupAppointments 20]
  /\ calls (snd (Telegram.safeHandler (Telegram.md_followups adminEnv)
                   strangerCtx (worldWith clinicStore))) = [].
Proof.
  destruct (admin_commands_read_iff_authorized adminEnv adminCtx
              (worldWith clinicStore) 123456789 eq_refl)
    as (_ & _ & _ & _ & _ & _ & C1).
  destruct (admin_commands_read_iff_authorized adminEnv strangerCtx
              (worldWith clinicStore) 5 eq_refl)
    as (_ & _ & _ & _ & _ & _ & C2).
  split; [rewrite C1 | rewrite C2]; reflexivity.
Defined.

(* ================================================================== *)
(** ** Patients and consent *)
(* ================================================================== *)

Section PatientFacts.

Import Patients.

Lemma str_eqb_refl (a : jsstring) : str_eqb a a = true.
Proof.
  induction a as [|c a IH]; [reflexivity|]. simpl.
  rewrite N.eqb_refl. exact IH.
Qed.

(** The row an upsert writes always has [consent_opt_in] set. *)
Lemma upsert_rows_written (rows : list PatientRow) (fresh telegramId : Z)
      (userData : UserData) (t : Z) :
  exists rowId,
    snd (upsert_rows rows fresh telegramId userData t)
    = patientData rowId telegramId userData t.
Proof.
  induction rows as [|r rest IH]; simpl.
  - exists fresh. reflexivity.
  - destruct (str_eqb (p_external_id r) (external_id_of telegramId)).
    + exists (p_id r). reflexivity.
    + destruct (upsert_rows rest fresh telegramId userData t) as [rest' x].
      exact IH.
Qed.

Lemma new_user_rows_of (rows : list PatientRow) (telegramId : Z) :
  new_user rows telegramId = true -> rows_of rows telegramId = [].
Proof.
  induction rows as [|r rest IH]; [reflexivity|]. simpl. intros H.
  apply andb_true_iff in H. destruct H as [H1 H2].
  apply andb_true_iff in H1. destruct H1 as [H1 _].
  apply negb_true_iff in H1. rewrite H1. apply IH, H2.
Qed.

Lemma new_user_no_violation (rows : list PatientRow) (telegramId : Z) :
  new_user rows telegramId = true -> violates_unique rows telegramId = false.
Proof.
  induction rows as [|r rest IH]; [reflexivity|]. simpl. intros H.
  apply andb_true_iff in H. destruct H as [H1 H2].
  apply andb_true_iff in H1. destruct H1 as [H1 _].
  apply negb_true_iff in H1. rewrite H1. simpl. apply IH, H2.
Qed.

(** The table of a user with one row [r], written by an upsert, after
    the rows [pre] of other users. *)
Lemma rows_of_one (pre : list PatientRow) (r : PatientRow) (telegramId : Z) :
  new_user pre telegramId = true ->
  p_telegram_user_id r = telegramId ->
  rows_of (pre ++ [r]) telegramId = [r].
Proof.
  intros Hn Hr. unfold rows_of. rewrite filter_app.
  change (filter _ pre) with (rows_of pre telegramId).
  rewrite (new_user_rows_of _ _ Hn). simpl.
  rewrite Hr, Z.eqb_refl. reflexivity.
Qed.

Lemma upsert_rows_one (pre : list PatientRow) (r : PatientRow)
      (fresh telegramId : Z) (userData : UserData) (t : Z) :
  new_user pre telegramId = true ->
  p_external_id r = external_id_of telegramId ->
  upsert_rows (pre ++ [r]) fresh telegramId userData t
  = (pre ++ [patientData (p_id r) telegramId userData t],
     patientData (p_id r) telegramId userData t).
Proof.
  intros Hn Hr. induction pre as [|x pre IH]; simpl.
  - rewrite Hr, str_eqb_refl. reflexivity.
  - simpl in Hn. apply andb_true_iff in Hn. destruct Hn as [H1 H2].
    apply andb_true_iff in H1. destruct H1 as [_ H1].
    apply negb_true_iff in H1. rewrite H1, (IH H2). reflexivity.
Qed.

Lemma upsert_rows_new (rows : list PatientRow) (fresh telegramId : Z)
      (userData : UserData) (t : Z) :
  new_user rows telegramId = true ->
  upsert_rows rows fresh telegramId userData t
  = (rows ++ [patientData fresh telegramId userData t],
     patientData fresh telegramId userData t).
Proof.
  intros Hn. induction rows as [|x rows IH]; simpl; [reflexivity|].
  simpl in Hn. apply andb_true_iff in Hn. destruct Hn as [H1 H2].
  apply andb_true_iff in H1. destruct H1 as [_ H1].
  apply negb_true_iff in H1. rewrite H1, (IH H2). reflexivity.
Qed.

Lemma one_row_no_violation (pre : list PatientRow) (r : PatientRow)
      (telegramId : Z) :
  new_user pre telegramId = true ->
  p_external_id r = external_id_of telegramId ->
  violates_unique (pre ++ [r]) telegramId = false.
Proof.
  intros Hn Hr. unfold violates_unique. rewrite existsb_app.
  change (existsb _ pre) with (violates_unique pre telegramId).
  rewrite (new_user_no_violation _ _ Hn). simpl.
  rewrite Hr, str_eqb_refl. simpl. rewrite andb_false_r. reflexivity.
Qed.

Lemma update_rows_one (pre : list PatientRow) (r : PatientRow)
      (telegramId : Z) (consent : bool) (t : Z) :
  new_user pre telegramId = true ->
  p_telegram_user_id r = telegramId ->
  update_rows (pre ++ [r]) telegramId consent t
  = pre ++ [with_consent r consent t].
Proof.
  intros Hn Hr. unfold update_rows. rewrite map_app. simpl.
  rewrite Hr, Z.eqb_refl. f_equal.
  induction pre as [|x pre IH]; [reflexivity|]. simpl in *.
  apply andb_true_iff in Hn. destruct Hn as [H1 H2].
  apply andb_true_iff in H1. destruct H1 as [H1 _].
  apply negb_true_iff in H1. rewrite H1, (IH H2). reflexivity.
Qed.

Lemma upsert_new_step (b : Backend) (telegramId : Z) (userData : UserData) :
  accepting b -> new_user (patients b) telegramId = true ->
  upsertPatientByTelegramId telegramId userData b
  = (Normal (Some (patientData (next_id b) telegramId userData (now (world b)))),
     with_patients (add_db_call b (CallUpsertPatient telegramId))
       (patients b
        ++ [patientData (next_id b) telegramId userData (now (world b))])
       (next_id b + 1)).
Proof.
  intros [Hc Ha] Hn.
  unfold upsertPatientByTelegramId, bindX, getX, record_db_call, retX,
    set_patients.
  cbn -[violates_unique upsert_rows rows_of update_rows].
  destruct (supabase (world b)); [|contradiction].
  rewrite Ha, (new_user_no_violation _ _ Hn), (upsert_rows_new _ _ _ _ _ Hn).
  reflexivity.
Qed.

Lemma upsert_again_step (b : Backend) (pre : list PatientRow) (r : PatientRow)
      (telegramId : Z) (userData : UserData) :
  accepting b -> patients b = pre ++ [r] ->
  new_user pre telegramId = true ->
  p_external_id r = external_id_of telegramId ->
  upsertPatientByTelegramId telegramId userData b
  = (Normal (Some (patientData (p_id r) telegramId userData (now (world b)))),
     with_patients (add_db_call b (CallUpsertPatient telegramId))
       (pre ++ [patientData (p_id r) telegramId userData (now (world b))])
       (next_id b + 1)).
Proof.
  intros [Hc Ha] Hp Hn Hr.
  unfold upsertPatientByTelegramId, bindX, getX, record_db_call, retX,
    set_patients.
  cbn -[violates_unique upsert_rows rows_of update_rows].
  destruct (supabase (world b)); [|contradiction].
  rewrite Ha, Hp, (one_row_no_violation _ _ _ Hn Hr),
    (upsert_rows_one _ _ _ _ _ _ Hn Hr).
  reflexivity.
Qed.

Lemma update_consent_step (b : Backend) (pre : list PatientRow) (r : PatientRow)
      (telegramId : Z) (consent : bool) :
  accepting b -> patients b = pre ++ [r] ->
  new_user pre telegramId = true ->
  p_telegram_user_id r = telegramId ->
  updatePatientConsent telegramId consent b
  = (Normal (Some (with_consent r consent (now (world b)))),
     with_patients (add_db_call b (CallUpdateConsent telegramId consent))
       (pre ++ [with_consent r consent (now (world b))])
       (next_id b)).
Proof.
  intros [Hc Ha] Hp Hn Hr.
  unfold updatePatientConsent, bindX, getX, record_db_call, retX, set_patients.
  cbn -[violates_unique upsert_rows rows_of update_rows].
  destruct (supabase (world b)); [|contradiction].
  rewrite Ha, Hp, (rows_of_one _ _ _ Hn Hr), (update_rows_one _ _ _ _ _ Hn Hr).
  reflexivity.
Qed.

Lemma get_patient_step (b : Backend) (pre : list PatientRow) (r : PatientRow)
      (telegramId : Z) :
  accepting b -> patients b = pre ++ [r] ->
  new_user pre telegramId = true ->
  p_telegram_user_id r = telegramId ->
  getPatientByTelegramId telegramId b
  = (Normal (Some r), add_db_call b (CallGetPatient telegramId)).
Proof.
  intros [Hc Ha] Hp Hn Hr.
  unfold getPatientByTelegramId, bindX, getX, record_db_call, retX.
  cbn -[violates_unique upsert_rows rows_of update_rows].
  destruct (supabase (world b)); [|contradiction].
  rewrite Ha, Hp, (rows_of_one _ _ _ Hn Hr). reflexivity.
Qed.

End PatientFacts.

(** X17: an opt-out is stored and read back.  On a backend that accepts
    every request, for a user new to the table: after the upsert of the
    first message and [updatePatientConsent(id, false)],
    [getPatientByTelegramId(id)] returns the user's row with
    [consent_opt_in] false and the profile the upsert wrote. *)
Theorem optout_is_stored
        (b : Patients.Backend) (telegramId : Z) (userData : Patients.UserData) :
  accepting b ->
  new_user (Patients.patients b) telegramId = true ->
  exists row b',
    Patients.bindX (Patients.upsertPatientByTelegramId telegramId userData)
      (fun _ =>
         Patients.bindX (Patients.updatePatientConsent telegramId false)
           (fun _ => Patients.getPatientByTelegramId telegramId)) b
    = (Normal (Some row), b')
    /\ Patients.p_consent_opt_in row = false
    /\ Patients.p_telegram_user_id row = telegramId
    /\ Patients.p_id row = Patients.next_id b
    /\ Patients.p_first_name row
       = Patients.or_empty (Patients.first_name userData).
Proof.
  intros Hb Hn. unfold Patients.bindX at 1.
  rewrite (upsert_new_step b telegramId userData Hb Hn).
  unfold Patients.bindX.
  erewrite update_consent_step;
    [| exact Hb | reflexivity | exact Hn | reflexivity].
  erewrite get_patient_step;
    [| exact Hb | reflexivity | exact Hn | reflexivity].
  do 2 eexists. split; [reflexivity|]. cbn. auto.
Qed.

Lemma optout_is_stored_witness :
  exists row b',
    Patients.bindX (Patients.upsertPatientByTelegramId 42 adaProfile)
      (fun _ =>
         Patients.bindX (Patients.updatePatientConsent 42 false)
           (fun _ => Patients.getPatientByTelegramId 42)) freshBackend
    = (Normal (Some row), b')
    /\ Patients.p_consent_opt_in row = false
    /\ Patients.p_telegram_user_id row = 42%Z
    /\ Patients.p_id row = 1%Z
    /\ Patients.p_first_name row = js "Ada".
Proof.
  apply (optout_is_stored freshBackend 42 adaProfile).
  - split; [discriminate | reflexivity].
  - reflexivity.
Defined.

(** X18: the next upsert undoes the opt-out.  In the same setting, one
    more [upsertPatientByTelegramId] for that user, which the first
    middleware runs on every update, writes [consent_opt_in: true] over
    the stored opt-out: the row read back afterwards is the same row
    (same id) with consent true again. *)
Theorem upsert_resets_consent
        (b : Patients.Backend) (telegramId : Z)
        (first again : Patients.UserData) :
  accepting b ->
  new_user (Patients.patients b) telegramId = true ->
  exists row b',
    Patients.bindX (Patients.upsertPatientByTelegramId telegramId first)
      (fun _ =>
         Patients.bindX (Patients.updatePatientConsent telegramId false)
           (fun _ =>
              Patients.bindX
                (Patients.upsertPatientByTelegramId telegramId again)
                (fun _ => Patients.getPatientByTelegramId telegramId))) b
    = (Normal (Some row), b')
    /\ Patients.p_consent_opt_in row = true
    /\ Patients.p_id row = Patients.next_id b
    /\ Patients.p_telegram_user_id row = telegramId.
Proof.
  intros Hb Hn. unfold Patients.bindX at 1.
  rewrite (upsert_new_step b telegramId first Hb Hn).
  unfold Patients.bindX at 1.
  erewrite update_consent_step;
    [| exact Hb | reflexivity | exact Hn | reflexivity].
  unfold Patients.bindX.
  erewrite upsert_again_step;
    [| exact Hb | reflexivity | exact Hn | reflexivity].
  erewrite get_patient_step;
    [| exact Hb | reflexivity | exact Hn | reflexivity].
  do 2 eexists. split; [reflexivity|]. cbn. auto.
Qed.

Lemma upsert_resets_consent_witness :
  exists row b',
    Patients.bindX (Patients.upsertPatientByTelegramId 42 adaProfile)
      (fun _ =>
         Patients.bindX (Patients.updatePatientConsent 42 false)
           (fun _ =>
              Patients.bindX (Patients.upsertPatientByTelegramId 42 adaProfile)
                (fun _ => Patients.getPatientByTelegramId 42))) freshBackend
    = (Normal (Some row), b')
    /\ Patients.p_consent_opt_in row = true
    /\ Patients.p_id row = 1%Z
    /\ Patients.p_telegram_user_id row = 42%Z.
Proof.
  apply (upsert_resets_consent freshBackend 42 adaProfile adaProfile).
  - split; [discriminate | reflexivity].
  - reflexivity.
Defined.

(* ================================================================== *)
(** ** The middlewares *)
(* ================================================================== *)

Section MiddlewareFacts.

Import Patients.

(** An upsert never throws, touches neither the world of the handlers
    nor the call log but for its own entry, and a row it returns has
    consent set. *)
Lemma upsert_normal (telegramId : Z) (userData : UserData) (b : Backend) :
  exists r b',
    upsertPatientByTelegramId telegramId userData b = (Normal r, b')
    /\ world b' = world b
    /\ answer b' = answer b
    /\ db_calls b' = db_calls b ++ [CallUpsertPatient telegramId]
    /\ match r with
       | Some row => p_consent_opt_in row = true
                     /\ p_telegram_user_id row = telegramId
       | None => patients b' = patients b
       end.
Proof.
  unfold upsertPatientByTelegramId, bindX, getX, record_db_call, retX,
    set_patients.
  cbn -[violates_unique upsert_rows].
  destruct (supabase (world b)); [|do 2 eexists; split; [reflexivity|]; cbn; auto].
  destruct (answer b UpsertPatient);
    try (do 2 eexists; split; [reflexivity|]; cbn; auto; fail).
  destruct (violates_unique (patients b) telegramId);
    [do 2 eexists; split; [reflexivity|]; cbn; auto|].
  destruct (upsert_rows_written (patients b) (next_id b) telegramId userData
              (now (world b))) as [rowId W].
  destruct (upsert_rows (patients b) (next_id b) telegramId userData
              (now (world b))) as [rows written].
  simpl in W. subst written.
  do 2 eexists. split; [reflexivity|]. cbn. auto.
Qed.

End MiddlewareFacts.

Section SendFacts.

Import Patients.

(** A send ends in one of two ways: the message joins the replies, or
    the call throws and nothing changes. *)
Lemma send_result (chat : option Z) (accepts : Sent -> bool)
      (text : jsstring) (md : bool) (w : World) :
  send chat accepts text md w =
  match delivered chat accepts {| sent_text := text; markdown := md |} with
  | [] => (Throw match chat with
                 | None => TypeError
                 | Some _ => ServiceError
                 end, w)
  | _ :: _ => (Normal tt, add_reply w text md)
  end.
Proof.
  unfold send, delivered. destruct chat; [|reflexivity].
  destruct (accepts _); reflexivity.
Qed.

(** The error reply of [safeHandler] never throws: a failed send is
    caught. *)
Lemma error_reply_guarded (ctx : Bot.Context) (b : Backend) :
  exists b',
    try_catchX (Bot.reply ctx Utils.getErrorMessage false) (fun _ => retX tt) b
    = (Normal tt, b')
    /\ replies (world b')
       = replies (world b)
         ++ delivered (Bot.chat ctx) (Bot.accepts ctx)
              {| sent_text := Utils.getErrorMessage; markdown := false |}
    /\ supabase (world b') = supabase (world b)
    /\ calls (world b') = calls (world b)
    /\ patients b' = patients b
    /\ db_calls b' = db_calls b.
Proof.
  unfold try_catchX, Bot.reply, lift. rewrite send_result. unfold delivered.
  destruct (Bot.chat ctx);
    [|eexists; split; [reflexivity|]; cbn; rewrite app_nil_r; auto 6].
  destruct (Bot.accepts ctx _);
    eexists; (split; [reflexivity|]); cbn; rewrite ?app_nil_r; auto 6.
Qed.

Lemma updatePatientConsent_normal (telegramId : Z) (consent : bool) (b : Backend) :
  exists r b',
    updatePatientConsent telegramId consent b = (Normal r, b')
    /\ world b' = world b
    /\ db_calls b' = db_calls b ++ [CallUpdateConsent telegramId consent]
    /\ (patients b' = patients b
        \/ (exists row, rows_of (patients b) telegramId = [row])
           /\ supabase (world b) <> None
           /\ patients b'
              = update_rows (patients b) telegramId consent (now (world b))).
Proof.
  unfold updatePatientConsent, bindX, getX, record_db_call, retX, set_patients.
  cbn -[rows_of update_rows].
  destruct (supabase (world b)) as [c|] eqn:S;
    [|do 2 eexists; split; [reflexivity|]; cbn; auto].
  destruct (answer b UpdateConsent);
    try (do 2 eexists; split; [reflexivity|]; cbn; auto; fail).
  destruct (rows_of (patients b) telegramId) as [|row [|row2 more]] eqn:R;
    try (do 2 eexists; split; [reflexivity|]; cbn; auto; fail).
  do 2 eexists. split; [reflexivity|]. cbn -[update_rows].
  split; [reflexivity|]. split; [reflexivity|]. right.
  split; [exists row; reflexivity|]. split; [discriminate | reflexivity].
Qed.

End SendFacts.

(** X20: the chain stops at the first middleware.  [safeHandler] calls
    its handler with the context alone, so [next] is undefined inside
    the middleware and Telegraf's continuation is never invoked.
    Whatever is registered after it, an update ends normally and the
    one message the bot tries to send is the generic error message: it
    is the one reply when the update has a chat and the Bot API takes
    it, and there is no reply otherwise.  The only storage call is the
    upsert for the sender, if there is one; no later middleware or
    handler runs: nothing is logged, no appointment is stored and the
    model is not asked. *)
Theorem middleware_chain_stops
        (rest : list Bot.Middleware) (ctx : Bot.Context) (b : Patients.Backend) :
  exists b',
    Bot.compose (Bot.safeHandler Bot.identify :: rest) ctx b = (Normal tt, b')
    /\ Bot.compose (Bot.safeHandler Bot.identify :: rest) ctx b
       = Bot.compose [Bot.safeHandler Bot.identify] ctx b
    /\ replies (Patients.world b')
       = replies (Patients.world b)
         ++ match Bot.chat ctx with
            | Some _ =>
                if Bot.accepts ctx {| sent_text := Utils.getErrorMessage;
                                      markdown := false |}
                then [{| sent_text := Utils.getErrorMessage; markdown := false |}]
                else []
            | None => []
            end
    /\ supabase (Patients.world b') = supabase (Patients.world b)
    /\ calls (Patients.world b') = calls (Patients.world b)
    /\ Patients.db_calls b'
       = Patients.db_calls b
         ++ match Bot.from ctx with
            | Some user => [Patients.CallUpsertPatient (Bot.user_id user)]
            | None => []
            end.
Proof.
  simpl Bot.compose. unfold Bot.safeHandler, Bot.identify.
  unfold Patients.try_catchX at 1.
  destruct (Bot.from ctx) as [user|].
  - destruct (upsert_normal (Bot.user_id user)
                {| Patients.first_name := Bot.user_first_name user;
                   Patients.last_name := Bot.user_last_name user;
                   Patients.username := Bot.user_username user;
                   Patients.phone_number := None |} b)
      as (r & b1 & E & W & _ & C & _).
    unfold Patients.bindX. rewrite E. simpl Bot.call_next.
    unfold Patients.throwX at 1.
    destruct (error_reply_guarded ctx b1) as (b' & G & R & S & K & _ & D).
    rewrite G. exists b'. split; [reflexivity|]. split; [reflexivity|].
    rewrite R, S, K, D, W, C. auto.
  - simpl Bot.call_next. unfold Patients.throwX at 1.
    destruct (error_reply_guarded ctx b) as (b' & G & R & S & K & _ & D).
    rewrite G. exists b'. split; [reflexivity|]. split; [reflexivity|].
    rewrite R, S, K, D, app_nil_r. auto.
Qed.

(** The two middlewares as registered, on a text message: the sender is
    upserted, the error message is the one reply, and nothing is
    logged; over a connection that is down there is no reply at all. *)
Example registered_middlewares_on_a_message :
  forall b',
    snd (Bot.compose [Bot.safeHandler Bot.identify; Bot.safeHandler Bot.logging]
           (incoming (js "hello")) freshBackend) = b' ->
    map sent_text (replies (Patients.world b')) = [Utils.getErrorMessage]
    /\ Patients.db_calls b' = [Patients.CallUpsertPatient 42]
    /\ replies
         (Patients.world
            (snd (Bot.compose
                    [Bot.safeHandler Bot.identify; Bot.safeHandler Bot.logging]
                    (undelivered (js "hello")) freshBackend))) = [].
Proof. intros b' <-. vm_compute. repeat split. Qed.

(** X22: the opt-out is always answered.  For an update with a sender,
    the [optout] command behind [safeHandler] ends normally after one
    call to [updatePatientConsent(id, false)], whatever that call did:
    the table is unchanged when there is no client, when the request
    fails or when no row (or more than one) has that Telegram id, and
    otherwise only [consent_opt_in] and [updated_at] of that user's row
    change.  The one reply is the opt-out confirmation when the update
    has a chat and the Bot API takes that message; when the confirmation
    cannot be sent, the generic error message is tried instead, and that
    failing too nothing is sent. *)
Theorem optout_always_confirms
        (ctx : Bot.Context) (next : Bot.Context -> Patients.MX unit)
        (b : Patients.Backend) (user : Bot.User) :
  Bot.from ctx = Some user ->
  let attempt (text : jsstring) :=
    delivered (Bot.chat ctx) (Bot.accepts ctx)
      {| sent_text := text; markdown := false |} in
  exists b',
    Bot.safeHandler (fun c _ => Bot.optout c) ctx next b = (Normal tt, b')
    /\ replies (Patients.world b')
       = replies (Patients.world b)
         ++ match attempt Notices.getOptOutMessage with
            | [] => attempt Utils.getErrorMessage
            | confirmation => confirmation
            end
    /\ Patients.db_calls b'
       = Patients.db_calls b
         ++ [Patients.CallUpdateConsent (Bot.user_id user) false]
    /\ (Patients.patients b' = Patients.patients b
        \/ (exists row,
              Patients.rows_of (Patients.patients b) (Bot.user_id user) = [row])
           /\ supabase (Patients.world b) <> None
           /\ Patients.patients b'
              = Patients.update_rows (Patients.patients b) (Bot.user_id user)
                  false (now (Patients.world b))).
Proof.
  intros Hf. cbv zeta.
  unfold Bot.safeHandler, Bot.optout, Bot.from_id.
  unfold Patients.try_catchX at 1. unfold Patients.bindX.
  rewrite Hf. unfold Patients.retX at 1.
  destruct (updatePatientConsent_normal (Bot.user_id user) false b)
    as (r & b1 & E & W & C & P).
  rewrite E. unfold Bot.reply at 1. unfold Patients.lift at 1.
  rewrite send_result.
  destruct (delivered (Bot.chat ctx) (Bot.accepts ctx)
              {| sent_text := Notices.getOptOutMessage; markdown := false |})
    as [|m l] eqn:D.
  - destruct (error_reply_guarded ctx (Patients.with_world b1 (Patients.world b1)))
      as (b' & G & R & _ & _ & Pt & Dc).
    rewrite G. exists b'. split; [reflexivity|].
    rewrite R, Pt, Dc. cbn -[Patients.rows_of Patients.update_rows].
    rewrite W. auto.
  - assert (Hm : m :: l = [{| sent_text := Notices.getOptOutMessage;
                              markdown := false |}]).
    { rewrite <- D. unfold delivered. unfold delivered in D.
      destruct (Bot.chat ctx); [|discriminate D].
      destruct (Bot.accepts ctx _); [reflexivity | discriminate D]. }
    rewrite Hm. eexists. split; [reflexivity|].
    cbn -[Patients.rows_of Patients.update_rows]. rewrite W. auto.
Qed.

Lemma optout_always_confirms_witness :
  exists b',
    Bot.safeHandler (fun c _ => Bot.optout c) (incoming (js "/optout"))
      (fun _ => Patients.retX tt) freshBackend = (Normal tt, b')
    /\ map sent_text (replies (Patients.world b')) = [Notices.getOptOutMessage]
    /\ Patients.patients b' = [].
Proof.
  destruct (optout_always_confirms (incoming (js "/optout"))
              (fun _ => Patients.retX tt) freshBackend adaUser eq_refl)
    as (b' & E & R & _ & P).
  exists b'. split; [exact E|]. split; [rewrite R; reflexivity|].
  destruct P as [P|[[row Hr] _]]; [exact P | discriminate Hr].
Defined.

(** X23: a logged message counts in today's brief.  When the insert of
    the chat log and the four requests of the brief succeed, the brief
    read right after [logChat] reports one more chat than the brief read
    before, one more FAQ exactly when the logged text contains "faq" in
    any letter case, and the same bookings and cancels. *)
Theorem logged_message_is_counted
        (text : jsstring) (b : Patients.Backend) (c : Client) :
  supabase (Patients.world b) = Some c ->
  Patients.answer b Patients.InsertChatLog = Succeeds ->
  (forall q, outcome c q = Succeeds) ->
  exists before w0 entry b1 after w2,
    Supabase.getDailyBrief None (Patients.world b) = (Normal before, w0)
    /\ Patients.logChat (Some text) b = (Normal (Some entry), b1)
    /\ Supabase.getDailyBrief None (Patients.world b1) = (Normal after, w2)
    /\ Supabase.chats after = S (Supabase.chats before)
    /\ Supabase.faqs after
       = Supabase.faqs before
         + (if Supabase.ilike_contains text (js "faq") then 1 else 0)
    /\ Supabase.bookings after = Supabase.bookings before
    /\ Supabase.cancels after = Supabase.cancels before.
Proof.
  intros Hc Ha Ho.
  assert (Hq : forall q, outcome c q <> Rejects)
    by (intros q; rewrite Ho; discriminate).
  pose proof (getDailyBrief_counts None (Patients.world b) c Hc Hq) as K0.
  cbv beta zeta in K0. rewrite !Ho in K0.
  set (entry := {| cl_timestamp := now (Patients.world b);
                   cl_message_text := text |}).
  set (c1 := {| chat_logs := chat_logs c ++ [entry];
                appointments := appointments c; outcome := outcome c |}).
  set (b1 := Patients.with_world
               (Patients.add_db_call b (Patients.CallLogChat text))
               (with_client (Patients.world b) c1)).
  assert (E : Patients.logChat (Some text) b = (Normal (Some entry), b1)).
  { unfold Patients.logChat, Patients.bindX, Patients.getX,
      Patients.record_db_call, Patients.retX, Patients.lift, set_client.
    cbn. rewrite Hc, Ha. reflexivity. }
  assert (Hq1 : forall q, outcome c1 q <> Rejects) by exact Hq.
  pose proof (getDailyBrief_counts None (Patients.world b1) c1 eq_refl Hq1) as K1.
  cbv beta zeta in K1. change (outcome c1) with (outcome c) in K1.
  rewrite !Ho in K1.
  do 6 eexists. split; [exact K0|]. split; [exact E|]. split; [exact K1|].
  change (Supabase.today (Patients.world b1))
    with (Supabase.today (Patients.world b)).
  unfold Supabase.chat_rows, Supabase.booking_rows, Supabase.cancel_rows,
    Supabase.faq_rows.
  cbn -[Supabase.in_window Supabase.today Supabase.ilike_contains].
  rewrite !filter_app, !length_app.
  cbn -[Supabase.in_window Supabase.today Supabase.ilike_contains].
  rewrite in_window_today, andb_true_r.
  destruct (Supabase.ilike_contains text _); simpl length; repeat split; lia.
Qed.

Lemma logged_message_is_counted_witness :
  exists before w0 entry b1 after w2,
    Supabase.getDailyBrief None (Patients.world freshBackend)
    = (Normal before, w0)
    /\ Patients.logChat (Some (js "Where is the FAQ?")) freshBackend
       = (Normal (Some entry), b1)
    /\ Supabase.getDailyBrief None (Patients.world b1) = (Normal after, w2)
    /\ Supabase.chats after = 1 /\ Supabase.faqs after = 1.
Proof.
  destruct (logged_message_is_counted (js "Where is the FAQ?") freshBackend
              workingStore eq_refl eq_refl (fun q => eq_refl))
    as (before & w0 & entry & b1 & after & w2 & E0 & E1 & E2 & C & F & _).
  exists before, w0, entry, b1, after, w2.
  split; [exact E0|]. split; [exact E1|]. split; [exact E2|].
  assert (B : before = Supabase.zeroBrief).
  { vm_compute in E0. injection E0 as <- _. reflexivity. }
  subst before. split; [rewrite C | rewrite F]; reflexivity.
Defined.

(* ================================================================== *)
(** ** Media messages *)
(* ================================================================== *)





(** X25: a document without a mime type never reaches the model.  Its
    content type defaults to [application/octet-stream], which
    [llmAnalyzeMedia] does not recognize: when the download works the
    message to send is the manual-review message with the file name (or
    "document"), or the unavailable message when no model is configured,
    and the model is not called.  That message is the one reply when
    the update has a chat and the Bot API takes it; otherwise the
    apology is, if it can be sent, and the world is unchanged when both
    sends fail. *)
Theorem untyped_document_is_not_analysed
        (ctx : Media.Context) (f : Media.Attachment) (buffer : jsstring)
        (w : World) :
  Media.m_document (Media.message ctx) = Some f ->
  Media.mime_type f = None ->
  Media.download ctx (Media.file_id f) = Some buffer ->
  let notice :=
    match gemini w with
    | Some _ =>
        Llm.unknownTypeMessage
          (Media.or_default (Media.file_name f) (js "document"))
    | None => Llm.unavailableMessage
    end in
  let taken (text : jsstring) :=
    Media.accepts ctx {| sent_text := text; markdown := false |} in
  Media.handleMedia ctx Media.document w
  = match Media.chat ctx with
    | None => (Throw TypeError, w)
    | Some _ =>
        if taken notice then (Normal tt, add_reply w notice false)
        else if taken (Media.apology Media.document)
             then (Normal tt, add_reply w (Media.apology Media.document) false)
             else (Throw ServiceError, w)
    end.
Proof.
  intros Hd Hm Hf. cbv zeta.
  assert (P : Media.processor Media.document buffer
                (Media.or_default None (js "application/octet-stream"))
                (Media.or_default (Media.file_name f) (js "document")) w
              = (Normal match gemini w with
                        | Some _ =>
                            Llm.unknownTypeMessage
                              (Media.or_default (Media.file_name f) (js "document"))
                        | None => Llm.unavailableMessage
                        end, w)).
  { unfold Media.processor, Media.summarizeDocument, Llm.llmAnalyzeMedia, bind,
      get, try_catch, ret.
    destruct (gemini w); reflexivity. }
  unfold Media.handleMedia, Media.extract. unfold try_catch at 1.
  unfold bind at 1. unfold bind at 1. unfold property. rewrite Hd.
  unfold ret at 1. unfold ret at 1. rewrite Hm, Hf. unfold bind at 1.
  rewrite P. unfold Media.reply. rewrite send_result. unfold delivered.
  destruct (Media.chat ctx); [|reflexivity].
  destruct (Media.accepts ctx _); [reflexivity|].
  cbv beta iota. rewrite send_result. unfold delivered.
  destruct (Media.accepts ctx _); reflexivity.
Qed.

Lemma untyped_document_is_not_analysed_witness :
  Media.handleMedia untypedDocumentCtx Media.document
    (worldWithModel verboseModel)
  = (Normal tt,
     add_reply (worldWithModel verboseModel)
       (js "File received: scan.bin. Our staff will review this file type manually.")
       false).
Proof.
  rewrite (untyped_document_is_not_analysed untypedDocumentCtx
             {| Media.file_id := js "file-1"; Media.mime_type := None;
                Media.file_name := Some (js "scan.bin") |}
             (js "AAAA") (worldWithModel verboseModel) eq_refl eq_refl eq_refl).
  vm_compute. reflexivity.
Defined.

(* ================================================================== *)
(** ** Health keywords behind the emergency rule *)
(* ================================================================== *)

(** X26: three health keywords never decide.  "help", "emergency" and
    "urgent" are emergency keywords too, and that rule comes first: a
    text answered as a health concern contains none of them, and
    contains one of the other eleven health keywords. *)
Theorem health_concern_keywords (ownerRegex : RegExp) (text : jsstring) :
  Telegram.classify ownerRegex text = Telegram.HealthConcern ->
  includes (toLowerCase text) (js "help") = false
  /\ includes (toLowerCase text) (js "emergency") = false
  /\ includes (toLowerCase text) (js "urgent") = false
  /\ existsb (fun keyword => includes (toLowerCase text) keyword)
             decidingHealthKeywords = true.
Proof.
  unfold Telegram.classify. cbv zeta.
  destruct (Llm.containsEmergencyKeywords text) eqn:E; [discriminate|].
  destruct (test ownerRegex text); [discriminate|].
  destruct (array_includes Telegram.bookingShortcuts _); [discriminate|].
  destruct (array_includes Telegram.faqShortcuts _); [discriminate|].
  destruct (array_includes Telegram.staffShortcuts _); [discriminate|].
  destruct (Utils.looksLikeBooking text); [discriminate|].
  destruct (Utils.hasHealthKeywords text) eqn:H; [|discriminate].
  intros _.
  unfold Llm.containsEmergencyKeywords, Llm.emergencyKeywords in E.
  cbv zeta in E. cbn [existsb] in E.
  repeat (apply orb_false_iff in E; destruct E as [? E]).
  unfold Utils.hasHealthKeywords, Utils.healthKeywords in H.
  destruct (is_empty text); [discriminate H|].
  cbv zeta in H. cbn [existsb] in H.
  repeat split; try assumption.
  unfold decidingHealthKeywords. cbn [existsb].
  repeat match goal with
         | K : includes _ _ = false |- _ => rewrite K in H; clear K
         end.
  cbn [orb] in H. rewrite ?orb_false_r in *. exact H.
Qed.

Lemma health_concern_keywords_witness :
  includes (toLowerCase (js "I feel sick")) (js "help") = false
  /\ includes (toLowerCase (js "I feel sick")) (js "emergency") = false
  /\ includes (toLowerCase (js "I feel sick")) (js "urgent") = false
  /\ existsb (fun keyword => includes (toLowerCase (js "I feel sick")) keyword)
             decidingHealthKeywords = true.
Proof.
  apply (health_concern_keywords ownerRegexDefault (js "I feel sick")).
  vm_compute. reflexivity.
Defined.
